(** * Workfront to Cloudinary integration: orchestration core

    A shallow embedding of [config.py], [workfront_api.py],
    [cloudinary_service.py], [authenticate.py], [document_processor.py]
    and [main.py].

    Python code that raises and mutates is embedded in a state and
    exception monad over a [World]: the local filesystem and the
    chronological trace of every interaction with something outside the
    process (HTTP requests, Cloudinary uploads, file operations).  What the
    outside answers is fixed by an [Env], an oracle indexed by the number of
    interactions made so far, so that the same request may be answered
    differently at different moments of one run. *)

From stdpp Require Import gmap strings list pretty.
From Stdlib Require Import ZArith Lia Ascii.

Open Scope Z_scope.
Open Scope string_scope.
Open Scope list_scope.

(** ** Exceptions *)

(** The exception classes the code raises, catches or lets through.
    [KeyboardInterrupt] is the only one that does not derive from
    [Exception]. *)
Inductive Exn : Type :=
| WorkfrontAPIError
| CloudinaryServiceError
| RequestException
| ValueError
| KeyError
| TypeError
| AttributeError
| OSError
| KeyboardInterrupt.

#[global] Instance Exn_eq_dec : EqDecision Exn.
Proof. solve_decision. Defined.

(** [isinstance(e, Exception)] *)
Definition is_Exception (e : Exn) : bool :=
  match e with
  | KeyboardInterrupt => false
  | _ => true
  end.

(** [isinstance(e, (WorkfrontAPIError, CloudinaryServiceError))] *)
Definition is_modelled (e : Exn) : bool :=
  match e with
  | WorkfrontAPIError | CloudinaryServiceError => true
  | _ => false
  end.

(** Outcome of a Python call: a returned value or a raised exception. *)
Inductive Res (A : Type) : Type :=
| Ret (a : A)
| Raise (e : Exn).
Arguments Ret {A} a.
Arguments Raise {A} e.

Definition is_Ret {A} (r : Res A) : bool :=
  match r with
  | Ret _ => true
  | Raise _ => false
  end.

(** ** Data model *)

Definition bytes : Type := list Byte.byte.

(** A document dictionary as decoded from the Workfront JSON: ['ID'] is
    indexed unconditionally by the code, ['name'] is read with [.get]. *)
Record Document : Type := {
  doc_ID : string;
  doc_name : option string
}.

(** A task dictionary: ['ID'] is indexed unconditionally, ['hasDocuments']
    and ['documents'] are read with [.get].  A [Task] has its ['ID'], and
    its ['documents'], when there, is a list; [TaskDict] further down is
    the dictionary before the code has looked at it, which may lack
    either. *)
Record Task : Type := {
  task_ID : string;
  task_hasDocuments : option bool;
  task_documents : option (list Document)
}.

(** [config.py], class [Config]: values read from the process environment
    when the module is loaded. *)
Record Config : Type := {
  WORKFRONT_BASE_URL : string;
  WORKFRONT_API_KEY : string;
  WORKFRONT_BASE : string;
  WORKFRONT_CLIENT_ID : string;
  WORKFRONT_CLIENT_SECRET : string;
  WORKFRONT_CUSTOMER_ID : string;
  WORKFRONT_USER_ID : string;
  WORKFRONT_PRIVATE_KEY : string;
  CLOUDINARY_CLOUD_NAME : string;
  CLOUDINARY_API_KEY : string;
  CLOUDINARY_API_SECRET : string;
  CLOUDINARY_ASSET_FOLDER : string;
  TASK_STATUS_UPLOAD : string;
  TASK_COMPLETE : string;
  TASK_ERROR : string;
  MAX_TASKS_PER_RUN : Z
}.

(** The statistics dictionary of [process_tasks]. *)
Record Stats : Type := {
  total_tasks : Z;
  successful_tasks : Z;
  failed_tasks : Z;
  total_documents : Z
}.

(** ** The outside world *)

(** The three shapes of URL that [_make_request] builds below the API base
    URL: [{object}/{action}?{params}], [{object}/{id}] and [{object}]. *)
Inductive Url : Type :=
| UrlAction (object_name action : string) (params : option string)
| UrlObject (object_name object_id : string)
| UrlCollection (object_name : string).

#[global] Instance Url_eq_dec : EqDecision Url.
Proof. solve_decision. Defined.

(** Operations on the local filesystem. *)
Inductive FsOp : Type :=
| OpCreate (path : string)
| OpWrite (path : string)
| OpRemove (path : string).

#[global] Instance FsOp_eq_dec : EqDecision FsOp.
Proof. solve_decision. Defined.

(** One interaction with the outside, with whether it went through
    ([ok = false]: the call raised). *)
Inductive Event : Type :=
| EvGet (url : Url) (ok : bool)
| EvPut (url : Url) (data : option (string * string)) (ok : bool)
| EvPost (url : Url) (data : option (string * string)) (ok : bool)
| EvDownload (document_id session_id : string) (ok : bool)
| EvUpload (file_path resource_type asset_folder display_name public_id : string)
    (ok : bool)
| EvOAuth (ok : bool)
| EvFs (op : FsOp) (ok : bool).

#[global] Instance Event_eq_dec : EqDecision Event.
Proof. solve_decision. Defined.

Record World : Type := {
  fs : gmap string bytes;
  trace : list Event
}.

(** What the outside answers.  The [nat] is the number of interactions made
    before the call. Each HTTP entry stands for the [requests] call together
    with [raise_for_status()] (and [json()] where the code decodes the
    body): it returns on a non-error response and raises otherwise. *)
Record Env : Type := {
  (* requests.get(url, headers) on the API; the ['data'] entry of the body *)
  requests_get : nat -> Url -> Res (option (list Task));
  (* requests.put(url, headers, json=data); the status code *)
  requests_put : nat -> Url -> option (string * string) -> Res Z;
  (* requests.post(url, headers, json=data); the status code *)
  requests_post : nat -> Url -> option (string * string) -> Res Z;
  (* requests.get on /document/download; the content *)
  requests_download : nat -> string -> string -> Res bytes;
  (* cloudinary.uploader.upload; the ['secure_url'] entry of the response *)
  cloudinary_upload :
    nat -> string -> string -> string -> string -> string -> Res (option string);
  (* jwt.encode(payload, private_key) *)
  jwt_encode : string -> string -> string -> Res string;
  (* requests.post on the OAuth exchange; the ['access_token'] entry *)
  oauth_exchange : nat -> string -> Res (option string);
  (* a local file operation fails with the given exception *)
  fs_fault : nat -> FsOp -> option Exn;
  (* tempfile: the directory and the random part of the next name *)
  gettempdir : string;
  tmp_random : nat -> string
}.

(** ** The monad *)

Definition M (A : Type) : Type := World -> Res A * World.

Definition ret {A} (a : A) : M A := fun w => (Ret a, w).

Definition raise {A} (e : Exn) : M A := fun w => (Raise e, w).

Definition bind {A B} (m : M A) (k : A -> M B) : M B :=
  fun w =>
    match m w with
    | (Ret a, w') => k a w'
    | (Raise e, w') => (Raise e, w')
    end.

Declare Scope py_scope.
Delimit Scope py_scope with py.
Notation "x <- m ;; k" := (bind m (fun x => k))
  (at level 100, m at next level, right associativity) : py_scope.
Notation "m ;;; k" := (bind m (fun _ => k))
  (at level 100, right associativity) : py_scope.
Open Scope py_scope.

(** [try: m  except <classes accepted by h>: h e].  [h e = None] when no
    clause matches [e], which then propagates. *)
Definition try_except {A} (m : M A) (h : Exn -> option (M A)) : M A :=
  fun w =>
    match m w with
    | (Ret a, w') => (Ret a, w')
    | (Raise e, w') =>
        match h e with
        | Some k => k w'
        | None => (Raise e, w')
        end
    end.

(** [try: m  finally: f].  An exception raised by [f] replaces the outcome
    of [m]. *)
Definition try_finally {A} (m : M A) (f : M unit) : M A :=
  fun w =>
    let '(r, w') := m w in
    match f w' with
    | (Ret _, w'') => (r, w'')
    | (Raise e, w'') => (Raise e, w'')
    end.

Definition lift {A} (r : Res A) : M A := fun w => (r, w).

(** The world after one more interaction. *)
Definition push (w : World) (ev : Event) : World :=
  {| fs := fs w; trace := trace w ++ [ev] |}.

Definition emit (ev : Event) : M unit := fun w => (Ret tt, push w ev).

Definition clock : M nat := fun w => (Ret (length (trace w)), w).

Definition set_fs (f : gmap string bytes -> gmap string bytes) : M unit :=
  fun w => (Ret tt, {| fs := f (fs w); trace := trace w |}).

Definition except_class (c : Exn) {A} (k : M A) : Exn -> option (M A) :=
  fun e => if decide (e = c) then Some k else None.

Definition except_Exception {A} (k : M A) : Exn -> option (M A) :=
  fun e => if is_Exception e then Some k else None.

(** Python truth value of a string. *)
Definition truthy (s : string) : bool := negb (String.eqb s "").

(** [str.upper], as it acts on ASCII text: the letters [a] to [z] go to
    [A] to [Z], every other character stays.  On text outside ASCII
    Python's [str.upper] knows further letters, which this embedding of
    strings as bytes does not follow: the callers in this program pass the
    literals ["GET"] and ["PUT"], and what is stated of other methods is
    stated of ASCII ones. *)
Definition upper_ascii (c : ascii) : ascii :=
  let n := nat_of_ascii c in
  if ((97 <=? n)%nat && (n <=? 122)%nat)%bool then ascii_of_nat (n - 32) else c.

Fixpoint upper (s : string) : string :=
  match s with
  | EmptyString => EmptyString
  | String c s' => String (upper_ascii c) (upper s')
  end.

Definition opt_truthy (o : option string) : bool :=
  match o with
  | Some s => truthy s
  | None => false
  end.

(** What [_make_request] returns: the decoded JSON body for a GET (of which
    the code only reads the ['data'] entry), the status code otherwise. *)
Inductive Response : Type :=
| JsonDict (data : option (list Task))
| StatusCode (code : Z).

Section Program.

Variable cfg : Config.
Variable env : Env.

(** ** Calls to the outside *)

Definition http_get (url : Url) : M (option (list Task)) :=
  t <- clock ;;
  let r := requests_get env t url in
  emit (EvGet url (is_Ret r)) ;;; lift r.

Definition http_put (url : Url) (data : option (string * string)) : M Z :=
  t <- clock ;;
  let r := requests_put env t url data in
  emit (EvPut url data (is_Ret r)) ;;; lift r.

Definition http_post (url : Url) (data : option (string * string)) : M Z :=
  t <- clock ;;
  let r := requests_post env t url data in
  emit (EvPost url data (is_Ret r)) ;;; lift r.

Definition http_download (document_id session_id : string) : M bytes :=
  t <- clock ;;
  let r := requests_download env t document_id session_id in
  emit (EvDownload document_id session_id (is_Ret r)) ;;; lift r.

Definition uploader_upload
    (file_path resource_type asset_folder display_name public_id : string)
  : M (option string) :=
  t <- clock ;;
  let r := cloudinary_upload env t file_path resource_type asset_folder
             display_name public_id in
  emit (EvUpload file_path resource_type asset_folder display_name public_id
          (is_Ret r)) ;;;
  lift r.

Definition http_oauth (jwt_token : string) : M (option string) :=
  t <- clock ;;
  let r := oauth_exchange env t jwt_token in
  emit (EvOAuth (is_Ret r)) ;;; lift r.

(** A local file operation: it fails when the environment says so, and has
    its effect [f] on the filesystem otherwise. *)
Definition fs_op (op : FsOp) (f : gmap string bytes -> gmap string bytes)
  : M unit :=
  t <- clock ;;
  match fs_fault env t op with
  | Some e => emit (EvFs op false) ;;; raise e
  | None => emit (EvFs op true) ;;; set_fs f
  end.

(** The name [tempfile] picks at moment [t]: the directory, the prefix
    [tmp] and a random part. *)
Definition tmp_name (t : nat) : string :=
  gettempdir env +:+ "/tmp" +:+ tmp_random env t.

(** [tempfile.NamedTemporaryFile(delete=False)]: a new empty file. *)
Definition NamedTemporaryFile : M string :=
  t <- clock ;;
  let name := tmp_name t in
  fs_op (OpCreate name) (fun m => <[name := []]> m) ;;;
  ret name.

(** [temp_file.write(content); temp_file.flush(); temp_file.close()] *)
Definition file_write (name : string) (content : bytes) : M unit :=
  fs_op (OpWrite name) (fun m => <[name := content]> m).

(** [os.path.exists] *)
Definition path_exists (path : string) : M bool :=
  fun w => (Ret (bool_decide (is_Some (fs w !! path))), w).

(** [os.remove]: [FileNotFoundError] (an [OSError]) on a missing path. *)
Definition os_remove (path : string) : M unit :=
  present <- path_exists path ;;
  if present then fs_op (OpRemove path) (fun m => delete path m)
  else raise OSError.

(** ** [config.py] *)

Definition validate_workfront_config : M unit :=
  let required :=
    [WORKFRONT_BASE_URL cfg; WORKFRONT_API_KEY cfg; WORKFRONT_BASE cfg;
     WORKFRONT_CLIENT_ID cfg; WORKFRONT_CLIENT_SECRET cfg;
     WORKFRONT_CUSTOMER_ID cfg; WORKFRONT_USER_ID cfg;
     WORKFRONT_PRIVATE_KEY cfg] in
  let missing := filter (fun value => negb (truthy value) = true) required in
  match missing with
  | [] => ret tt
  | _ => raise ValueError
  end.

Definition validate_cloudinary_config : M unit :=
  let required :=
    [CLOUDINARY_CLOUD_NAME cfg; CLOUDINARY_API_KEY cfg;
     CLOUDINARY_API_SECRET cfg] in
  let missing := filter (fun value => negb (truthy value) = true) required in
  match missing with
  | [] => ret tt
  | _ => raise ValueError
  end.

Definition validate_all : M unit :=
  validate_workfront_config ;;; validate_cloudinary_config.

(** ** [workfront_api.py] *)

Definition _make_request (method object_name : string)
    (action object_id params : option string)
    (data : option (string * string)) : M Response :=
  let url :=
    if (String.eqb (upper method) "GET" && opt_truthy action)%bool then
      UrlAction object_name (default "" action)
        (if opt_truthy params then params else None)
    else if opt_truthy object_id then
      UrlObject object_name (default "" object_id)
    else UrlCollection object_name in
  try_except
    (if String.eqb (upper method) "GET" then
       body <- http_get url ;; ret (JsonDict body)
     else if String.eqb (upper method) "PUT" then
       code <- http_put url data ;; ret (StatusCode code)
     else if String.eqb (upper method) "POST" then
       code <- http_post url data ;; ret (StatusCode code)
     else raise WorkfrontAPIError)
    (except_class RequestException (raise WorkfrontAPIError)).

Definition search_tasks (status : string) (limit : Z)
    (include_documents : bool) : M (list Task) :=
  let fields := if include_documents then "fields=*,documents" else "fields=*" in
  let params :=
    fields +:+ "&isComplete=false&$$LIMIT=" +:+ pretty limit
      +:+ "&status_Sort=desc&status=" +:+ status in
  response <- _make_request "GET" "TASK" (Some "search") None (Some params) None ;;
  match response with
  | JsonDict data => ret (default [] data)
  | StatusCode _ => raise AttributeError
  end.

Definition download_document (document_id session_id : string) : M bytes :=
  try_except
    (http_download document_id session_id)
    (except_class RequestException (raise WorkfrontAPIError)).

Definition update_document (document_id description : string) : M Response :=
  _make_request "PUT" "document" None (Some document_id) None
    (Some ("description", description)).

Definition update_task_status (task_id status : string) : M Response :=
  _make_request "PUT" "task" None (Some task_id) None
    (Some ("status", status)).

(** ** [cloudinary_service.py] *)

Definition upload_file (file_path public_id display_name resource_type : string)
    (asset_folder : option string) : M (option string) :=
  let folder :=
    if opt_truthy asset_folder then default "" asset_folder
    else CLOUDINARY_ASSET_FOLDER cfg in
  try_except
    (uploader_upload file_path resource_type folder display_name public_id)
    (except_Exception (raise CloudinaryServiceError)).

(** ** [authenticate.py] *)

Definition get_workfront_session_id : M string :=
  let required_vars :=
    [WORKFRONT_BASE cfg; WORKFRONT_CLIENT_ID cfg; WORKFRONT_CLIENT_SECRET cfg;
     WORKFRONT_CUSTOMER_ID cfg; WORKFRONT_USER_ID cfg;
     WORKFRONT_PRIVATE_KEY cfg] in
  let missing_vars :=
    filter (fun var_value => negb (truthy var_value) = true) required_vars in
  match missing_vars with
  | _ :: _ => raise ValueError
  | [] =>
      jwt_token <- lift (jwt_encode env (WORKFRONT_CUSTOMER_ID cfg)
                           (WORKFRONT_USER_ID cfg) (WORKFRONT_PRIVATE_KEY cfg)) ;;
      try_except
        (body <- http_oauth jwt_token ;;
         match body with
         | Some session_id => ret session_id
         | None => raise KeyError
         end)
        (except_class RequestException (raise RequestException))
  end.

(** ** [document_processor.py] *)

Definition _download_to_temp_file (document : Document) (session_id : string)
  : M string :=
  let document_id := doc_ID document in
  content <- download_document document_id session_id ;;
  temp_file <- NamedTemporaryFile ;;
  file_write temp_file content ;;;
  ret temp_file.

Definition _cleanup_temp_file (file_path : string) : M unit :=
  try_except
    (present <- path_exists file_path ;;
     if present then os_remove file_path else ret tt)
    (except_Exception (ret tt)).

(** Steps 2 and 3 of the [try] block of [process_document], once the
    download has given [temp_file_path]. *)
Definition process_document_upload_update (document : Document)
    (temp_file_path : string) : M (bool * string) :=
  let document_id := doc_ID document in
  let document_name := default document_id (doc_name document) in
  upload_response <-
    upload_file temp_file_path document_id document_name "auto" None ;;
  secure_url <-
    match upload_response with
    | Some url => ret url
    | None => raise KeyError
    end ;;
  update_document document_id secure_url ;;;
  ret (true, TASK_COMPLETE cfg).

(** The [try] block of [process_document], run from [w]: the value of the
    local [temp_file_path] when the block is left, and how it is left. *)
Definition process_document_try (document : Document) (session_id : string)
    (w : World) : option string * (Res (bool * string) * World) :=
  match _download_to_temp_file document session_id w with
  | (Raise e, w1) => (None, (Raise e, w1))
  | (Ret temp_file_path, w1) =>
      (Some temp_file_path,
       process_document_upload_update document temp_file_path w1)
  end.

(** The [finally] block of [process_document]. *)
Definition process_document_finally (temp_file_path : option string) : M unit :=
  if opt_truthy temp_file_path
  then _cleanup_temp_file (default "" temp_file_path)
  else ret tt.

Definition process_document (document : Document) (session_id : string)
  : M (bool * string) :=
  fun w =>
    let '(temp_file_path, outcome) := process_document_try document session_id w in
    try_finally
      (try_except (fun _ => outcome)
         (fun e =>
            if is_modelled e then Some (ret (false, TASK_ERROR cfg)) else None))
      (process_document_finally temp_file_path) w.

(** The [for document in documents] loop of [process_task_documents], with
    the list [results] it appends to. *)
Fixpoint process_task_documents_loop (documents : list Document)
    (session_id : string) (results : list bool) : M (list bool) :=
  match documents with
  | [] => ret results
  | document :: rest =>
      r <- process_document document session_id ;;
      let '(success, status) := r in
      process_task_documents_loop rest session_id (results ++ [success])
  end.

Definition process_task_documents (task : Task) (session_id : string)
  : M string :=
  let task_id := task_ID task in
  let documents := default [] (task_documents task) in
  match documents with
  | [] => ret (TASK_ERROR cfg)
  | _ =>
      results <- process_task_documents_loop documents session_id [] ;;
      if forallb (fun b => b) results
      then ret (TASK_COMPLETE cfg)
      else ret (TASK_ERROR cfg)
  end.

(** ** [main.py] *)

Definition validate_configuration : M bool :=
  try_except
    (validate_all ;;; ret true)
    (except_class ValueError (ret false)).

(** [task.get('hasDocuments')] as a condition. *)
Definition has_documents (task : Task) : bool :=
  match task_hasDocuments task with
  | Some b => b
  | None => false
  end.

Definition find_tasks_for_upload : M (list Task) :=
  try_except
    (tasks <- search_tasks (TASK_STATUS_UPLOAD cfg) (MAX_TASKS_PER_RUN cfg) true ;;
     match tasks with
     | [] => ret []
     | _ =>
         let tasks_with_docs := filter (fun task => has_documents task = true) tasks in
         ret tasks_with_docs
     end)
    (except_class WorkfrontAPIError (ret [])).

Definition add_documents (stats : Stats) (n : Z) : Stats :=
  {| total_tasks := total_tasks stats;
     successful_tasks := successful_tasks stats;
     failed_tasks := failed_tasks stats;
     total_documents := total_documents stats + n |}.

Definition add_successful (stats : Stats) : Stats :=
  {| total_tasks := total_tasks stats;
     successful_tasks := successful_tasks stats + 1;
     failed_tasks := failed_tasks stats;
     total_documents := total_documents stats |}.

Definition add_failed (stats : Stats) : Stats :=
  {| total_tasks := total_tasks stats;
     successful_tasks := successful_tasks stats;
     failed_tasks := failed_tasks stats + 1;
     total_documents := total_documents stats |}.

(** The [try] block inside the loop of [process_tasks]. *)
Definition process_task_try (task : Task) (session_id : string) (stats : Stats)
  : M Stats :=
  let task_id := task_ID task in
  final_status <- process_task_documents task session_id ;;
  update_task_status task_id final_status ;;;
  if String.eqb final_status (TASK_COMPLETE cfg)
  then ret (add_successful stats)
  else ret (add_failed stats).

(** The [except Exception] block inside the loop of [process_tasks]. *)
Definition process_task_except (task : Task) (stats : Stats) : M Stats :=
  let task_id := task_ID task in
  let stats := add_failed stats in
  try_except
    (update_task_status task_id (TASK_ERROR cfg) ;;; ret tt)
    (except_Exception (ret tt)) ;;;
  ret stats.

(** One iteration of the loop of [process_tasks], on a task whose ['ID']
    and ['documents'] the two statements before the [try] have read
    ([task_of_dict] has what they do on a dictionary that lacks them). *)
Definition process_task (task : Task) (session_id : string) (stats : Stats)
  : M Stats :=
  let document_count := Z.of_nat (length (default [] (task_documents task))) in
  let stats := add_documents stats document_count in
  try_except
    (process_task_try task session_id stats)
    (except_Exception (process_task_except task stats)).

Fixpoint process_tasks_loop (tasks : list Task) (session_id : string)
    (stats : Stats) : M Stats :=
  match tasks with
  | [] => ret stats
  | task :: rest =>
      stats' <- process_task task session_id stats ;;
      process_tasks_loop rest session_id stats'
  end.

Definition process_tasks (tasks : list Task) (session_id : string) : M Stats :=
  let stats :=
    {| total_tasks := Z.of_nat (length tasks);
       successful_tasks := 0;
       failed_tasks := 0;
       total_documents := 0 |} in
  process_tasks_loop tasks session_id stats.

(** The [try] block of [main].  The constructors [WorkfrontAPI()] and
    [CloudinaryService()] only store settings. *)
Definition main_try : M Z :=
  session_id <- get_workfront_session_id ;;
  tasks <- find_tasks_for_upload ;;
  match tasks with
  | [] => ret 0
  | _ =>
      stats <- process_tasks tasks session_id ;;
      if (failed_tasks stats >? 0)%Z then ret 1 else ret 0
  end.

Definition main : M Z :=
  valid <- validate_configuration ;;
  if negb valid then ret 1
  else
    try_except main_try
      (fun e =>
         if decide (e = KeyboardInterrupt) then Some (ret 130)
         else if is_Exception e then Some (ret 1)
         else None).

End Program.

(** ** The Workfront side, as the trace determines it *)

(** The URL [_make_request] builds for a PUT on an object. *)
Definition object_url (object_name object_id : string) : Url :=
  if truthy object_id then UrlObject object_name object_id
  else UrlCollection object_name.

(** The value an event writes into the description field of
    [document_id]: only a PUT on that document that went through writes. *)
Definition written_description (document_id : string) (ev : Event)
  : option string :=
  match ev with
  | EvPut (UrlObject object_name object_id) (Some (field, value)) true =>
      if (String.eqb object_name "document" && String.eqb object_id document_id
          && String.eqb field "description")%bool
      then Some value else None
  | _ => None
  end.

(** The description field of [document_id] once the interactions of [tr]
    have happened, [init] being its value before them. *)
Definition description_after (tr : list Event) (document_id : string)
    (init : option string) : option string :=
  fold_left
    (fun d ev =>
       match written_description document_id ev with
       | Some v => Some v
       | None => d
       end)
    tr init.

(** The status an event writes on task [task_id]. *)
Definition is_task_update (task_id : string) (ev : Event) : bool :=
  match ev with
  | EvPut url (Some (field, value)) _ =>
      bool_decide (url = object_url "task" task_id) && String.eqb field "status"
  | _ => false
  end.

(** ** Notions the statements use *)

Section Notions.

Variable cfg : Config.
Variable env : Env.


(** The documents of a task, as [task.get('documents', [])] gives them. *)
Definition documents_of (task : Task) : list Document :=
  default [] (task_documents task).

(** [ev] is an interaction that processing the document [d] may cause. *)
Definition document_event (d : Document) (ev : Event) : Prop :=
  match ev with
  | EvDownload document_id _ _ => document_id = doc_ID d
  | EvUpload _ _ _ _ public_id _ => public_id = doc_ID d
  | EvPut url (Some (field, _)) _ =>
      url = object_url "document" (doc_ID d) /\ field = "description"
  | EvFs _ _ => True
  | _ => False
  end.

(** [ev] stays on this side of the network or only reads from the other:
    a download or a local file operation. *)
Definition local_event (ev : Event) : Prop :=
  match ev with
  | EvDownload _ _ _ | EvFs _ _ => True
  | _ => False
  end.

(** The interactions of steps 2 and 3 for [d]: nothing, one upload, or an
    upload that went through followed by the PUT of [url] as description. *)
Definition upload_then_put (d : Document) (mid : list Event) : Prop :=
  let name := default (doc_ID d) (doc_name d) in
  let folder := CLOUDINARY_ASSET_FOLDER cfg in
  mid = []
  \/ (exists p ok, mid = [EvUpload p "auto" folder name (doc_ID d) ok])
  \/ (exists p t url ok,
        cloudinary_upload env t p "auto" folder name (doc_ID d) = Ret (Some url) /\
        mid = [EvUpload p "auto" folder name (doc_ID d) true;
               EvPut (object_url "document" (doc_ID d))
                 (Some ("description", url)) ok]).

(** [ev] is an interaction that processing the tasks [tasks] may cause: a
    status update of one of them, or an interaction for one of their
    documents. *)
Definition task_event (tasks : list Task) (ev : Event) : Prop :=
  (exists task, task ∈ tasks /\
     exists value ok,
       ev = EvPut (object_url "task" (task_ID task)) (Some ("status", value)) ok)
  \/ (exists task d, task ∈ tasks /\ d ∈ documents_of task /\ document_event d ev).

(** The URL of the task search of [find_tasks_for_upload]. *)
Definition search_url : Url :=
  UrlAction "TASK" "search"
    (Some ("fields=*,documents" +:+ "&isComplete=false&$$LIMIT="
           +:+ pretty (MAX_TASKS_PER_RUN cfg)
           +:+ "&status_Sort=desc&status=" +:+ TASK_STATUS_UPLOAD cfg)).

(** Every setting that [Config.validate_all] requires is there. *)
Definition config_valid : bool :=
  forallb truthy
    [WORKFRONT_BASE_URL cfg; WORKFRONT_API_KEY cfg; WORKFRONT_BASE cfg;
     WORKFRONT_CLIENT_ID cfg; WORKFRONT_CLIENT_SECRET cfg;
     WORKFRONT_CUSTOMER_ID cfg; WORKFRONT_USER_ID cfg;
     WORKFRONT_PRIVATE_KEY cfg; CLOUDINARY_CLOUD_NAME cfg;
     CLOUDINARY_API_KEY cfg; CLOUDINARY_API_SECRET cfg].

(** The outside never interrupts the processing of the tasks: none of the
    calls that [process_tasks] makes raises [KeyboardInterrupt]. *)
Definition no_interrupt : Prop :=
  (forall t url, requests_get env t url <> Raise KeyboardInterrupt) /\
  (forall t url data, requests_put env t url data <> Raise KeyboardInterrupt) /\
  (forall t id sid, requests_download env t id sid <> Raise KeyboardInterrupt) /\
  (forall t p rt f dn id,
     cloudinary_upload env t p rt f dn id <> Raise KeyboardInterrupt) /\
  (forall t op, fs_fault env t op <> Some KeyboardInterrupt).

End Notions.

(** ** Sample data *)

Definition sample_config : Config :=
  {| WORKFRONT_BASE_URL := "https://example.my.workfront.com";
     WORKFRONT_API_KEY := "key";
     WORKFRONT_BASE := "example";
     WORKFRONT_CLIENT_ID := "client";
     WORKFRONT_CLIENT_SECRET := "secret";
     WORKFRONT_CUSTOMER_ID := "customer";
     WORKFRONT_USER_ID := "user";
     WORKFRONT_PRIVATE_KEY := "pem";
     CLOUDINARY_CLOUD_NAME := "demo";
     CLOUDINARY_API_KEY := "ckey";
     CLOUDINARY_API_SECRET := "csecret";
     CLOUDINARY_ASSET_FOLDER := "workfront";
     TASK_STATUS_UPLOAD := "UPL";
     TASK_COMPLETE := "CPL";
     TASK_ERROR := "ERR";
     MAX_TASKS_PER_RUN := 100 |}.

Definition empty_world : World := {| fs := ∅; trace := [] |}.

Definition doc_A : Document := {| doc_ID := "A"; doc_name := Some "a.png" |}.
Definition doc_B : Document := {| doc_ID := "B"; doc_name := Some "b.png" |}.
Definition doc_unnamed : Document := {| doc_ID := "N"; doc_name := None |}.

Definition task_T1 : Task :=
  {| task_ID := "T1"; task_hasDocuments := Some true;
     task_documents := Some [doc_A; doc_B] |}.

Definition task_T2 : Task :=
  {| task_ID := "T2"; task_hasDocuments := Some true;
     task_documents := Some [doc_A; doc_B] |}.

Definition task_T3 : Task :=
  {| task_ID := "T3"; task_hasDocuments := Some true;
     task_documents := Some [doc_unnamed] |}.

Definition task_empty : Task :=
  {| task_ID := "T4"; task_hasDocuments := Some false;
     task_documents := Some [] |}.

Definition task_bare : Task :=
  {| task_ID := "T5"; task_hasDocuments := None; task_documents := None |}.

Definition five_tasks : list Task :=
  [task_T1; task_empty; task_T2; task_bare; task_T3].

(** An outside where every call goes through; the search finds [found]. *)
Definition env_ok (found : list Task) : Env :=
  {| requests_get := fun _ _ => Ret (Some found);
     requests_put := fun _ _ _ => Ret 200;
     requests_post := fun _ _ _ => Ret 200;
     requests_download := fun _ _ _ => Ret [];
     cloudinary_upload := fun _ _ _ _ _ public_id =>
       Ret (Some ("https://res.cloudinary.com/demo/" +:+ public_id));
     jwt_encode := fun _ _ _ => Ret "jwt";
     oauth_exchange := fun _ _ => Ret (Some "session");
     fs_fault := fun _ _ => None;
     gettempdir := "/tmp";
     tmp_random := fun t => pretty t |}.

(** As [env_ok], but local file operations fail as [faults] says. *)
Definition env_fs_faults (found : list Task) (faults : FsOp -> option Exn) : Env :=
  {| requests_get := requests_get (env_ok found);
     requests_put := requests_put (env_ok found);
     requests_post := requests_post (env_ok found);
     requests_download := requests_download (env_ok found);
     cloudinary_upload := cloudinary_upload (env_ok found);
     jwt_encode := jwt_encode (env_ok found);
     oauth_exchange := oauth_exchange (env_ok found);
     fs_fault := fun _ op => faults op;
     gettempdir := gettempdir (env_ok found);
     tmp_random := tmp_random (env_ok found) |}.

(** [os.remove] fails (say, the file is held open elsewhere). *)
Definition remove_fails (op : FsOp) : option Exn :=
  match op with
  | OpRemove _ => Some OSError
  | _ => None
  end.

(** Writing the downloaded bytes fails (say, the disk is full). *)
Definition write_fails (op : FsOp) : option Exn :=
  match op with
  | OpWrite _ => Some OSError
  | _ => None
  end.

(** As [env_ok], but the task search gets an HTTP error. *)
Definition env_search_fails : Env :=
  {| requests_get := fun _ _ => Raise RequestException;
     requests_put := requests_put (env_ok []);
     requests_post := requests_post (env_ok []);
     requests_download := requests_download (env_ok []);
     cloudinary_upload := cloudinary_upload (env_ok []);
     jwt_encode := jwt_encode (env_ok []);
     oauth_exchange := oauth_exchange (env_ok []);
     fs_fault := fs_fault (env_ok []);
     gettempdir := gettempdir (env_ok []);
     tmp_random := tmp_random (env_ok []) |}.

(** As [env_ok], but Cloudinary rejects the upload of the document
    [rejected]. *)
Definition env_upload_fails (found : list Task) (rejected : string) : Env :=
  {| requests_get := requests_get (env_ok found);
     requests_put := requests_put (env_ok found);
     requests_post := requests_post (env_ok found);
     requests_download := requests_download (env_ok found);
     cloudinary_upload := fun t p rt f dn public_id =>
       if String.eqb public_id rejected then Raise OSError
       else cloudinary_upload (env_ok found) t p rt f dn public_id;
     jwt_encode := jwt_encode (env_ok found);
     oauth_exchange := oauth_exchange (env_ok found);
     fs_fault := fs_fault (env_ok found);
     gettempdir := gettempdir (env_ok found);
     tmp_random := tmp_random (env_ok found) |}.

(** As [env_ok], but every PUT on a task gets a connection error. *)
Definition env_task_update_fails (found : list Task) : Env :=
  {| requests_get := requests_get (env_ok found);
     requests_put := fun t url data =>
       match url with
       | UrlObject object_name _ =>
           if String.eqb object_name "task" then Raise RequestException
           else Ret 200
       | _ => Ret 200
       end;
     requests_post := requests_post (env_ok found);
     requests_download := requests_download (env_ok found);
     cloudinary_upload := cloudinary_upload (env_ok found);
     jwt_encode := jwt_encode (env_ok found);
     oauth_exchange := oauth_exchange (env_ok found);
     fs_fault := fs_fault (env_ok found);
     gettempdir := gettempdir (env_ok found);
     tmp_random := tmp_random (env_ok found) |}.

(** ** Notions for the further properties *)

(** The class attribute [Config.WORKFRONT_API_VERSION]. *)
Definition WORKFRONT_API_VERSION : string := "v19.0".

(** [Config.get_workfront_api_base_url] *)
Definition get_workfront_api_base_url (cfg : Config) : string :=
  WORKFRONT_BASE_URL cfg +:+ "/attask/api/" +:+ WORKFRONT_API_VERSION.

(** The string [_make_request] builds for each shape of URL, [base_url]
    being [self.base_url]. *)
Definition render_url (base_url : string) (url : Url) : string :=
  match url with
  | UrlAction object_name action params =>
      base_url +:+ "/" +:+ object_name +:+ "/" +:+ action +:+
        match params with
        | Some query => "?" +:+ query
        | None => ""
        end
  | UrlObject object_name object_id =>
      base_url +:+ "/" +:+ object_name +:+ "/" +:+ object_id
  | UrlCollection object_name => base_url +:+ "/" +:+ object_name
  end.

(** Number of events of a trace that satisfy [f]. *)
Definition count_events (f : Event -> bool) (tr : list Event) : nat :=
  length (List.filter f tr).

Definition is_download (ev : Event) : bool :=
  match ev with
  | EvDownload _ _ _ => true
  | _ => false
  end.

Definition is_upload (ev : Event) : bool :=
  match ev with
  | EvUpload _ _ _ _ _ _ => true
  | _ => false
  end.

Definition is_put (ev : Event) : bool :=
  match ev with
  | EvPut _ _ _ => true
  | _ => false
  end.

(** A PUT of a ["status"] field, whatever its outcome. *)
Definition is_status_put (ev : Event) : bool :=
  match ev with
  | EvPut _ (Some (field, _)) _ => String.eqb field "status"
  | _ => false
  end.

(** A PUT of the status [code] that went through. *)
Definition is_status_set (code : string) (ev : Event) : bool :=
  match ev with
  | EvPut _ (Some (field, value)) true =>
      String.eqb field "status" && String.eqb value code
  | _ => false
  end.

(** An interaction with the network, as opposed to a local file
    operation. *)
Definition is_network (ev : Event) : bool :=
  match ev with
  | EvFs _ _ => false
  | _ => true
  end.

(** The IDs of the documents whose download was requested, in order. *)
Definition downloaded_ids (tr : list Event) : list string :=
  omap (fun ev => match ev with
                  | EvDownload document_id _ _ => Some document_id
                  | _ => None
                  end) tr.

(** Nothing fails on the way of a document: every download, upload and PUT
    is answered, the upload with a URL, and no file operation fails. *)
Definition reliable (env : Env) : Prop :=
  (forall t id sid, exists content, requests_download env t id sid = Ret content) /\
  (forall t p rt f dn id, exists url,
     cloudinary_upload env t p rt f dn id = Ret (Some url)) /\
  (forall t url data, exists code, requests_put env t url data = Ret code) /\
  (forall t op, fs_fault env t op = None).

(** The six variables [get_workfront_session_id] requires. *)
Definition oauth_vars (cfg : Config) : list string :=
  [WORKFRONT_BASE cfg; WORKFRONT_CLIENT_ID cfg; WORKFRONT_CLIENT_SECRET cfg;
   WORKFRONT_CUSTOMER_ID cfg; WORKFRONT_USER_ID cfg; WORKFRONT_PRIVATE_KEY cfg].

(** As [env_ok], but the OAuth exchange is refused. *)
Definition env_oauth_fails : Env :=
  {| requests_get := requests_get (env_ok []);
     requests_put := requests_put (env_ok []);
     requests_post := requests_post (env_ok []);
     requests_download := requests_download (env_ok []);
     cloudinary_upload := cloudinary_upload (env_ok []);
     jwt_encode := jwt_encode (env_ok []);
     oauth_exchange := fun _ _ => Raise RequestException;
     fs_fault := fs_fault (env_ok []);
     gettempdir := gettempdir (env_ok []);
     tmp_random := tmp_random (env_ok []) |}.

(** As [env_ok], but every download gets an HTTP error. *)
Definition env_download_fails : Env :=
  {| requests_get := requests_get (env_ok []);
     requests_put := requests_put (env_ok []);
     requests_post := requests_post (env_ok []);
     requests_download := fun _ _ _ => Raise RequestException;
     cloudinary_upload := cloudinary_upload (env_ok []);
     jwt_encode := jwt_encode (env_ok []);
     oauth_exchange := oauth_exchange (env_ok []);
     fs_fault := fs_fault (env_ok []);
     gettempdir := gettempdir (env_ok []);
     tmp_random := tmp_random (env_ok []) |}.

(** Settings with no Cloudinary credentials. *)
Definition config_without_cloudinary : Config :=
  {| WORKFRONT_BASE_URL := WORKFRONT_BASE_URL sample_config;
     WORKFRONT_API_KEY := WORKFRONT_API_KEY sample_config;
     WORKFRONT_BASE := WORKFRONT_BASE sample_config;
     WORKFRONT_CLIENT_ID := WORKFRONT_CLIENT_ID sample_config;
     WORKFRONT_CLIENT_SECRET := WORKFRONT_CLIENT_SECRET sample_config;
     WORKFRONT_CUSTOMER_ID := WORKFRONT_CUSTOMER_ID sample_config;
     WORKFRONT_USER_ID := WORKFRONT_USER_ID sample_config;
     WORKFRONT_PRIVATE_KEY := WORKFRONT_PRIVATE_KEY sample_config;
     CLOUDINARY_CLOUD_NAME := "";
     CLOUDINARY_API_KEY := "";
     CLOUDINARY_API_SECRET := "";
     CLOUDINARY_ASSET_FOLDER := CLOUDINARY_ASSET_FOLDER sample_config;
     TASK_STATUS_UPLOAD := TASK_STATUS_UPLOAD sample_config;
     TASK_COMPLETE := TASK_COMPLETE sample_config;
     TASK_ERROR := TASK_ERROR sample_config;
     MAX_TASKS_PER_RUN := MAX_TASKS_PER_RUN sample_config |}.

(** As [env_ok], but the user interrupts the run during a download. *)
Definition env_interrupted : Env :=
  {| requests_get := requests_get (env_ok []);
     requests_put := requests_put (env_ok []);
     requests_post := requests_post (env_ok []);
     requests_download := fun _ _ _ => Raise KeyboardInterrupt;
     cloudinary_upload := cloudinary_upload (env_ok []);
     jwt_encode := jwt_encode (env_ok []);
     oauth_exchange := oauth_exchange (env_ok []);
     fs_fault := fs_fault (env_ok []);
     gettempdir := gettempdir (env_ok []);
     tmp_random := tmp_random (env_ok []) |}.

(** ** Notions for the loop of [process_tasks] *)

(** [str.isascii] *)
Fixpoint isascii (s : string) : bool :=
  match s with
  | EmptyString => true
  | String c s' => (nat_of_ascii c <? 128)%nat && isascii s'
  end.

Section Runs.

Variable cfg : Config.

(** The status updates that one iteration of the loop of [process_tasks]
    sends for [task]:
    - the update of the [try] block, with the status that
      [process_task_documents] returned, went through, and that is all;
    - the update of the [try] block raised, and the [except] block has sent
      a second one, with [Config.TASK_ERROR];
    - [process_task_documents] itself raised, and the [except] block has
      sent the only one, with [Config.TASK_ERROR]. *)
Inductive status_updates (task : Task) : list Event -> Prop :=
| status_updated final_status :
    final_status = TASK_COMPLETE cfg \/ final_status = TASK_ERROR cfg ->
    status_updates task
      [EvPut (object_url "task" (task_ID task))
         (Some ("status", final_status)) true]
| status_update_failed final_status ok :
    final_status = TASK_COMPLETE cfg \/ final_status = TASK_ERROR cfg ->
    status_updates task
      [EvPut (object_url "task" (task_ID task))
         (Some ("status", final_status)) false;
       EvPut (object_url "task" (task_ID task))
         (Some ("status", TASK_ERROR cfg)) ok]
| status_after_exception ok :
    status_updates task
      [EvPut (object_url "task" (task_ID task))
         (Some ("status", TASK_ERROR cfg)) ok].

(** [tasks_trace tasks tr]: [tr] is, task after task in the order of
    [tasks], interactions for the documents of the task followed by the
    status updates of that task. *)
Inductive tasks_trace : list Task -> list Event -> Prop :=
| tasks_trace_nil : tasks_trace [] []
| tasks_trace_cons task rest documents_part status_part tr :
    Forall (fun ev => exists d, d ∈ documents_of task /\ document_event d ev)
      documents_part ->
    status_updates task status_part ->
    tasks_trace rest tr ->
    tasks_trace (task :: rest) (documents_part ++ status_part ++ tr).

End Runs.

(** ** Task dictionaries as [process_tasks] receives them *)

(** The ['documents'] entry of a task dictionary before the code has looked
    at it: no such key, a value that has no length ([null], a number, a
    boolean), or a list of documents. *)
Inductive DocumentsEntry : Type :=
| DocumentsMissing
| DocumentsUnsized
| DocumentsList (documents : list Document).

(** A task dictionary before the code has looked at it: the key ['ID'] may
    be missing too.  [Task] above is what the loop body of [process_tasks]
    works with once its first two statements have run. *)
Record TaskDict : Type := {
  dict_ID : option string;
  dict_hasDocuments : option bool;
  dict_documents : DocumentsEntry
}.

(** The first two statements of the loop body of [process_tasks], which
    stand before its [try]: [task_id = task['ID']] raises [KeyError] on a
    dictionary without the key, and
    [document_count = len(task.get('documents', []))] raises [TypeError] on
    a value that has no length. *)
Definition task_of_dict (task : TaskDict) : Res Task :=
  match dict_ID task with
  | None => Raise KeyError
  | Some task_id =>
      match dict_documents task with
      | DocumentsUnsized => Raise TypeError
      | DocumentsMissing =>
          Ret {| task_ID := task_id;
                 task_hasDocuments := dict_hasDocuments task;
                 task_documents := None |}
      | DocumentsList documents =>
          Ret {| task_ID := task_id;
                 task_hasDocuments := dict_hasDocuments task;
                 task_documents := Some documents |}
      end
  end.

Section Dictionaries.

Variable cfg : Config.
Variable env : Env.

(** The loop of [process_tasks] over task dictionaries: the two statements
    before the [try], then the iteration as [process_task] has it. *)
Fixpoint process_tasks_loop_dicts (tasks : list TaskDict) (session_id : string)
    (stats : Stats) : M Stats :=
  match tasks with
  | [] => ret stats
  | task :: rest =>
      task' <- lift (task_of_dict task) ;;
      stats' <- process_task cfg env task' session_id stats ;;
      process_tasks_loop_dicts rest session_id stats'
  end.

(** [process_tasks] over task dictionaries. *)
Definition process_tasks_dicts (tasks : list TaskDict) (session_id : string)
  : M Stats :=
  let stats :=
    {| total_tasks := Z.of_nat (length tasks);
       successful_tasks := 0;
       failed_tasks := 0;
       total_documents := 0 |} in
  process_tasks_loop_dicts tasks session_id stats.

End Dictionaries.

(** The dictionary of a task. *)
Definition dict_of_task (task : Task) : TaskDict :=
  {| dict_ID := Some (task_ID task);
     dict_hasDocuments := task_hasDocuments task;
     dict_documents :=
       match task_documents task with
       | Some documents => DocumentsList documents
       | None => DocumentsMissing
       end |}.

(** A task dictionary without ['ID']. *)
Definition dict_without_ID : TaskDict :=
  {| dict_ID := None; dict_hasDocuments := Some true;
     dict_documents := DocumentsList [doc_A] |}.

(** A task dictionary whose ['documents'] is [null]. *)
Definition dict_null_documents : TaskDict :=
  {| dict_ID := Some "T6"; dict_hasDocuments := Some true;
     dict_documents := DocumentsUnsized |}.

(** * Proofs *)

Section Proofs.

Variable cfg : Config.
Variable env : Env.

(** *** Primitive steps *)

Lemma bind_ret_inv {A B} (m : M A) (k : A -> M B) w r w' :
  bind m k w = (r, w') ->
  (exists a w1, m w = (Ret a, w1) /\ k a w1 = (r, w')) \/
  (exists e, m w = (Raise e, w') /\ r = Raise e).
Proof.
  unfold bind. destruct (m w) as [[a|e] w1]; intros H.
  - left. eauto.
  - right. inversion H; subst. eauto.
Qed.

Lemma http_put_eq url data w :
  http_put env url data w =
    (requests_put env (length (trace w)) url data,
     push w (EvPut url data (is_Ret (requests_put env (length (trace w)) url data)))).
Proof. reflexivity. Qed.

Lemma http_get_eq url w :
  http_get env url w =
    (requests_get env (length (trace w)) url,
     push w (EvGet url (is_Ret (requests_get env (length (trace w)) url)))).
Proof. reflexivity. Qed.

Lemma http_download_eq id sid w :
  http_download env id sid w =
    (requests_download env (length (trace w)) id sid,
     push w (EvDownload id sid (is_Ret (requests_download env (length (trace w)) id sid)))).
Proof. reflexivity. Qed.

Lemma uploader_upload_eq p rt f dn id w :
  uploader_upload env p rt f dn id w =
    (cloudinary_upload env (length (trace w)) p rt f dn id,
     push w (EvUpload p rt f dn id
               (is_Ret (cloudinary_upload env (length (trace w)) p rt f dn id)))).
Proof. reflexivity. Qed.

Lemma fs_op_eq op f w :
  fs_op env op f w =
    match fs_fault env (length (trace w)) op with
    | Some e => (Raise e, push w (EvFs op false))
    | None => (Ret tt, {| fs := f (fs w); trace := trace w ++ [EvFs op true] |})
    end.
Proof.
  unfold fs_op, bind, clock. cbn.
  destruct (fs_fault env (length (trace w)) op); reflexivity.
Qed.

Lemma upper_PUT : upper "PUT" = "PUT".
Proof. reflexivity. Qed.

Lemma upper_GET : upper "GET" = "GET".
Proof. reflexivity. Qed.

(** A PUT through [_make_request]: one event, and a [RequestException]
    never comes out. *)
Lemma make_request_put object_name object_id data w :
  _make_request env "PUT" object_name None (Some object_id) None data w =
    let url := object_url object_name object_id in
    let r := requests_put env (length (trace w)) url data in
    (match r with
     | Ret code => Ret (StatusCode code)
     | Raise e => if decide (e = RequestException) then Raise WorkfrontAPIError else Raise e
     end,
     push w (EvPut url data (is_Ret r))).
Proof.
  unfold _make_request. rewrite upper_PUT. cbn [String.eqb Ascii.eqb Bool.eqb andb opt_truthy default].
  unfold object_url.
  destruct (truthy object_id); cbn;
  unfold try_except, bind; rewrite http_put_eq;
  match goal with |- context [requests_put env ?t ?u ?d] =>
    destruct (requests_put env t u d) as [c|e] end; cbn; try reflexivity;
  unfold except_class; destruct (decide (e = RequestException)); reflexivity.
Qed.


Lemma update_document_eq document_id description w :
  update_document env document_id description w =
    let url := object_url "document" document_id in
    let data := Some ("description", description) in
    let r := requests_put env (length (trace w)) url data in
    (match r with
     | Ret code => Ret (StatusCode code)
     | Raise e => if decide (e = RequestException) then Raise WorkfrontAPIError else Raise e
     end,
     push w (EvPut url data (is_Ret r))).
Proof. apply make_request_put. Qed.

Lemma update_task_status_eq task_id status w :
  update_task_status env task_id status w =
    let url := object_url "task" task_id in
    let data := Some ("status", status) in
    let r := requests_put env (length (trace w)) url data in
    (match r with
     | Ret code => Ret (StatusCode code)
     | Raise e => if decide (e = RequestException) then Raise WorkfrontAPIError else Raise e
     end,
     push w (EvPut url data (is_Ret r))).
Proof. apply make_request_put. Qed.

Lemma upload_file_eq file_path public_id display_name w :
  upload_file cfg env file_path public_id display_name "auto" None w =
    let folder := CLOUDINARY_ASSET_FOLDER cfg in
    let r := cloudinary_upload env (length (trace w)) file_path "auto" folder
               display_name public_id in
    (match r with
     | Ret response => Ret response
     | Raise e => if is_Exception e then Raise CloudinaryServiceError else Raise e
     end,
     push w (EvUpload file_path "auto" folder display_name public_id (is_Ret r))).
Proof.
  unfold upload_file, try_except. cbn [opt_truthy]. rewrite uploader_upload_eq. cbn zeta.
  destruct (cloudinary_upload env _ _ _ _ _ _) as [x|e]; [reflexivity|].
  unfold except_Exception. destruct (is_Exception e); reflexivity.
Qed.

Lemma download_document_eq document_id session_id w :
  download_document env document_id session_id w =
    let r := requests_download env (length (trace w)) document_id session_id in
    (match r with
     | Ret content => Ret content
     | Raise e => if decide (e = RequestException) then Raise WorkfrontAPIError else Raise e
     end,
     push w (EvDownload document_id session_id (is_Ret r))).
Proof.
  unfold download_document, try_except. rewrite http_download_eq. cbn zeta.
  destruct (requests_download env _ _ _) as [x|e]; [reflexivity|].
  unfold except_class. destruct (decide (e = RequestException)); reflexivity.
Qed.

Lemma tmp_name_truthy t : truthy (tmp_name env t) = true.
Proof.
  unfold tmp_name. destruct (gettempdir env); reflexivity.
Qed.

Lemma NamedTemporaryFile_eq w :
  NamedTemporaryFile env w =
    let name := tmp_name env (length (trace w)) in
    match fs_fault env (length (trace w)) (OpCreate name) with
    | Some e => (Raise e, push w (EvFs (OpCreate name) false))
    | None =>
        (Ret name,
         {| fs := <[name := []]> (fs w);
            trace := trace w ++ [EvFs (OpCreate name) true] |})
    end.
Proof.
  unfold NamedTemporaryFile, bind at 1, clock. cbn zeta.
  unfold bind. rewrite fs_op_eq.
  destruct (fs_fault env _ _); reflexivity.
Qed.

Lemma cleanup_temp_file_eq file_path w :
  _cleanup_temp_file env file_path w =
    if bool_decide (is_Some (fs w !! file_path)) then
      match fs_fault env (length (trace w)) (OpRemove file_path) with
      | Some e =>
          (if is_Exception e then Ret tt else Raise e,
           push w (EvFs (OpRemove file_path) false))
      | None =>
          (Ret tt,
           {| fs := delete file_path (fs w);
              trace := trace w ++ [EvFs (OpRemove file_path) true] |})
      end
    else (Ret tt, w).
Proof.
  unfold _cleanup_temp_file, try_except, bind at 1, path_exists.
  destruct (bool_decide (is_Some (fs w !! file_path))) eqn:Hex; [|reflexivity].
  unfold os_remove, bind, path_exists. rewrite Hex, fs_op_eq.
  destruct (fs_fault env _ _) as [e|]; [|reflexivity].
  unfold except_Exception. destruct (is_Exception e); reflexivity.
Qed.

Lemma process_document_upload_update_eq document temp_file_path w :
  process_document_upload_update cfg env document temp_file_path w =
    let document_id := doc_ID document in
    let document_name := default document_id (doc_name document) in
    let folder := CLOUDINARY_ASSET_FOLDER cfg in
    let ru := cloudinary_upload env (length (trace w)) temp_file_path "auto"
                folder document_name document_id in
    let w1 := push w (EvUpload temp_file_path "auto" folder document_name
                        document_id (is_Ret ru)) in
    match ru with
    | Raise e => (Raise (if is_Exception e then CloudinaryServiceError else e), w1)
    | Ret None => (Raise KeyError, w1)
    | Ret (Some secure_url) =>
        let url := object_url "document" document_id in
        let data := Some ("description", secure_url) in
        let rp := requests_put env (length (trace w1)) url data in
        (match rp with
         | Ret _ => Ret (true, TASK_COMPLETE cfg)
         | Raise e => Raise (if decide (e = RequestException) then WorkfrontAPIError else e)
         end,
         push w1 (EvPut url data (is_Ret rp)))
    end.
Proof.
  unfold process_document_upload_update, bind. rewrite upload_file_eq. cbn zeta.
  destruct (cloudinary_upload env _ _ _ _ _ _) as [[url|]|e]; cbn.
  - rewrite update_document_eq. cbn zeta.
    destruct (requests_put env _ _ _) as [c|e]; [reflexivity|].
    destruct (decide (e = RequestException)); reflexivity.
  - reflexivity.
  - destruct (is_Exception e); reflexivity.
Qed.

Lemma download_to_temp_file_eq document session_id w :
  _download_to_temp_file env document session_id w =
    let document_id := doc_ID document in
    let rd := requests_download env (length (trace w)) document_id session_id in
    let w1 := push w (EvDownload document_id session_id (is_Ret rd)) in
    match rd with
    | Raise e => (Raise (if decide (e = RequestException) then WorkfrontAPIError else e), w1)
    | Ret content =>
        let name := tmp_name env (length (trace w1)) in
        match fs_fault env (length (trace w1)) (OpCreate name) with
        | Some e => (Raise e, push w1 (EvFs (OpCreate name) false))
        | None =>
            let w2 := {| fs := <[name := []]> (fs w1);
                         trace := trace w1 ++ [EvFs (OpCreate name) true] |} in
            match fs_fault env (length (trace w2)) (OpWrite name) with
            | Some e => (Raise e, push w2 (EvFs (OpWrite name) false))
            | None =>
                (Ret name,
                 {| fs := <[name := content]> (fs w2);
                    trace := trace w2 ++ [EvFs (OpWrite name) true] |})
            end
        end
    end.
Proof.
  unfold _download_to_temp_file, bind. rewrite download_document_eq. cbn zeta.
  destruct (requests_download env _ _ _) as [content|e].
  - rewrite NamedTemporaryFile_eq. cbn zeta.
    destruct (fs_fault env _ (OpCreate _)) as [e|]; [reflexivity|].
    unfold file_write. rewrite fs_op_eq.
    destruct (fs_fault env _ (OpWrite _)) as [e|]; reflexivity.
  - destruct (decide (e = RequestException)); reflexivity.
Qed.


(** *** [process_document], step by step *)

Lemma download_path_truthy document session_id w p w1 :
  _download_to_temp_file env document session_id w = (Ret p, w1) ->
  truthy p = true.
Proof.
  rewrite download_to_temp_file_eq. cbn zeta.
  destruct (requests_download env _ _ _) as [content|e]; [|discriminate].
  destruct (fs_fault env _ (OpCreate _)) as [e|]; [discriminate|].
  destruct (fs_fault env _ (OpWrite _)) as [e|]; [discriminate|].
  intros H. inversion H; subst. apply tmp_name_truthy.
Qed.

(** When the download raises, the [finally] block has nothing to remove. *)
Lemma process_document_download_raises document session_id w e w1 :
  _download_to_temp_file env document session_id w = (Raise e, w1) ->
  process_document cfg env document session_id w =
    (if is_modelled e then Ret (false, TASK_ERROR cfg) else Raise e, w1).
Proof.
  intros Hd. unfold process_document, process_document_try. rewrite Hd.
  unfold try_finally, try_except, process_document_finally. cbn.
  destruct (is_modelled e); reflexivity.
Qed.

(** When the download returns a path, the outcome is that of steps 2 and 3
    seen through the [except] clause, unless the cleanup itself raises. *)
Lemma process_document_download_returns document session_id w p w1 r w2 c w3 :
  _download_to_temp_file env document session_id w = (Ret p, w1) ->
  process_document_upload_update cfg env document p w1 = (r, w2) ->
  _cleanup_temp_file env p w2 = (c, w3) ->
  process_document cfg env document session_id w =
    (match c with
     | Raise e => Raise e
     | Ret _ =>
         match r with
         | Raise e => if is_modelled e then Ret (false, TASK_ERROR cfg) else Raise e
         | Ret v => Ret v
         end
     end, w3).
Proof.
  intros Hd Hu Hc. pose proof (download_path_truthy _ _ _ _ _ Hd) as Ht.
  unfold process_document, process_document_try. rewrite Hd, Hu.
  unfold try_finally, try_except, process_document_finally. cbn [opt_truthy default].
  rewrite Ht.
  destruct r as [v|e]; [|destruct (is_modelled e)]; cbn; rewrite Hc;
    destruct c; reflexivity.
Qed.

(** Every run of [process_document] is of one of these two kinds. *)
Lemma process_document_cases document session_id w :
  (exists e w1, _download_to_temp_file env document session_id w = (Raise e, w1)) \/
  (exists p w1 r w2 c w3,
     _download_to_temp_file env document session_id w = (Ret p, w1) /\
     process_document_upload_update cfg env document p w1 = (r, w2) /\
     _cleanup_temp_file env p w2 = (c, w3)).
Proof.
  destruct (_download_to_temp_file env document session_id w) as [[p|e] w1] eqn:Hd.
  - right.
    destruct (process_document_upload_update cfg env document p w1) as [r w2] eqn:Hu.
    destruct (_cleanup_temp_file env p w2) as [c w3] eqn:Hc.
    by exists p, w1, r, w2, c, w3.
  - left. eauto.
Qed.

(** The cleanup swallows every [Exception]. *)
Lemma cleanup_raises_no_Exception file_path w e w' :
  _cleanup_temp_file env file_path w = (Raise e, w') -> is_Exception e = false.
Proof.
  rewrite cleanup_temp_file_eq.
  destruct (bool_decide _); [|discriminate].
  destruct (fs_fault env _ _) as [e'|]; [|discriminate].
  destruct (is_Exception e') eqn:He; [discriminate|].
  intros H. by inversion H; subst.
Qed.

Lemma not_Exception_not_modelled e : is_Exception e = false -> is_modelled e = false.
Proof. by destruct e. Qed.

Lemma process_document_never_modelled document session_id w e w' :
  process_document cfg env document session_id w = (Raise e, w') ->
  is_modelled e = false.
Proof.
  destruct (process_document_cases document session_id w)
    as [(e1 & w1 & Hd)|(p & w1 & r & w2 & c & w3 & Hd & Hu & Hc)].
  - rewrite (process_document_download_raises _ _ _ _ _ Hd).
    destruct (is_modelled e1) eqn:Hm; [discriminate|].
    intros H. by inversion H; subst.
  - rewrite (process_document_download_returns _ _ _ _ _ _ _ _ _ Hd Hu Hc).
    destruct c as [[]|ec].
    + destruct r as [v|er]; [discriminate|].
      destruct (is_modelled er) eqn:Hm; [discriminate|].
      intros H. by inversion H; subst.
    + intros H. inversion H; subst.
      eapply not_Exception_not_modelled, cleanup_raises_no_Exception, Hc.
Qed.

(** *** The filesystem *)

Lemma upload_update_fs document p w r w' :
  process_document_upload_update cfg env document p w = (r, w') -> fs w' = fs w.
Proof.
  rewrite process_document_upload_update_eq. cbn zeta.
  destruct (cloudinary_upload env _ _ _ _ _ _) as [[url|]|e];
    intros H; by inversion H.
Qed.

Lemma download_fs_returns document session_id w p w1 :
  _download_to_temp_file env document session_id w = (Ret p, w1) ->
  exists content, fs w1 = <[p := content]> (<[p := []]> (fs w)).
Proof.
  rewrite download_to_temp_file_eq. cbn zeta.
  destruct (requests_download env _ _ _) as [content|e]; [|discriminate].
  destruct (fs_fault env _ (OpCreate _)) as [e|]; [discriminate|].
  destruct (fs_fault env _ (OpWrite _)) as [e|]; [discriminate|].
  intros H. inversion H; subst. by exists content.
Qed.

Lemma download_fs_raises document session_id w e w1 :
  (forall t q, fs_fault env t (OpWrite q) = None) ->
  _download_to_temp_file env document session_id w = (Raise e, w1) ->
  fs w1 = fs w.
Proof.
  intros Hw. rewrite download_to_temp_file_eq. cbn zeta.
  destruct (requests_download env _ _ _) as [content|e'].
  - destruct (fs_fault env _ (OpCreate _)) as [e'|].
    + intros H. by inversion H.
    + rewrite Hw. discriminate.
  - intros H. by inversion H.
Qed.

Lemma cleanup_fs file_path w c w' :
  (forall t q, fs_fault env t (OpRemove q) = None) ->
  _cleanup_temp_file env file_path w = (c, w') ->
  c = Ret tt /\ fs w' = delete file_path (fs w).
Proof.
  intros Hr. rewrite cleanup_temp_file_eq.
  destruct (bool_decide _) eqn:Hex.
  - rewrite Hr. intros H. by inversion H.
  - intros H. inversion H; subst. split; [done|].
    symmetry. apply delete_id.
    apply bool_decide_eq_false in Hex.
    by apply eq_None_not_Some.
Qed.

(** Provided writing and removing the temporary file do not fail, what
    [process_document] leaves on the filesystem is what was there, minus
    the path it used. *)
Lemma process_document_fs document session_id w r w' :
  (forall t q, fs_fault env t (OpWrite q) = None) ->
  (forall t q, fs_fault env t (OpRemove q) = None) ->
  process_document cfg env document session_id w = (r, w') ->
  (exists e w1,
     _download_to_temp_file env document session_id w = (Raise e, w1) /\
     fs w' = fs w) \/
  (exists p w1,
     _download_to_temp_file env document session_id w = (Ret p, w1) /\
     fs w' = delete p (fs w)).
Proof.
  intros Hw Hr.
  destruct (process_document_cases document session_id w)
    as [(e1 & w1 & Hd)|(p & w1 & r2 & w2 & c & w3 & Hd & Hu & Hc)].
  - rewrite (process_document_download_raises _ _ _ _ _ Hd).
    intros H. inversion H; subst. left. exists e1, w'. split; [done|].
    by eapply download_fs_raises.
  - rewrite (process_document_download_returns _ _ _ _ _ _ _ _ _ Hd Hu Hc).
    intros H. inversion H; subst. right. exists p, w1. split; [done|].
    destruct (cleanup_fs _ _ _ _ Hr Hc) as [_ ->].
    rewrite (upload_update_fs _ _ _ _ _ Hu).
    destruct (download_fs_returns _ _ _ _ _ Hd) as [content ->].
    by rewrite !delete_insert_eq.
Qed.

(** *** Steps 2 and 3 from the outcomes of the two calls *)

Lemma upload_update_upload_raises document p w e w1 :
  upload_file cfg env p (doc_ID document)
    (default (doc_ID document) (doc_name document)) "auto" None w = (Raise e, w1) ->
  process_document_upload_update cfg env document p w = (Raise e, w1).
Proof. intros H. unfold process_document_upload_update, bind. by rewrite H. Qed.

Lemma upload_update_no_url document p w w1 :
  upload_file cfg env p (doc_ID document)
    (default (doc_ID document) (doc_name document)) "auto" None w = (Ret None, w1) ->
  process_document_upload_update cfg env document p w = (Raise KeyError, w1).
Proof. intros H. unfold process_document_upload_update, bind. by rewrite H. Qed.

Lemma upload_update_update document p w url w1 r w2 :
  upload_file cfg env p (doc_ID document)
    (default (doc_ID document) (doc_name document)) "auto" None w
    = (Ret (Some url), w1) ->
  update_document env (doc_ID document) url w1 = (r, w2) ->
  process_document_upload_update cfg env document p w =
    (match r with
     | Ret _ => Ret (true, TASK_COMPLETE cfg)
     | Raise e => Raise e
     end, w2).
Proof.
  intros H1 H2. unfold process_document_upload_update, bind. rewrite H1. cbn.
  rewrite H2. by destruct r.
Qed.

(** *** The trace *)

Lemma download_trace document session_id w r w1 :
  _download_to_temp_file env document session_id w = (r, w1) ->
  exists pre : list Event,
    trace w1 = trace w ++ pre /\ Forall local_event pre /\
    Forall (document_event document) pre.
Proof.
  rewrite download_to_temp_file_eq. cbn zeta.
  destruct (requests_download env _ _ _) as [content|e].
  - destruct (fs_fault env _ (OpCreate _)) as [e|].
    + intros H; inversion H; subst; cbn. rewrite <- app_assoc.
      eexists; split; [reflexivity|]. split; repeat constructor.
    + destruct (fs_fault env _ (OpWrite _)) as [e|];
        intros H; inversion H; subst; cbn; rewrite <- !app_assoc;
        (eexists; split; [reflexivity|]); split; repeat constructor.
  - intros H; inversion H; subst; cbn.
    eexists; split; [reflexivity|]. split; repeat constructor.
Qed.

Lemma cleanup_trace file_path w c w' :
  _cleanup_temp_file env file_path w = (c, w') ->
  exists post : list Event,
    trace w' = trace w ++ post /\
    Forall (fun ev => exists op ok, ev = EvFs op ok) post.
Proof.
  rewrite cleanup_temp_file_eq.
  destruct (bool_decide _).
  - destruct (fs_fault env _ _) as [e|]; intros H; inversion H; subst; cbn;
      (eexists; split; [reflexivity|]); repeat constructor; eauto.
  - intros H; inversion H; subst. exists []. by rewrite app_nil_r.
Qed.

Lemma fs_events_local post :
  Forall (fun ev => exists op ok, ev = EvFs op ok) post -> Forall local_event post.
Proof. intros H. eapply Forall_impl; [exact H|]. by intros ev (op & ok & ->). Qed.

Lemma fs_events_document d post :
  Forall (fun ev => exists op ok, ev = EvFs op ok) post ->
  Forall (document_event d) post.
Proof. intros H. eapply Forall_impl; [exact H|]. by intros ev (op & ok & ->). Qed.

Lemma upload_update_trace document p w r w' :
  process_document_upload_update cfg env document p w = (r, w') ->
  exists mid : list Event, trace w' = trace w ++ mid /\ upload_then_put cfg env document mid.
Proof.
  rewrite process_document_upload_update_eq. cbn zeta.
  destruct (cloudinary_upload env _ _ _ _ _ _) as [[url|]|e] eqn:Hup.
  - intros H; inversion H; subst; cbn. rewrite <- app_assoc. cbn.
    eexists; split; [reflexivity|]. right; right.
    eexists _, _, _, _; split; [exact Hup|reflexivity].
  - intros H; inversion H; subst; cbn.
    eexists; split; [reflexivity|]. right; left. by eexists _, _.
  - intros H; inversion H; subst; cbn.
    eexists; split; [reflexivity|]. right; left. by eexists _, _.
Qed.

(** What one call of [process_document] adds to the trace: downloads and
    file operations, then the events of steps 2 and 3, then file
    operations. *)
Lemma process_document_trace document session_id w r w' :
  process_document cfg env document session_id w = (r, w') ->
  exists pre mid post : list Event,
    trace w' = trace w ++ pre ++ mid ++ post /\
    Forall local_event pre /\ Forall (document_event document) pre /\
    upload_then_put cfg env document mid /\
    Forall local_event post /\ Forall (document_event document) post.
Proof.
  destruct (process_document_cases document session_id w)
    as [(e1 & w1 & Hd)|(p & w1 & r2 & w2 & c & w3 & Hd & Hu & Hc)].
  - rewrite (process_document_download_raises _ _ _ _ _ Hd).
    intros H; inversion H; subst.
    destruct (download_trace _ _ _ _ _ Hd) as (pre & Hpre & Hl & Hdoc).
    exists pre, [], []. rewrite !app_nil_r.
    repeat split; try done. by left.
  - rewrite (process_document_download_returns _ _ _ _ _ _ _ _ _ Hd Hu Hc).
    intros H; inversion H; subst.
    destruct (download_trace _ _ _ _ _ Hd) as (pre & Hpre & Hl & Hdoc).
    destruct (upload_update_trace _ _ _ _ _ Hu) as (mid & Hmid & Hshape).
    destruct (cleanup_trace _ _ _ _ Hc) as (post & Hpost & Hl').
    exists pre, mid, post. rewrite Hpost, Hmid, Hpre, <- !app_assoc.
    repeat split; try done; [by apply fs_events_local|by apply fs_events_document].
Qed.

Lemma upload_then_put_document_event d mid :
  upload_then_put cfg env d mid -> Forall (document_event d) mid.
Proof.
  intros [->|[(p & ok & ->)|(p & t & url & ok & _ & ->)]];
    repeat constructor.
Qed.


(** *** The description field on the Workfront side *)

Lemma description_after_app tr1 tr2 document_id init :
  description_after (tr1 ++ tr2) document_id init =
    description_after tr2 document_id (description_after tr1 document_id init).
Proof. unfold description_after. apply fold_left_app. Qed.

Lemma description_after_silent tr document_id init :
  Forall (fun ev => written_description document_id ev = None) tr ->
  description_after tr document_id init = init.
Proof.
  intros H. revert init. induction H as [|ev tr Hev _ IH]; intros init; [done|].
  unfold description_after in *. cbn. rewrite Hev. apply IH.
Qed.

Lemma local_event_silent document_id ev :
  local_event ev -> written_description document_id ev = None.
Proof. by destruct ev. Qed.

Lemma local_events_silent document_id tr :
  Forall local_event tr ->
  Forall (fun ev => written_description document_id ev = None) tr.
Proof. intros H. eapply Forall_impl; [exact H|]. intros. by apply local_event_silent. Qed.

Lemma truthy_false s : truthy s = false -> s = "".
Proof. by destruct s. Qed.

Lemma object_url_inj object_name id1 id2 :
  object_url object_name id1 = object_url object_name id2 -> id1 = id2.
Proof.
  unfold object_url.
  destruct (truthy id1) eqn:H1, (truthy id2) eqn:H2; intros H; try discriminate.
  - by inversion H.
  - apply truthy_false in H1, H2. congruence.
Qed.

(** A PUT on the document [id] that went through writes its value, and
    it writes nothing on any other document. *)
Lemma written_description_put_same id value :
  truthy id = true ->
  written_description id
    (EvPut (object_url "document" id) (Some ("description", value)) true) = Some value.
Proof.
  intros Ht. unfold object_url. rewrite Ht. cbn -[String.eqb].
  by rewrite !String.eqb_refl.
Qed.

Lemma written_description_put_other id id' value ok :
  id' <> id ->
  written_description id'
    (EvPut (object_url "document" id) (Some ("description", value)) ok) = None.
Proof.
  intros Hne. unfold object_url. destruct (truthy id); [|done].
  destruct ok; [|done]. cbn -[String.eqb].
  destruct (String.eqb_spec id id'); [congruence|].
  by rewrite andb_false_r.
Qed.

Lemma written_description_failed_put id' url data :
  written_description id' (EvPut url data false) = None.
Proof. by destruct url, data as [[]|]. Qed.

Lemma upload_then_put_other d mid id' :
  id' <> doc_ID d ->
  upload_then_put cfg env d mid ->
  Forall (fun ev => written_description id' ev = None) mid.
Proof.
  intros Hne [->|[(p & ok & ->)|(p & t & url & ok & _ & ->)]];
    repeat constructor.
  by apply written_description_put_other.
Qed.

(** Processing a document leaves the description of every other document
    as it was. *)
Lemma process_document_frame document session_id w r w' id' init :
  process_document cfg env document session_id w = (r, w') ->
  id' <> doc_ID document ->
  description_after (trace w') id' init = description_after (trace w) id' init.
Proof.
  intros Hrun Hne.
  destruct (process_document_trace _ _ _ _ _ Hrun)
    as (pre & mid & post & -> & Hpre & _ & Hmid & Hpost & _).
  rewrite !description_after_app.
  rewrite (description_after_silent post) by by apply local_events_silent.
  rewrite (description_after_silent mid) by by eapply upload_then_put_other.
  by rewrite (description_after_silent pre) by by apply local_events_silent.
Qed.

(** Steps 2 and 3 either raise and write no description, or return
    success after the PUT of the URL that the upload returned. *)
Lemma upload_update_result document p w r w' :
  process_document_upload_update cfg env document p w = (r, w') ->
  (exists e, r = Raise e /\
     forall id' init,
       description_after (trace w') id' init = description_after (trace w) id' init)
  \/
  (r = Ret (true, TASK_COMPLETE cfg) /\
   exists t url,
     cloudinary_upload env t p "auto" (CLOUDINARY_ASSET_FOLDER cfg)
       (default (doc_ID document) (doc_name document)) (doc_ID document)
       = Ret (Some url) /\
     trace w' =
       trace w ++
         [EvUpload p "auto" (CLOUDINARY_ASSET_FOLDER cfg)
            (default (doc_ID document) (doc_name document)) (doc_ID document) true;
          EvPut (object_url "document" (doc_ID document))
            (Some ("description", url)) true]).
Proof.
  rewrite process_document_upload_update_eq. cbn zeta.
  destruct (cloudinary_upload env _ _ _ _ _ _) as [[url|]|e] eqn:Hup.
  - destruct (requests_put env _ _ _) as [code|e] eqn:Hput;
      intros H; inversion H; subst; cbn [trace push].
    + right. split; [done|]. exists (length (trace w)), url.
      split; [done|]. by rewrite <- app_assoc.
    + left. eexists; split; [done|]. intros id' init.
      rewrite <- app_assoc, description_after_app.
      apply description_after_silent. repeat constructor.
      apply written_description_failed_put.
  - intros H; inversion H; subst; cbn [trace push]. left. eexists; split; [done|].
    intros id' init. rewrite description_after_app.
    apply description_after_silent. repeat constructor.
  - intros H; inversion H; subst; cbn [trace push]. left. eexists; split; [done|].
    intros id' init. rewrite description_after_app.
    apply description_after_silent. repeat constructor.
Qed.

Lemma download_silent document session_id w r w1 id' init :
  _download_to_temp_file env document session_id w = (r, w1) ->
  description_after (trace w1) id' init = description_after (trace w) id' init.
Proof.
  intros Hd. destruct (download_trace _ _ _ _ _ Hd) as (pre & -> & Hl & _).
  rewrite description_after_app.
  by apply description_after_silent, local_events_silent.
Qed.

Lemma cleanup_silent file_path w c w' id' init :
  _cleanup_temp_file env file_path w = (c, w') ->
  description_after (trace w') id' init = description_after (trace w) id' init.
Proof.
  intros Hc. destruct (cleanup_trace _ _ _ _ Hc) as (post & -> & Hl).
  rewrite description_after_app.
  by apply description_after_silent, local_events_silent, fs_events_local.
Qed.

(** A document whose processing reports failure keeps its description, and
    so does every other document. *)
Lemma process_document_failed_unchanged document session_id w status w' id' init :
  process_document cfg env document session_id w = (Ret (false, status), w') ->
  description_after (trace w') id' init = description_after (trace w) id' init.
Proof.
  destruct (process_document_cases document session_id w)
    as [(e1 & w1 & Hd)|(p & w1 & r2 & w2 & c & w3 & Hd & Hu & Hc)].
  - rewrite (process_document_download_raises _ _ _ _ _ Hd).
    intros H; inversion H; subst. by eapply download_silent.
  - rewrite (process_document_download_returns _ _ _ _ _ _ _ _ _ Hd Hu Hc).
    intros H; inversion H; subst.
    rewrite (cleanup_silent _ _ _ _ _ _ Hc).
    rewrite <- (download_silent _ _ _ _ _ id' init Hd).
    destruct (upload_update_result _ _ _ _ _ Hu) as [(e & -> & Hsame)|(-> & _)].
    + apply Hsame.
    + by destruct c.
Qed.

(** A document whose processing reports success has the URL returned by
    its upload as description. *)
Lemma process_document_succeeded_updated document session_id w status w' :
  process_document cfg env document session_id w = (Ret (true, status), w') ->
  truthy (doc_ID document) = true ->
  exists t p url,
    cloudinary_upload env t p "auto" (CLOUDINARY_ASSET_FOLDER cfg)
      (default (doc_ID document) (doc_name document)) (doc_ID document)
      = Ret (Some url) /\
    forall init, description_after (trace w') (doc_ID document) init = Some url.
Proof.
  intros Hrun Hid. revert Hrun.
  destruct (process_document_cases document session_id w)
    as [(e1 & w1 & Hd)|(p & w1 & r2 & w2 & c & w3 & Hd & Hu & Hc)].
  - rewrite (process_document_download_raises _ _ _ _ _ Hd).
    destruct (is_modelled e1); discriminate.
  - rewrite (process_document_download_returns _ _ _ _ _ _ _ _ _ Hd Hu Hc).
    intros H.
    destruct (upload_update_result _ _ _ _ _ Hu)
      as [(e & -> & _)|(-> & t & url & Hup & Htr)].
    + destruct c; [destruct (is_modelled e)|]; discriminate.
    + inversion H; subst. exists t, p, url. split; [done|].
      destruct c; [|discriminate]. intros init.
      rewrite (cleanup_silent _ _ _ _ _ _ Hc), Htr, description_after_app.
      unfold description_after at 1. cbn [fold_left].
      by rewrite (written_description_put_same _ _ Hid).
Qed.

(** *** The loop over the documents of a task *)




(** The loop leaves alone the description of a document that is not in
    the list, however it ends. *)
Lemma loop_frame session_id documents results w r w' id' init :
  process_task_documents_loop cfg env documents session_id results w = (r, w') ->
  id' ∉ doc_ID <$> documents ->
  description_after (trace w') id' init = description_after (trace w) id' init.
Proof.
  revert w results. induction documents as [|d rest IH]; intros w results.
  - cbn. intros H _; by inversion H.
  - cbn. unfold bind. intros H Hnot.
    apply not_elem_of_cons in Hnot as [Hne Hnot].
    destruct (process_document cfg env d session_id w) as [[[b st]|e] w1] eqn:Hd.
    + rewrite (IH _ _ H Hnot). by eapply process_document_frame.
    + inversion H; subst. by eapply process_document_frame.
Qed.

(** A description that has been written stays written, whatever
    [process_document] does afterwards, on any document. *)
Lemma process_document_keeps_written document session_id w r w' id' init :
  process_document cfg env document session_id w = (r, w') ->
  is_Some (description_after (trace w) id' init) ->
  is_Some (description_after (trace w') id' init).
Proof.
  intros Hrun Hsome.
  destruct (process_document_trace _ _ _ _ _ Hrun)
    as (pre & mid & post & -> & Hpre & _ & Hmid & Hpost & _).
  rewrite !description_after_app.
  rewrite (description_after_silent post) by by apply local_events_silent.
  rewrite (description_after_silent pre) by by apply local_events_silent.
  destruct Hmid as [->|[(p & ok & ->)|(p & t & url & ok & _ & ->)]]; try done.
  unfold description_after at 1. cbn [fold_left].
  destruct (written_description id' (EvPut _ _ _)); [eauto|done].
Qed.

Lemma loop_keeps_written session_id documents results w r w' id' init :
  process_task_documents_loop cfg env documents session_id results w = (r, w') ->
  is_Some (description_after (trace w) id' init) ->
  is_Some (description_after (trace w') id' init).
Proof.
  revert w results. induction documents as [|d rest IH]; intros w results.
  - cbn. intros H; by inversion H.
  - cbn. unfold bind. intros H Hsome.
    destruct (process_document cfg env d session_id w) as [[[b st]|e] w1] eqn:Hd.
    + apply (IH _ _ H). by eapply process_document_keeps_written.
    + inversion H; subst. by eapply process_document_keeps_written.
Qed.

Lemma loop_trace session_id documents results w r w' :
  process_task_documents_loop cfg env documents session_id results w = (r, w') ->
  exists new : list Event,
    trace w' = trace w ++ new /\
    Forall (fun ev => exists d, d ∈ documents /\ document_event d ev) new.
Proof.
  revert w results. induction documents as [|d rest IH]; intros w results.
  - cbn. intros H; inversion H; subst. exists []. by rewrite app_nil_r.
  - cbn. unfold bind. intros H.
    assert (Hone : forall r1 w1,
      process_document cfg env d session_id w = (r1, w1) ->
      exists new : list Event, trace w1 = trace w ++ new /\
        Forall (fun ev => exists d', d' ∈ d :: rest /\ document_event d' ev) new).
    { intros r1 w1 Hd.
      destruct (process_document_trace _ _ _ _ _ Hd)
        as (pre & mid & post & -> & _ & Hpre & Hmid & _ & Hpost).
      eexists; split; [reflexivity|].
      apply upload_then_put_document_event in Hmid.
      rewrite !Forall_app. repeat split;
        (eapply Forall_impl; [eassumption|]); intros ev Hev;
        exists d; split; try done; by left. }
    destruct (process_document cfg env d session_id w) as [[[b st]|e] w1] eqn:Hd.
    + destruct (Hone _ _ eq_refl) as (new1 & Htr1 & Hall1).
      destruct (IH _ _ H) as (new2 & Htr2 & Hall2).
      exists (new1 ++ new2). rewrite Htr2, Htr1, <- app_assoc. split; [done|].
      rewrite Forall_app. split; [done|].
      eapply Forall_impl; [exact Hall2|]. intros ev (d' & Hin & Hev).
      exists d'. split; [by right|done].
    + inversion H; subst. by apply (Hone _ _ eq_refl).
Qed.

(** *** [process_task_documents] *)

Lemma process_task_documents_empty task session_id w :
  documents_of task = [] ->
  process_task_documents cfg env task session_id w = (Ret (TASK_ERROR cfg), w).
Proof.
  unfold documents_of, process_task_documents. by intros ->.
Qed.

Lemma process_task_documents_nonempty task session_id w :
  documents_of task <> [] ->
  process_task_documents cfg env task session_id w =
    match process_task_documents_loop cfg env (documents_of task) session_id [] w with
    | (Ret results, w') =>
        (Ret (if forallb (fun b => b) results
              then TASK_COMPLETE cfg else TASK_ERROR cfg), w')
    | (Raise e, w') => (Raise e, w')
    end.
Proof.
  unfold documents_of, process_task_documents.
  destruct (default [] (task_documents task)) as [|d rest] eqn:Hdocs; [done|].
  intros _. unfold bind.
  destruct (process_task_documents_loop _ _ _ _ _ _) as [[results|e] w'];
    [|done].
  by destruct (forallb _ results).
Qed.


Lemma process_task_documents_trace task session_id w r w' :
  process_task_documents cfg env task session_id w = (r, w') ->
  exists new : list Event,
    trace w' = trace w ++ new /\
    Forall (fun ev => exists d, d ∈ documents_of task /\ document_event d ev) new.
Proof.
  destruct (decide (documents_of task = [])) as [Hemp|Hne].
  - rewrite (process_task_documents_empty _ _ _ Hemp).
    intros H; inversion H; subst. exists []. by rewrite app_nil_r.
  - rewrite (process_task_documents_nonempty _ _ _ Hne).
    destruct (process_task_documents_loop _ _ _ _ _ _) as [[results|e] w1] eqn:Hl;
      intros H; inversion H; subst; by eapply loop_trace.
Qed.

(** *** One iteration of the loop of [process_tasks] *)

Lemma process_task_try_eq task session_id stats w :
  process_task_try cfg env task session_id stats w =
    match process_task_documents cfg env task session_id w with
    | (Raise e, w1) => (Raise e, w1)
    | (Ret final_status, w1) =>
        match update_task_status env (task_ID task) final_status w1 with
        | (Raise e, w2) => (Raise e, w2)
        | (Ret _, w2) =>
            (Ret (if String.eqb final_status (TASK_COMPLETE cfg)
                  then add_successful stats else add_failed stats), w2)
        end
    end.
Proof.
  unfold process_task_try, bind.
  destruct (process_task_documents _ _ _ _ _) as [[s|e] w1]; [|done].
  destruct (update_task_status _ _ _ _) as [[c|e] w2]; [|done].
  by destruct (String.eqb _ _).
Qed.

Lemma process_task_except_eq task stats w :
  process_task_except cfg env task stats w =
    match update_task_status env (task_ID task) (TASK_ERROR cfg) w with
    | (Ret _, w1) => (Ret (add_failed stats), w1)
    | (Raise e, w1) =>
        if is_Exception e then (Ret (add_failed stats), w1) else (Raise e, w1)
    end.
Proof.
  unfold process_task_except, bind, try_except, except_Exception.
  destruct (update_task_status _ _ _ _) as [[c|e] w1]; [done|].
  by destruct (is_Exception e).
Qed.

Lemma process_task_eq task session_id stats w :
  process_task cfg env task session_id stats w =
    let stats1 :=
      add_documents stats (Z.of_nat (length (documents_of task))) in
    match process_task_try cfg env task session_id stats1 w with
    | (Ret stats2, w1) => (Ret stats2, w1)
    | (Raise e, w1) =>
        if is_Exception e then process_task_except cfg env task stats1 w1
        else (Raise e, w1)
    end.
Proof.
  unfold process_task, try_except, except_Exception, documents_of. cbn zeta.
  destruct (process_task_try _ _ _ _ _ _) as [[s|e] w1]; [done|].
  by destruct (is_Exception e).
Qed.

(** An iteration that returns has incremented exactly one of the two
    counters. *)
Lemma process_task_counts task session_id stats w stats' w' :
  process_task cfg env task session_id stats w = (Ret stats', w') ->
  let stats1 := add_documents stats (Z.of_nat (length (documents_of task))) in
  stats' = add_successful stats1 \/ stats' = add_failed stats1.
Proof.
  rewrite process_task_eq. cbn zeta. rewrite process_task_try_eq.
  destruct (process_task_documents _ _ _ _ _) as [[s|e] w1].
  - destruct (update_task_status env _ s w1) as [[c|e] w2].
    + intros H; inversion H; subst. destruct (String.eqb _ _); auto.
    + destruct (is_Exception e); [|discriminate].
      rewrite process_task_except_eq.
      destruct (update_task_status env _ _ w2) as [[c|e'] w3];
        [|destruct (is_Exception e')]; intros H; inversion H; auto.
  - destruct (is_Exception e); [|discriminate].
    rewrite process_task_except_eq.
    destruct (update_task_status env _ _ w1) as [[c|e'] w3];
      [|destruct (is_Exception e')]; intros H; inversion H; auto.
Qed.

Lemma process_tasks_loop_counts tasks session_id stats w stats' w' :
  process_tasks_loop cfg env tasks session_id stats w = (Ret stats', w') ->
  total_tasks stats' = total_tasks stats /\
  successful_tasks stats' + failed_tasks stats' =
    successful_tasks stats + failed_tasks stats + Z.of_nat (length tasks).
Proof.
  revert stats w. induction tasks as [|task rest IH]; intros stats w.
  - cbn. intros H; inversion H; subst. lia.
  - cbn [process_tasks_loop]. unfold bind.
    destruct (process_task cfg env task session_id stats w) as [[s1|e] w1] eqn:Ht;
      [|discriminate].
    intros H. destruct (IH _ _ H) as [Htot Hsum].
    destruct (process_task_counts _ _ _ _ _ _ Ht) as [->| ->];
      cbn in *; rewrite Htot, Hsum; split; try done; lia.
Qed.

(** *** Status updates *)

Lemma update_task_status_world task_id status w r w' :
  update_task_status env task_id status w = (r, w') ->
  w' = push w (EvPut (object_url "task" task_id) (Some ("status", status)) (is_Ret r)).
Proof.
  rewrite update_task_status_eq. cbn zeta.
  destruct (requests_put env _ _ _) as [c|e]; [|destruct (decide _)];
    intros H; by inversion H.
Qed.

Lemma is_Exception_true e : is_Exception e = true <-> e <> KeyboardInterrupt.
Proof. by destruct e. Qed.

(** *** Runs that nothing interrupts *)

Section NoInterrupt.

Hypothesis Hquiet : no_interrupt env.

Lemma update_task_status_quiet task_id status w e w' :
  update_task_status env task_id status w = (Raise e, w') ->
  is_Exception e = true.
Proof.
  destruct Hquiet as (_ & Hput & _).
  rewrite update_task_status_eq. cbn zeta.
  destruct (requests_put env _ _ _) as [c|e'] eqn:Hr; [discriminate|].
  destruct (decide _); intros H; inversion H; subst; [done|].
  apply is_Exception_true. intros ->. by eapply Hput.
Qed.

Lemma download_quiet document session_id w e w' :
  _download_to_temp_file env document session_id w = (Raise e, w') ->
  is_Exception e = true.
Proof.
  destruct Hquiet as (_ & _ & Hdl & _ & Hfs).
  rewrite download_to_temp_file_eq. cbn zeta.
  destruct (requests_download env _ _ _) as [content|e'] eqn:Hr.
  - destruct (fs_fault env _ (OpCreate _)) as [e'|] eqn:Hc.
    + intros H; inversion H; subst. apply is_Exception_true. intros ->.
      by eapply Hfs.
    + destruct (fs_fault env _ (OpWrite _)) as [e'|] eqn:Hw; [|discriminate].
      intros H; inversion H; subst. apply is_Exception_true. intros ->.
      by eapply Hfs.
  - destruct (decide _); intros H; inversion H; subst; [done|].
    apply is_Exception_true. intros ->. by eapply Hdl.
Qed.

Lemma upload_update_quiet document p w e w' :
  process_document_upload_update cfg env document p w = (Raise e, w') ->
  is_Exception e = true.
Proof.
  destruct Hquiet as (_ & Hput & _ & Hup & _).
  rewrite process_document_upload_update_eq. cbn zeta.
  destruct (cloudinary_upload env _ _ _ _ _ _) as [[url|]|e'] eqn:Hr.
  - destruct (requests_put env _ _ _) as [c|e'] eqn:Hp; [discriminate|].
    destruct (decide _); intros H; inversion H; subst; [done|].
    apply is_Exception_true. intros ->. by eapply Hput.
  - intros H; by inversion H.
  - destruct (is_Exception e') eqn:He; [intros H; by inversion H|].
    destruct e'; try discriminate. by apply Hup in Hr.
Qed.

Lemma cleanup_quiet file_path w : exists w', _cleanup_temp_file env file_path w = (Ret tt, w').
Proof.
  destruct Hquiet as (_ & _ & _ & _ & Hfs).
  rewrite cleanup_temp_file_eq.
  destruct (bool_decide _); [|eauto].
  destruct (fs_fault env _ _) as [e|] eqn:Hr; [|eauto].
  destruct (is_Exception e) eqn:He; [eauto|].
  destruct e; try discriminate. by apply Hfs in Hr.
Qed.

Lemma process_document_quiet document session_id w e w' :
  process_document cfg env document session_id w = (Raise e, w') ->
  is_Exception e = true.
Proof.
  destruct (process_document_cases document session_id w)
    as [(e1 & w1 & Hd)|(p & w1 & r & w2 & c & w3 & Hd & Hu & Hc)].
  - rewrite (process_document_download_raises _ _ _ _ _ Hd).
    destruct (is_modelled e1); [discriminate|].
    intros H; inversion H; subst. by eapply download_quiet.
  - destruct (cleanup_quiet p w2) as [w3' Hc']. rewrite Hc in Hc'.
    inversion Hc'; subst.
    rewrite (process_document_download_returns _ _ _ _ _ _ _ _ _ Hd Hu Hc).
    destruct r as [v|er]; [discriminate|].
    destruct (is_modelled er); [discriminate|].
    intros H; inversion H; subst. by eapply upload_update_quiet.
Qed.

Lemma loop_quiet session_id documents results w e w' :
  process_task_documents_loop cfg env documents session_id results w = (Raise e, w') ->
  is_Exception e = true.
Proof.
  revert w results. induction documents as [|d rest IH]; intros w results.
  - discriminate.
  - cbn. unfold bind.
    destruct (process_document cfg env d session_id w) as [[[b st]|e1] w1] eqn:Hd.
    + apply IH.
    + intros H; inversion H; subst. by eapply process_document_quiet.
Qed.

Lemma process_task_documents_quiet task session_id w e w' :
  process_task_documents cfg env task session_id w = (Raise e, w') ->
  is_Exception e = true.
Proof.
  destruct (decide (documents_of task = [])) as [Hemp|Hne].
  - by rewrite (process_task_documents_empty _ _ _ Hemp).
  - rewrite (process_task_documents_nonempty _ _ _ Hne).
    destruct (process_task_documents_loop _ _ _ _ _ _) as [[results|e1] w1] eqn:Hl;
      [discriminate|].
    intros H; inversion H; subst. by eapply loop_quiet.
Qed.

Lemma process_task_quiet task session_id stats w :
  exists stats' w', process_task cfg env task session_id stats w = (Ret stats', w').
Proof.
  rewrite process_task_eq. cbn zeta.
  assert (Hex : forall st w1, exists stats' w',
            process_task_except cfg env task st w1 = (Ret stats', w')).
  { intros st w1. rewrite process_task_except_eq.
    destruct (update_task_status env _ _ w1) as [[c|e] w2] eqn:Hu; [eauto|].
    rewrite (update_task_status_quiet _ _ _ _ _ Hu). eauto. }
  rewrite process_task_try_eq.
  destruct (process_task_documents _ _ _ _ _) as [[s|e] w1] eqn:Hp.
  - destruct (update_task_status env _ s w1) as [[c|e] w2] eqn:Hu; [eauto|].
    rewrite (update_task_status_quiet _ _ _ _ _ Hu). apply Hex.
  - rewrite (process_task_documents_quiet _ _ _ _ _ Hp). apply Hex.
Qed.

Lemma process_tasks_loop_quiet tasks session_id stats w :
  exists stats' w',
    process_tasks_loop cfg env tasks session_id stats w = (Ret stats', w').
Proof.
  revert stats w. induction tasks as [|task rest IH]; intros stats w.
  - cbn. unfold ret. eauto.
  - cbn [process_tasks_loop]. unfold bind.
    destruct (process_task_quiet task session_id stats w) as (s1 & w1 & ->).
    apply IH.
Qed.

End NoInterrupt.

(** *** The trace of [process_tasks] *)

Lemma task_event_mono tasks1 tasks2 ev :
  (forall task, task ∈ tasks1 -> task ∈ tasks2) ->
  task_event tasks1 ev -> task_event tasks2 ev.
Proof.
  intros Hsub [(task & Hin & Hev)|(task & d & Hin & Hd & Hev)].
  - left. exists task. auto.
  - right. exists task, d. auto.
Qed.

Lemma process_task_trace task session_id stats w r w' :
  process_task cfg env task session_id stats w = (r, w') ->
  exists new : list Event,
    trace w' = trace w ++ new /\ Forall (task_event [task]) new.
Proof.
  assert (Hdocs : forall w0 r0 w1,
    process_task_documents cfg env task session_id w0 = (r0, w1) ->
    exists new : list Event,
      trace w1 = trace w0 ++ new /\ Forall (task_event [task]) new).
  { intros w0 r0 w1 H.
    destruct (process_task_documents_trace _ _ _ _ _ H) as (new & Htr & Hall).
    exists new. split; [done|]. eapply Forall_impl; [exact Hall|].
    intros ev (d & Hin & Hev). right. exists task, d.
    split; [apply list_elem_of_here|done]. }
  assert (Hupd : forall status w0 r0 w1,
    update_task_status env (task_ID task) status w0 = (r0, w1) ->
    exists new : list Event,
      trace w1 = trace w0 ++ new /\ Forall (task_event [task]) new).
  { intros status w0 r0 w1 H.
    rewrite (update_task_status_world _ _ _ _ _ H). cbn.
    eexists; split; [done|]. constructor; [|constructor]. left.
    exists task. split; [apply list_elem_of_here|eauto]. }
  assert (Hexc : forall st w0 r0 w1,
    process_task_except cfg env task st w0 = (r0, w1) ->
    exists new : list Event,
      trace w1 = trace w0 ++ new /\ Forall (task_event [task]) new).
  { intros st w0 r0 w1. rewrite process_task_except_eq.
    destruct (update_task_status env _ _ w0) as [[c|e] w2] eqn:Hu;
      [|destruct (is_Exception e)]; intros H; inversion H; subst;
      by eapply Hupd. }
  rewrite process_task_eq. cbn zeta. rewrite process_task_try_eq.
  destruct (process_task_documents _ _ _ _ _) as [[s|e] w1] eqn:Hp.
  - destruct (Hdocs _ _ _ Hp) as (new1 & Htr1 & Hall1).
    destruct (update_task_status env _ s w1) as [[c|e] w2] eqn:Hu.
    + intros H; inversion H; subst.
      destruct (Hupd _ _ _ _ Hu) as (new2 & Htr2 & Hall2).
      exists (new1 ++ new2). rewrite Htr2, Htr1, <- app_assoc.
      split; [done|]. by apply Forall_app.
    + destruct (Hupd _ _ _ _ Hu) as (new2 & Htr2 & Hall2).
      destruct (is_Exception e).
      * intros H. destruct (Hexc _ _ _ _ H) as (new3 & Htr3 & Hall3).
        exists (new1 ++ new2 ++ new3).
        rewrite Htr3, Htr2, Htr1, <- !app_assoc.
        split; [done|]. rewrite !Forall_app. done.
      * intros H; inversion H; subst.
        exists (new1 ++ new2). rewrite Htr2, Htr1, <- app_assoc.
        split; [done|]. by apply Forall_app.
  - destruct (Hdocs _ _ _ Hp) as (new1 & Htr1 & Hall1).
    destruct (is_Exception e).
    + intros H. destruct (Hexc _ _ _ _ H) as (new3 & Htr3 & Hall3).
      exists (new1 ++ new3). rewrite Htr3, Htr1, <- !app_assoc.
      split; [done|]. by apply Forall_app.
    + intros H; inversion H; subst. eauto.
Qed.

Lemma process_tasks_loop_trace tasks session_id stats w r w' :
  process_tasks_loop cfg env tasks session_id stats w = (r, w') ->
  exists new : list Event,
    trace w' = trace w ++ new /\ Forall (task_event tasks) new.
Proof.
  revert stats w. induction tasks as [|task rest IH]; intros stats w.
  - cbn. intros H; inversion H; subst. exists []. by rewrite app_nil_r.
  - cbn [process_tasks_loop]. unfold bind.
    destruct (process_task cfg env task session_id stats w) as [[s1|e] w1] eqn:Ht;
      destruct (process_task_trace _ _ _ _ _ _ Ht) as (new1 & Htr1 & Hall1).
    + intros H. destruct (IH _ _ H) as (new2 & Htr2 & Hall2).
      exists (new1 ++ new2). rewrite Htr2, Htr1, <- app_assoc.
      split; [done|]. apply Forall_app. split.
      * eapply Forall_impl; [exact Hall1|]. intros ev. apply task_event_mono.
        intros t Hin. apply list_elem_of_singleton in Hin as ->. apply list_elem_of_here.
      * eapply Forall_impl; [exact Hall2|]. intros ev. apply task_event_mono.
        intros t Hin. by apply list_elem_of_further.
    + intros H; inversion H; subst. exists new1. split; [done|].
      eapply Forall_impl; [exact Hall1|]. intros ev. apply task_event_mono.
      intros t Hin. apply list_elem_of_singleton in Hin as ->. apply list_elem_of_here.
Qed.

(** An interaction for the tasks [tasks] is a status update of [task_id]
    only if [task_id] is the ID of one of them. *)
Lemma task_event_update tasks task_id ev :
  task_event tasks ev ->
  is_task_update task_id ev = true ->
  task_id ∈ task_ID <$> tasks.
Proof.
  intros [(task & Hin & value & ok & ->)|(task & d & Hin & Hd & Hev)].
  - cbn. rewrite andb_true_iff, bool_decide_eq_true. intros [Heq _].
    apply object_url_inj in Heq as <-. by apply list_elem_of_fmap_2.
  - destruct ev as [| url [[field value]|] ok | | | | |]; cbn in *; try done.
    destruct Hev as [-> ->]. rewrite andb_true_iff. intros [_ Hf]. done.
Qed.

(** *** Configuration *)

Lemma missing_none (required : list string) :
  filter (fun value => negb (truthy value) = true) required = [] <->
  forallb truthy required = true.
Proof.
  induction required as [|v required IH]; [done|].
  cbn [forallb]. rewrite filter_cons.
  destruct (truthy v); cbn.
  - destruct (decide (false = true)); [done|exact IH].
  - destruct (decide (true = true)); done.
Qed.

Lemma raise_unless_missing (required : list string) w :
  match filter (fun value => negb (truthy value) = true) required with
  | [] => ret tt
  | _ :: _ => raise ValueError
  end w = (if forallb truthy required then Ret tt else Raise ValueError, w).
Proof.
  pose proof (missing_none required) as H.
  destruct (filter _ required) as [|v l].
  - by rewrite (proj1 H eq_refl).
  - destruct (forallb truthy required); [|done].
    discriminate (proj2 H eq_refl).
Qed.

Lemma validate_configuration_eq w :
  validate_configuration cfg w = (Ret (config_valid cfg), w).
Proof.
  unfold validate_configuration, try_except, validate_all, bind,
    validate_workfront_config, validate_cloudinary_config. cbn zeta.
  rewrite raise_unless_missing.
  unfold config_valid.
  change [WORKFRONT_BASE_URL cfg; WORKFRONT_API_KEY cfg; WORKFRONT_BASE cfg;
     WORKFRONT_CLIENT_ID cfg; WORKFRONT_CLIENT_SECRET cfg;
     WORKFRONT_CUSTOMER_ID cfg; WORKFRONT_USER_ID cfg;
     WORKFRONT_PRIVATE_KEY cfg; CLOUDINARY_CLOUD_NAME cfg;
     CLOUDINARY_API_KEY cfg; CLOUDINARY_API_SECRET cfg]
    with ([WORKFRONT_BASE_URL cfg; WORKFRONT_API_KEY cfg; WORKFRONT_BASE cfg;
     WORKFRONT_CLIENT_ID cfg; WORKFRONT_CLIENT_SECRET cfg;
     WORKFRONT_CUSTOMER_ID cfg; WORKFRONT_USER_ID cfg;
     WORKFRONT_PRIVATE_KEY cfg] ++ [CLOUDINARY_CLOUD_NAME cfg;
     CLOUDINARY_API_KEY cfg; CLOUDINARY_API_SECRET cfg]).
  rewrite forallb_app.
  destruct (forallb truthy [WORKFRONT_BASE_URL cfg; _; _; _; _; _; _; _]); [|done].
  rewrite raise_unless_missing.
  by destruct (forallb truthy [CLOUDINARY_CLOUD_NAME cfg; _; _]).
Qed.

(** *** The search *)

Lemma search_tasks_eq w :
  search_tasks env (TASK_STATUS_UPLOAD cfg) (MAX_TASKS_PER_RUN cfg) true w =
    let r := requests_get env (length (trace w)) (search_url cfg) in
    (match r with
     | Ret data => Ret (default [] data)
     | Raise e => if decide (e = RequestException) then Raise WorkfrontAPIError else Raise e
     end,
     push w (EvGet (search_url cfg) (is_Ret r))).
Proof.
  unfold search_tasks, bind, _make_request. rewrite upper_GET.
  cbn [String.eqb Ascii.eqb Bool.eqb andb opt_truthy default truthy negb
       String.append].
  unfold try_except, bind. rewrite http_get_eq. fold (search_url cfg). cbn zeta.
  destruct (requests_get env _ _) as [data|e]; [done|].
  unfold except_class. by destruct (decide (e = RequestException)).
Qed.

Lemma find_tasks_found w found w1 :
  search_tasks env (TASK_STATUS_UPLOAD cfg) (MAX_TASKS_PER_RUN cfg) true w =
    (Ret found, w1) ->
  find_tasks_for_upload cfg env w =
    (Ret (filter (fun task => has_documents task = true) found), w1).
Proof.
  intros Hs. unfold find_tasks_for_upload, try_except, bind. rewrite Hs.
  by destruct found.
Qed.

Lemma find_tasks_search_raises w e w1 :
  search_tasks env (TASK_STATUS_UPLOAD cfg) (MAX_TASKS_PER_RUN cfg) true w =
    (Raise e, w1) ->
  find_tasks_for_upload cfg env w =
    (if decide (e = WorkfrontAPIError) then Ret [] else Raise e, w1).
Proof.
  intros Hs. unfold find_tasks_for_upload, try_except, bind. rewrite Hs.
  unfold except_class. by destruct (decide (e = WorkfrontAPIError)).
Qed.

(** *** [main] *)

Lemma main_eq w :
  main cfg env w =
    if config_valid cfg then
      match main_try cfg env w with
      | (Ret code, w') => (Ret code, w')
      | (Raise e, w') =>
          (Ret (if decide (e = KeyboardInterrupt) then 130 else 1), w')
      end
    else (Ret 1, w).
Proof.
  unfold main, bind. rewrite validate_configuration_eq.
  destruct (config_valid cfg); [|done]. cbn [negb]. unfold try_except.
  destruct (main_try cfg env w) as [[code|e] w']; [done|].
  destruct (decide (e = KeyboardInterrupt)) as [->|Hne]; [done|].
  apply is_Exception_true in Hne. by rewrite Hne.
Qed.

Lemma process_tasks_loop_failed_nonneg tasks session_id stats w stats' w' :
  process_tasks_loop cfg env tasks session_id stats w = (Ret stats', w') ->
  0 <= failed_tasks stats -> 0 <= failed_tasks stats'.
Proof.
  revert stats w. induction tasks as [|task rest IH]; intros stats w.
  - cbn. intros H; by inversion H.
  - cbn [process_tasks_loop]. unfold bind.
    destruct (process_task cfg env task session_id stats w) as [[s1|e] w1] eqn:Ht;
      [|discriminate].
    intros H Hnn. apply (IH _ _ H).
    destruct (process_task_counts _ _ _ _ _ _ Ht) as [->| ->]; cbn; lia.
Qed.

Lemma main_try_eq w :
  main_try cfg env w =
    match get_workfront_session_id cfg env w with
    | (Raise e, w1) => (Raise e, w1)
    | (Ret session_id, w1) =>
        match find_tasks_for_upload cfg env w1 with
        | (Raise e, w2) => (Raise e, w2)
        | (Ret [], w2) => (Ret 0, w2)
        | (Ret tasks, w2) =>
            match process_tasks cfg env tasks session_id w2 with
            | (Raise e, w3) => (Raise e, w3)
            | (Ret stats, w3) =>
                (Ret (if (failed_tasks stats >? 0)%Z then 1 else 0), w3)
            end
        end
    end.
Proof.
  unfold main_try, bind.
  destruct (get_workfront_session_id cfg env w) as [[sid|e] w1]; [|done].
  destruct (find_tasks_for_upload cfg env w1) as [[[|t tasks]|e] w2]; try done.
  destruct (process_tasks cfg env (t :: tasks) sid w2) as [[stats|e] w3]; [|done].
  by destruct (failed_tasks stats >? 0)%Z.
Qed.

Lemma main_try_code w code w' :
  main_try cfg env w = (Ret code, w') -> code = 0 \/ code = 1.
Proof.
  rewrite main_try_eq.
  destruct (get_workfront_session_id cfg env w) as [[sid|e] w1]; [|done].
  destruct (find_tasks_for_upload cfg env w1) as [[[|t tasks]|e] w2]; try done.
  - intros H; inversion H; auto.
  - destruct (process_tasks cfg env (t :: tasks) sid w2) as [[stats|e] w3]; [|done].
    destruct (failed_tasks stats >? 0)%Z; intros H; inversion H; auto.
Qed.

(** The [try] block of [main] returns 0 exactly when the session ID is
    obtained, [find_tasks_for_upload] returns, and its list is empty or is
    processed without a failed task. *)
Lemma main_try_zero w :
  (config_valid cfg = true /\ exists w', main_try cfg env w = (Ret 0, w')) <->
  (config_valid cfg = true /\
   exists session_id w1 tasks w2,
     get_workfront_session_id cfg env w = (Ret session_id, w1) /\
     find_tasks_for_upload cfg env w1 = (Ret tasks, w2) /\
     (tasks = [] \/
      exists stats w3,
        process_tasks cfg env tasks session_id w2 = (Ret stats, w3) /\
        failed_tasks stats = 0)).
Proof.
  rewrite main_try_eq. split; intros [Hvalid H]; (split; [done|]).
  - destruct H as [w' H].
    destruct (get_workfront_session_id cfg env w) as [[sid|e] w1] eqn:Hauth;
      [|done].
    destruct (find_tasks_for_upload cfg env w1) as [[[|t tasks]|e] w2] eqn:Hfind;
      try done.
    + exists sid, w1, [], w2. auto.
    + destruct (process_tasks cfg env (t :: tasks) sid w2)
        as [[stats|e] w3] eqn:Hrun; [|done].
      assert (0 <= failed_tasks stats) as Hnn.
      { unfold process_tasks in Hrun.
        eapply process_tasks_loop_failed_nonneg; [exact Hrun|]. cbn. lia. }
      destruct (Z.gtb_spec (failed_tasks stats) 0); [done|].
      exists sid, w1, (t :: tasks), w2. repeat split; try done.
      right. exists stats, w3. split; [done|lia].
  - destruct H as (sid & w1 & tasks & w2 & -> & -> & Hcase).
    destruct Hcase as [->|(stats & w3 & Hrun & Hz)]; [eauto|].
    destruct tasks as [|t tasks]; [eauto|].
    rewrite Hrun, Hz. eauto.
Qed.

(** ** The properties of the specification *)


(** C7. For a task whose document collection is empty,
    [process_task_documents] returns [Config.TASK_ERROR] at once and leaves
    the world as it found it: nothing is added to the trace, so no
    download, no upload and no document update has been made. *)
Theorem process_task_documents_no_documents task session_id w :
  documents_of task = [] ->
  process_task_documents cfg env task session_id w = (Ret (TASK_ERROR cfg), w) /\
  trace (snd (process_task_documents cfg env task session_id w)) = trace w.
Proof.
  intros Hemp. by rewrite (process_task_documents_empty _ _ _ Hemp).
Qed.

(** C9. When [process_tasks] returns, its statistics satisfy
    [successful_tasks + failed_tasks = total_tasks = len(tasks)]; and an
    iteration of the loop that returns has added one to exactly one of
    [successful_tasks] and [failed_tasks], whichever branch it took. *)
Theorem process_tasks_counts tasks session_id w stats w' :
  process_tasks cfg env tasks session_id w = (Ret stats, w') ->
  total_tasks stats = Z.of_nat (length tasks) /\
  successful_tasks stats + failed_tasks stats = total_tasks stats /\
  (forall task st w0 st' w1,
     process_task cfg env task session_id st w0 = (Ret st', w1) ->
     total_tasks st' = total_tasks st /\
     ((successful_tasks st' = successful_tasks st + 1 /\
       failed_tasks st' = failed_tasks st) \/
      (successful_tasks st' = successful_tasks st /\
       failed_tasks st' = failed_tasks st + 1))).
Proof.
  unfold process_tasks. intros H.
  destruct (process_tasks_loop_counts _ _ _ _ _ _ H) as [Htot Hsum].
  cbn in Htot, Hsum. split; [lia|]. split; [lia|].
  intros task st w0 st' w1 Hone.
  destruct (process_task_counts _ _ _ _ _ _ Hone) as [->| ->];
    (split; [done|]); cbn; [left|right]; lia.
Qed.

(** C10. For a document without a ['name'] entry, once the download has
    given a temporary file, [process_document] calls the Cloudinary upload
    on that file with the document's ID both as [display_name] and as
    [public_id]: the upload is attempted, labelled with the object key. *)
Theorem process_document_unnamed document session_id w p w1 r w' :
  doc_name document = None ->
  _download_to_temp_file env document session_id w = (Ret p, w1) ->
  process_document cfg env document session_id w = (r, w') ->
  exists ok (rest : list Event),
    trace w' =
      trace w1 ++
        EvUpload p "auto" (CLOUDINARY_ASSET_FOLDER cfg)
          (doc_ID document) (doc_ID document) ok :: rest.
Proof.
  intros Hname Hd.
  destruct (process_document_upload_update cfg env document p w1) as [r2 w2] eqn:Hu.
  destruct (_cleanup_temp_file env p w2) as [c w3] eqn:Hc.
  rewrite (process_document_download_returns _ _ _ _ _ _ _ _ _ Hd Hu Hc).
  intros H; inversion H; subst.
  destruct (cleanup_trace _ _ _ _ Hc) as (post & -> & _).
  revert Hu. rewrite process_document_upload_update_eq, Hname. cbn zeta.
  cbn [default].
  destruct (cloudinary_upload env _ _ _ _ _ _) as [[url|]|e].
  - intros Hu; inversion Hu; subst. cbn [trace push].
    rewrite <- !app_assoc. cbn. eauto.
  - intros Hu; inversion Hu; subst. cbn [trace push].
    rewrite <- !app_assoc. cbn. eauto.
  - intros Hu; inversion Hu; subst. cbn [trace push].
    rewrite <- !app_assoc. cbn. eauto.
Qed.

(** C2.  The staging file is to be absent once [process_document] is left,
    whichever of the three steps failed and however.  The code does not do
    this when step 1 faults between the creation of the file and the return
    of its name: [NamedTemporaryFile(delete=False)] has created [/tmp/tmp1],
    [temp_file.write] raises [OSError] inside [_download_to_temp_file], so
    the local [temp_file_path] of [process_document] is still [None] when
    the [finally] block runs; nothing is removed, and [process_document] is
    left by the [OSError] with the file on the filesystem. *)
Theorem process_document_leaks_when_write_fails :
  let env := env_fs_faults [] write_fails in
  let run := process_document sample_config env doc_A "sid" empty_world in
  fs empty_world !! "/tmp/tmp1" = None /\
  fst (_download_to_temp_file env doc_A "sid" empty_world) = Raise OSError /\
  fst (process_document_try sample_config env doc_A "sid" empty_world) = None /\
  fst run = Raise OSError /\
  fs (snd run) !! "/tmp/tmp1" = Some [] /\
  trace (snd run) =
    [EvDownload "A" "sid" true; EvFs (OpCreate "/tmp/tmp1") true;
     EvFs (OpWrite "/tmp/tmp1") false].
Proof. vm_compute. repeat split; reflexivity. Qed.

(** Where neither the write of the downloaded bytes nor [os.remove] fails,
    nothing is left behind, whatever the three steps do: when
    [process_document] is left, by a return or by an exception, the
    temporary file of the download is not on the filesystem and no file is
    there that was not there before. *)
Lemma process_document_no_leak document session_id w r w' :
  (forall t q, fs_fault env t (OpWrite q) = None) ->
  (forall t q, fs_fault env t (OpRemove q) = None) ->
  process_document cfg env document session_id w = (r, w') ->
  (forall p w1,
     _download_to_temp_file env document session_id w = (Ret p, w1) ->
     fs w' !! p = None) /\
  (forall q, fs w !! q = None -> fs w' !! q = None).
Proof.
  intros Hw Hr Hrun.
  destruct (process_document_fs _ _ _ _ _ Hw Hr Hrun)
    as [(e & w1 & Hd & Hfs)|(p & w1 & Hd & Hfs)]; rewrite Hfs.
  - split; [|done]. intros p w2 Hd'. congruence.
  - split.
    + intros p' w2 Hd'. rewrite Hd in Hd'. inversion Hd'; subst.
      apply lookup_delete_eq.
    + intros q Hq. rewrite lookup_delete. by destruct (decide (p = q)).
Qed.

(** C3, as amended.  A [WorkfrontAPIError] or [CloudinaryServiceError]
    raised by the download, the upload or the write-back of the URL is
    caught by [process_document], which then returns
    [(False, Config.TASK_ERROR)]; neither of the two classes ever comes out
    of [process_document]; and when the three steps succeed it returns
    [(True, Config.TASK_COMPLETE)].  (The cleanup of the [finally] block is
    taken to return, which it does unless it is interrupted.)  Any other
    exception propagates to the caller. *)
Theorem process_document_outcome document session_id w :
  let document_id := doc_ID document in
  let document_name := default document_id (doc_name document) in
  (* neither class comes out, and any other exception of step 1 does *)
  (forall e w', process_document cfg env document session_id w = (Raise e, w') ->
     is_modelled e = false) /\
  (* step 1 raises *)
  (forall e w1,
     _download_to_temp_file env document session_id w = (Raise e, w1) ->
     process_document cfg env document session_id w =
       (if is_modelled e then Ret (false, TASK_ERROR cfg) else Raise e, w1)) /\
  (* step 2 raises *)
  (forall p w1 e w2 w3,
     _download_to_temp_file env document session_id w = (Ret p, w1) ->
     upload_file cfg env p document_id document_name "auto" None w1 = (Raise e, w2) ->
     _cleanup_temp_file env p w2 = (Ret tt, w3) ->
     process_document cfg env document session_id w =
       (if is_modelled e then Ret (false, TASK_ERROR cfg) else Raise e, w3)) /\
  (* step 3 raises *)
  (forall p w1 url w2 e w3 w4,
     _download_to_temp_file env document session_id w = (Ret p, w1) ->
     upload_file cfg env p document_id document_name "auto" None w1
       = (Ret (Some url), w2) ->
     update_document env document_id url w2 = (Raise e, w3) ->
     _cleanup_temp_file env p w3 = (Ret tt, w4) ->
     process_document cfg env document session_id w =
       (if is_modelled e then Ret (false, TASK_ERROR cfg) else Raise e, w4)) /\
  (* the three steps succeed *)
  (forall p w1 url w2 code w3 w4,
     _download_to_temp_file env document session_id w = (Ret p, w1) ->
     upload_file cfg env p document_id document_name "auto" None w1
       = (Ret (Some url), w2) ->
     update_document env document_id url w2 = (Ret code, w3) ->
     _cleanup_temp_file env p w3 = (Ret tt, w4) ->
     process_document cfg env document session_id w =
       (Ret (true, TASK_COMPLETE cfg), w4)).
Proof.
  cbn zeta. split; [|split; [|split; [|split]]].
  - apply process_document_never_modelled.
  - apply process_document_download_raises.
  - intros p w1 e w2 w3 Hd Hup Hc.
    pose proof (upload_update_upload_raises _ _ _ _ _ Hup) as Hu.
    by rewrite (process_document_download_returns _ _ _ _ _ _ _ _ _ Hd Hu Hc).
  - intros p w1 url w2 e w3 w4 Hd Hup Hput Hc.
    pose proof (upload_update_update _ _ _ _ _ _ _ Hup Hput) as Hu.
    by rewrite (process_document_download_returns _ _ _ _ _ _ _ _ _ Hd Hu Hc).
  - intros p w1 url w2 code w3 w4 Hd Hup Hput Hc.
    pose proof (upload_update_update _ _ _ _ _ _ _ Hup Hput) as Hu.
    by rewrite (process_document_download_returns _ _ _ _ _ _ _ _ _ Hd Hu Hc).
Qed.

(** C5.  The PUT that writes the asset URL into the description of a
    document is issued only right after the upload for that same document
    went through: what [process_document] adds to the trace is downloads
    and file operations, then nothing, or one upload, or an upload that
    went through followed by the PUT of the URL it returned, then file
    operations.  If the upload raises, the description of that document,
    and of every other, is what it was; so it is when the document is
    reported failed.  A document reported successful has the URL as its
    description; whatever happens to the documents processed after it, its
    description stays a written one, and stays that URL when none of them
    has its ID: nothing is rolled back. *)
Theorem update_only_after_upload document session_id w r w' :
  process_document cfg env document session_id w = (r, w') ->
  (* the order of the calls *)
  (exists pre mid post : list Event,
     trace w' = trace w ++ pre ++ mid ++ post /\
     Forall local_event pre /\
     upload_then_put cfg env document mid /\
     Forall local_event post) /\
  (* a failed upload leaves every description as it was *)
  (forall p w1 e w2,
     _download_to_temp_file env document session_id w = (Ret p, w1) ->
     upload_file cfg env p (doc_ID document)
       (default (doc_ID document) (doc_name document)) "auto" None w1
       = (Raise e, w2) ->
     forall id' init,
       description_after (trace w') id' init = description_after (trace w) id' init) /\
  (* so does a document reported failed *)
  (forall status, r = Ret (false, status) ->
     forall id' init,
       description_after (trace w') id' init = description_after (trace w) id' init) /\
  (* the other documents are never touched *)
  (forall id' init, id' <> doc_ID document ->
     description_after (trace w') id' init = description_after (trace w) id' init) /\
  (* a document reported successful is updated, and stays so *)
  (forall status, r = Ret (true, status) -> truthy (doc_ID document) = true ->
     exists t p url,
       cloudinary_upload env t p "auto" (CLOUDINARY_ASSET_FOLDER cfg)
         (default (doc_ID document) (doc_name document)) (doc_ID document)
         = Ret (Some url) /\
       (forall init, description_after (trace w') (doc_ID document) init = Some url) /\
       (forall siblings results r2 w2 init,
          process_task_documents_loop cfg env siblings session_id results w' = (r2, w2) ->
          is_Some (description_after (trace w2) (doc_ID document) init) /\
          (doc_ID document ∉ doc_ID <$> siblings ->
           description_after (trace w2) (doc_ID document) init = Some url))).
Proof.
  intros Hrun. split; [|split; [|split; [|split]]].
  - destruct (process_document_trace _ _ _ _ _ Hrun)
      as (pre & mid & post & Htr & Hpre & _ & Hmid & Hpost & _).
    by exists pre, mid, post.
  - intros p w1 e w2 Hd Hup id' init.
    pose proof (upload_update_upload_raises _ _ _ _ _ Hup) as Hu.
    destruct (_cleanup_temp_file env p w2) as [c w3] eqn:Hc.
    rewrite (process_document_download_returns _ _ _ _ _ _ _ _ _ Hd Hu Hc) in Hrun.
    inversion Hrun; subst.
    rewrite (cleanup_silent _ _ _ _ _ _ Hc).
    rewrite <- (download_silent _ _ _ _ _ id' init Hd).
    destruct (upload_update_result _ _ _ _ _ Hu) as [(e' & _ & Hsame)|(Hr & _)];
      [apply Hsame|discriminate].
  - intros status -> id' init. by eapply process_document_failed_unchanged.
  - intros id' init Hne. by eapply process_document_frame.
  - intros status -> Hid.
    destruct (process_document_succeeded_updated _ _ _ _ _ Hrun Hid)
      as (t & p & url & Hup & Hdesc).
    exists t, p, url. split; [done|]. split; [exact Hdesc|].
    intros siblings results r2 w2 init Hloop. split.
    + eapply loop_keeps_written; [exact Hloop|]. rewrite Hdesc. eauto.
    + intros Hnot. rewrite (loop_frame _ _ _ _ _ _ _ init Hloop Hnot). apply Hdesc.
Qed.

(** C6.  If, for a task of the list, [process_task_documents] or the status
    update that follows raises an exception (any [Exception]),
    [process_tasks] counts the task as failed, issues the status update
    with [Config.TASK_ERROR] for it, and goes on with the next task,
    whether that update goes through or raises an exception in its turn;
    only an interrupt of that update stops the loop.  And when nothing
    interrupts the run, the loop reaches its end for every list of tasks:
    no fault of a task terminates it. *)
Theorem task_fault_does_not_stop_the_run session_id :
  (forall task rest stats w e w1,
     let stats1 := add_documents stats (Z.of_nat (length (documents_of task))) in
     (process_task_documents cfg env task session_id w = (Raise e, w1) \/
      exists final_status w0,
        process_task_documents cfg env task session_id w = (Ret final_status, w0) /\
        update_task_status env (task_ID task) final_status w0 = (Raise e, w1)) ->
     is_Exception e = true ->
     exists r w2,
       update_task_status env (task_ID task) (TASK_ERROR cfg) w1 = (r, w2) /\
       trace w2 =
         trace w1 ++
           [EvPut (object_url "task" (task_ID task))
              (Some ("status", TASK_ERROR cfg)) (is_Ret r)] /\
       (r <> Raise KeyboardInterrupt ->
        process_task cfg env task session_id stats w = (Ret (add_failed stats1), w2) /\
        process_tasks_loop cfg env (task :: rest) session_id stats w =
          process_tasks_loop cfg env rest session_id (add_failed stats1) w2)) /\
  (no_interrupt env ->
   forall tasks w,
     exists stats w', process_tasks cfg env tasks session_id w = (Ret stats, w')).
Proof.
  split.
  - intros task rest stats w e w1 stats1 Hraise He.
    destruct (update_task_status env (task_ID task) (TASK_ERROR cfg) w1)
      as [r w2] eqn:Hu.
    exists r, w2. split; [done|].
    split; [by rewrite (update_task_status_world _ _ _ _ _ Hu)|].
    intros Hr.
    assert (Htry : process_task_try cfg env task session_id stats1 w = (Raise e, w1)).
    { rewrite process_task_try_eq.
      destruct Hraise as [->|(s & w0 & -> & ->)]; done. }
    assert (Hone : process_task cfg env task session_id stats w =
                     (Ret (add_failed stats1), w2)).
    { rewrite process_task_eq. cbn zeta. fold stats1. rewrite Htry, He.
      rewrite process_task_except_eq, Hu.
      destruct r as [c|e']; [done|].
      destruct (is_Exception e') eqn:He'; [done|].
      destruct e'; try discriminate. done. }
    split; [exact Hone|].
    cbn [process_tasks_loop]. unfold bind at 1. by rewrite Hone.
  - intros Hquiet tasks w. apply process_tasks_loop_quiet, Hquiet.
Qed.

(** C8.  Of the tasks the search returns, exactly those whose
    [hasDocuments] flag is true are handed to [process_tasks]; every
    interaction of [process_tasks] is then for one of them: a task without
    the flag gets no status update and none of the downloads, uploads and
    document updates is issued for it; and [total_tasks] is the number of
    tasks that have documents. *)
Theorem only_tasks_with_documents session_id w found w1 :
  search_tasks env (TASK_STATUS_UPLOAD cfg) (MAX_TASKS_PER_RUN cfg) true w
    = (Ret found, w1) ->
  let tasks_with_docs := filter (fun task => has_documents task = true) found in
  find_tasks_for_upload cfg env w = (Ret tasks_with_docs, w1) /\
  (forall task, task ∈ tasks_with_docs <-> task ∈ found /\ has_documents task = true) /\
  (forall r w2,
     process_tasks cfg env tasks_with_docs session_id w1 = (r, w2) ->
     (forall stats, r = Ret stats ->
        total_tasks stats = Z.of_nat (length tasks_with_docs)) /\
     exists new : list Event,
       trace w2 = trace w1 ++ new /\
       Forall (task_event tasks_with_docs) new /\
       (forall task,
          task ∈ found -> has_documents task = false ->
          task_ID task ∉ task_ID <$> tasks_with_docs ->
          Forall (fun ev => is_task_update (task_ID task) ev = false) new)).
Proof.
  intros Hs tasks_with_docs. split; [by apply find_tasks_found|]. split.
  - intros task. unfold tasks_with_docs. rewrite list_elem_of_filter. tauto.
  - intros r w2 Hrun. split.
    + intros stats ->. unfold process_tasks in Hrun.
      by destruct (process_tasks_loop_counts _ _ _ _ _ _ Hrun) as [-> _].
    + unfold process_tasks in Hrun.
      destruct (process_tasks_loop_trace _ _ _ _ _ _ Hrun) as (new & Htr & Hall).
      exists new. split; [done|]. split; [done|].
      intros task Hin Hflag Hnot.
      eapply Forall_impl; [exact Hall|]. intros ev Hev.
      destruct (is_task_update (task_ID task) ev) eqn:Hup; [|done].
      destruct Hnot. by eapply task_event_update.
Qed.

(** C4, as amended.  [main] always returns, with 0, 1 or 130.  It returns
    130 exactly when the settings are there and a [KeyboardInterrupt] comes
    out of its [try] block.  It returns 0 exactly when the settings are
    there, the session ID is obtained, [find_tasks_for_upload] returns, and
    either its list is empty or [process_tasks] returns with no failed
    task; [find_tasks_for_upload] returns the empty list also when the
    search raises [WorkfrontAPIError].  In every other case (settings
    missing, a failed task, any other exception) it returns 1. *)
Theorem main_exit_code w :
  exists code w',
    main cfg env w = (Ret code, w') /\
    (code = 0 \/ code = 1 \/ code = 130) /\
    (code = 130 <->
       config_valid cfg = true /\
       exists w1, main_try cfg env w = (Raise KeyboardInterrupt, w1)) /\
    (code = 0 <->
       config_valid cfg = true /\
       exists session_id w1 tasks w2,
         get_workfront_session_id cfg env w = (Ret session_id, w1) /\
         find_tasks_for_upload cfg env w1 = (Ret tasks, w2) /\
         (tasks = [] \/
          exists stats w3,
            process_tasks cfg env tasks session_id w2 = (Ret stats, w3) /\
            failed_tasks stats = 0)) /\
    (forall w1 w2,
       search_tasks env (TASK_STATUS_UPLOAD cfg) (MAX_TASKS_PER_RUN cfg) true w1
         = (Raise WorkfrontAPIError, w2) ->
       find_tasks_for_upload cfg env w1 = (Ret [], w2)).
Proof.
  assert (Hsearch : forall w1 w2,
    search_tasks env (TASK_STATUS_UPLOAD cfg) (MAX_TASKS_PER_RUN cfg) true w1
      = (Raise WorkfrontAPIError, w2) ->
    find_tasks_for_upload cfg env w1 = (Ret [], w2)).
  { intros w1 w2 Hs. by rewrite (find_tasks_search_raises _ _ _ Hs). }
  pose proof (main_try_zero w) as Hzero.
  rewrite main_eq.
  destruct (config_valid cfg) eqn:Hvalid.
  2:{ exists 1, w. split; [done|]. split; [auto|].
      split; [split; [done|by intros [? _]]|].
      split; [split; [done|by intros [? _]]|done]. }
  destruct (main_try cfg env w) as [[code|e] w'] eqn:Htry.
  - exists code, w'. split; [done|].
    pose proof (main_try_code _ _ _ Htry) as Hcode.
    split; [tauto|]. split; [|split; [|done]].
    + split; [lia|]. by intros (_ & w1 & Heq).
    + rewrite <- Hzero. split.
      * intros ->. eauto.
      * intros (_ & w1 & Heq). congruence.
  - destruct (decide (e = KeyboardInterrupt)) as [->|Hne].
    + exists 130, w'. split; [done|]. split; [auto|]. split; [|split; [|done]].
      * split; [eauto|done].
      * rewrite <- Hzero. split; [done|]. by intros (_ & w1 & Heq).
    + exists 1, w'. split; [done|]. split; [auto|]. split; [|split; [|done]].
      * split; [done|]. intros (_ & w1 & Heq). congruence.
      * rewrite <- Hzero. split; [done|]. by intros (_ & w1 & Heq).
Qed.

(** ** Further properties of the code *)

(** *** Settings and login *)

Lemma truthy_true s : truthy s = true <-> s <> "".
Proof. destruct s; cbn; split; done. Qed.

Lemma get_workfront_session_id_eq w :
  get_workfront_session_id cfg env w =
    if forallb truthy (oauth_vars cfg) then
      match jwt_encode env (WORKFRONT_CUSTOMER_ID cfg) (WORKFRONT_USER_ID cfg)
              (WORKFRONT_PRIVATE_KEY cfg) with
      | Raise e => (Raise e, w)
      | Ret jwt_token =>
          let r := oauth_exchange env (length (trace w)) jwt_token in
          (match r with
           | Ret (Some session_id) => Ret session_id
           | Ret None => Raise KeyError
           | Raise e => Raise e
           end, push w (EvOAuth (is_Ret r)))
      end
    else (Raise ValueError, w).
Proof.
  unfold get_workfront_session_id. fold (oauth_vars cfg).
  pose proof (missing_none (oauth_vars cfg)) as Hm.
  destruct (filter _ (oauth_vars cfg)) as [|v l].
  - rewrite (proj1 Hm eq_refl). unfold bind, lift.
    destruct (jwt_encode env _ _ _) as [jwt_token|e]; [|done].
    unfold try_except, bind, http_oauth, clock, emit, lift. cbn.
    destruct (oauth_exchange env _ _) as [[s|]|e]; cbn; try done.
    unfold except_class. by destruct (decide (e = RequestException)) as [->|].
  - destruct (forallb truthy (oauth_vars cfg)); [|done].
    discriminate (proj2 Hm eq_refl).
Qed.

(** X1.  [validate_configuration] never raises and touches nothing; it
    returns [True] exactly when each of the eight Workfront settings and the
    three Cloudinary credentials is a non-empty string.  The folder, the
    three status codes and the task limit are not required. *)
Theorem validate_configuration_required w :
  exists valid,
    validate_configuration cfg w = (Ret valid, w) /\
    (valid = true <->
     WORKFRONT_BASE_URL cfg <> "" /\ WORKFRONT_API_KEY cfg <> "" /\
     WORKFRONT_BASE cfg <> "" /\ WORKFRONT_CLIENT_ID cfg <> "" /\
     WORKFRONT_CLIENT_SECRET cfg <> "" /\ WORKFRONT_CUSTOMER_ID cfg <> "" /\
     WORKFRONT_USER_ID cfg <> "" /\ WORKFRONT_PRIVATE_KEY cfg <> "" /\
     CLOUDINARY_CLOUD_NAME cfg <> "" /\ CLOUDINARY_API_KEY cfg <> "" /\
     CLOUDINARY_API_SECRET cfg <> "").
Proof.
  exists (config_valid cfg). split; [apply validate_configuration_eq|].
  unfold config_valid. cbn [forallb]. rewrite !andb_true_iff, !truthy_true.
  tauto.
Qed.

(** X2.  With a required setting missing, [main] returns 1 and has made no
    interaction at all: no login, no search, no file. *)
Theorem main_invalid_configuration w :
  config_valid cfg = false ->
  main cfg env w = (Ret 1, w).
Proof. intros Hbad. by rewrite main_eq, Hbad. Qed.

(** X3.  When the login raises, [main] returns 130 for an interrupt and 1
    for anything else, and the run has made at most the one request of the
    OAuth exchange: no task search, no download, no upload, no update, no
    file. *)
Theorem main_login_fails w e w1 :
  config_valid cfg = true ->
  get_workfront_session_id cfg env w = (Raise e, w1) ->
  main cfg env w = (Ret (if decide (e = KeyboardInterrupt) then 130 else 1), w1) /\
  fs w1 = fs w /\
  (trace w1 = trace w \/ exists ok, trace w1 = trace w ++ [EvOAuth ok]).
Proof.
  intros Hvalid Hlogin. split.
  - by rewrite main_eq, Hvalid, main_try_eq, Hlogin.
  - revert Hlogin. rewrite get_workfront_session_id_eq.
    destruct (forallb truthy (oauth_vars cfg)).
    + destruct (jwt_encode env _ _ _) as [jwt_token|e'].
      * cbn zeta. destruct (oauth_exchange env _ _) as [[s|]|e'];
          intros H; inversion H; subst; cbn; eauto.
      * intros H; inversion H; subst; auto.
    + intros H; inversion H; subst; auto.
Qed.

(** X4.  [get_workfront_session_id]: with one of its six variables empty
    it raises [ValueError] before any request; when signing the token
    raises, that exception comes out, again before any request; otherwise
    it makes exactly one exchange request and returns the access token of
    the answer, raises [KeyError] when the answer has none, and lets the
    exception of a failed exchange out as it is (a [RequestException] stays
    a [RequestException]). *)
Theorem get_workfront_session_id_outcomes w :
  (forallb truthy (oauth_vars cfg) = false ->
   get_workfront_session_id cfg env w = (Raise ValueError, w)) /\
  (forallb truthy (oauth_vars cfg) = true ->
   (forall e,
      jwt_encode env (WORKFRONT_CUSTOMER_ID cfg) (WORKFRONT_USER_ID cfg)
        (WORKFRONT_PRIVATE_KEY cfg) = Raise e ->
      get_workfront_session_id cfg env w = (Raise e, w)) /\
   (forall jwt_token,
      jwt_encode env (WORKFRONT_CUSTOMER_ID cfg) (WORKFRONT_USER_ID cfg)
        (WORKFRONT_PRIVATE_KEY cfg) = Ret jwt_token ->
      (forall session_id,
         oauth_exchange env (length (trace w)) jwt_token = Ret (Some session_id) ->
         get_workfront_session_id cfg env w =
           (Ret session_id, push w (EvOAuth true))) /\
      (oauth_exchange env (length (trace w)) jwt_token = Ret None ->
       get_workfront_session_id cfg env w =
         (Raise KeyError, push w (EvOAuth true))) /\
      (forall e,
         oauth_exchange env (length (trace w)) jwt_token = Raise e ->
         get_workfront_session_id cfg env w =
           (Raise e, push w (EvOAuth false))))).
Proof.
  rewrite get_workfront_session_id_eq. split.
  - by intros ->.
  - intros ->. split.
    + by intros e ->.
    + intros jwt_token ->. cbn zeta. repeat split.
      * by intros s ->.
      * by intros ->.
      * by intros e ->.
Qed.

(** *** [_make_request] *)

(** The URL [_make_request] chooses. *)
Lemma upper_ascii_idempotent c : upper_ascii (upper_ascii c) = upper_ascii c.
Proof. destruct c as [[] [] [] [] [] [] [] []]; reflexivity. Qed.

Lemma upper_idempotent s : upper (upper s) = upper s.
Proof.
  induction s as [|c s IH]; [done|]. cbn. by rewrite upper_ascii_idempotent, IH.
Qed.

Lemma make_request_eq method object_name action object_id params data w :
  _make_request env method object_name action object_id params data w =
    let url :=
      if (String.eqb (upper method) "GET" && opt_truthy action)%bool then
        UrlAction object_name (default "" action)
          (if opt_truthy params then params else None)
      else if opt_truthy object_id then
        UrlObject object_name (default "" object_id)
      else UrlCollection object_name in
    let wrap e := if decide (e = RequestException) then WorkfrontAPIError else e in
    if String.eqb (upper method) "GET" then
      let r := requests_get env (length (trace w)) url in
      (match r with
       | Ret body => Ret (JsonDict body)
       | Raise e => Raise (wrap e)
       end, push w (EvGet url (is_Ret r)))
    else if String.eqb (upper method) "PUT" then
      let r := requests_put env (length (trace w)) url data in
      (match r with
       | Ret code => Ret (StatusCode code)
       | Raise e => Raise (wrap e)
       end, push w (EvPut url data (is_Ret r)))
    else if String.eqb (upper method) "POST" then
      let r := requests_post env (length (trace w)) url data in
      (match r with
       | Ret code => Ret (StatusCode code)
       | Raise e => Raise (wrap e)
       end, push w (EvPost url data (is_Ret r)))
    else (Raise WorkfrontAPIError, w).
Proof.
  unfold _make_request. cbn zeta.
  set (url := if (String.eqb (upper method) "GET" && opt_truthy action)%bool
              then _ else _).
  unfold try_except.
  destruct (String.eqb (upper method) "GET").
  { unfold bind. rewrite http_get_eq.
    destruct (requests_get env _ _) as [body|e]; [done|].
    unfold except_class. by destruct (decide (e = RequestException)). }
  destruct (String.eqb (upper method) "PUT").
  { unfold bind. rewrite http_put_eq.
    destruct (requests_put env _ _ _) as [code|e]; [done|].
    unfold except_class. by destruct (decide (e = RequestException)). }
  destruct (String.eqb (upper method) "POST").
  { unfold bind, http_post, clock, emit, lift. cbn.
    destruct (requests_post env _ _ _) as [code|e]; [done|].
    unfold except_class. by destruct (decide (e = RequestException)). }
  done.
Qed.

(** X5.  Whatever its arguments, [_make_request] makes at most one request,
    touches no file, and never lets a [RequestException] out: the failure
    of a request comes out as [WorkfrontAPIError]. *)
Theorem make_request_at_most_one_request
    method object_name action object_id params data w r w' :
  _make_request env method object_name action object_id params data w = (r, w') ->
  fs w' = fs w /\
  (trace w' = trace w \/
   exists ev, trace w' = trace w ++ [ev] /\ is_network ev = true) /\
  r <> Raise RequestException.
Proof.
  rewrite make_request_eq. cbn zeta.
  assert (Hwrap : forall e,
    (if decide (e = RequestException) then WorkfrontAPIError else e)
      <> RequestException).
  { intros e. by destruct (decide (e = RequestException)). }
  destruct (String.eqb (upper method) "GET").
  { destruct (requests_get env _ _) as [body|e]; intros H; inversion H; subst;
      (split; [done|]); (split; [right; by eexists|]); [done|].
    intros Heq. inversion Heq. by eapply Hwrap. }
  destruct (String.eqb (upper method) "PUT").
  { destruct (requests_put env _ _ _) as [code|e]; intros H; inversion H; subst;
      (split; [done|]); (split; [right; by eexists|]); [done|].
    intros Heq. inversion Heq. by eapply Hwrap. }
  destruct (String.eqb (upper method) "POST").
  { destruct (requests_post env _ _ _) as [code|e]; intros H; inversion H; subst;
      (split; [done|]); (split; [right; by eexists|]); [done|].
    intros Heq. inversion Heq. by eapply Hwrap. }
  intros H; inversion H; subst. split; [done|]. split; [by left|done].
Qed.

(** X6.  For a method written in ASCII, [_make_request] reads the method
    without regard to case, and a method other than GET, PUT and POST
    raises [WorkfrontAPIError] before anything is sent.  (Outside ASCII,
    [str.upper] maps further letters, which [upper] does not follow.) *)
Theorem make_request_method method object_name action object_id params data w :
  isascii method = true ->
  _make_request env (upper method) object_name action object_id params data w =
    _make_request env method object_name action object_id params data w /\
  (upper method <> "GET" -> upper method <> "PUT" -> upper method <> "POST" ->
   _make_request env method object_name action object_id params data w =
     (Raise WorkfrontAPIError, w)).
Proof.
  intros _. split.
  - unfold _make_request. by rewrite upper_idempotent.
  - intros Hget Hput Hpost. rewrite make_request_eq. cbn zeta.
    apply String.eqb_neq in Hget, Hput, Hpost. by rewrite Hget, Hput, Hpost.
Qed.

(** *** The URL strings *)

Lemma append_inv_head (s a b : string) : s +:+ a = s +:+ b -> a = b.
Proof.
  induction s as [|c s IH]; [done|].
  change (String c s +:+ a) with (String c (s +:+ a)).
  change (String c s +:+ b) with (String c (s +:+ b)).
  intros H. inversion H. auto.
Qed.

Lemma append_nil_r (s : string) : s +:+ "" = s.
Proof.
  induction s as [|c s IH]; [done|].
  change (String c s +:+ "") with (String c (s +:+ "")). by rewrite IH.
Qed.

(** X7.  The URL strings [_make_request] builds for objects keep the
    objects apart: two IDs of the same kind give the same URL only if they
    are the same ID, and the URL of a document is never the URL of a task. *)
Theorem object_urls_distinct :
  let base_url := get_workfront_api_base_url cfg in
  (forall object_name id1 id2,
     render_url base_url (object_url object_name id1) =
       render_url base_url (object_url object_name id2) ->
     id1 = id2) /\
  (forall document_id task_id,
     render_url base_url (object_url "document" document_id) <>
       render_url base_url (object_url "task" task_id)).
Proof.
  cbn zeta. generalize (get_workfront_api_base_url cfg). intros base_url.
  split.
  - intros object_name id1 id2. unfold object_url.
    destruct (truthy id1) eqn:H1, (truthy id2) eqn:H2; cbn [render_url]; intros H.
    + by do 4 apply append_inv_head in H.
    + do 2 apply append_inv_head in H.
      rewrite <- (append_nil_r object_name) in H at 2.
      apply append_inv_head in H. discriminate H.
    + do 2 apply append_inv_head in H.
      rewrite <- (append_nil_r object_name) in H at 1.
      apply append_inv_head in H. discriminate H.
    + apply truthy_false in H1, H2. congruence.
  - intros document_id task_id. unfold object_url.
    destruct (truthy document_id), (truthy task_id); cbn [render_url];
      intros H; do 2 apply append_inv_head in H; discriminate H.
Qed.

(** *** Counting the interactions of [process_document] *)

Lemma count_events_app f tr1 tr2 :
  count_events f (tr1 ++ tr2) = (count_events f tr1 + count_events f tr2)%nat.
Proof. unfold count_events. by rewrite List.filter_app, length_app. Qed.

Lemma count_events_none f tr :
  Forall (fun ev => f ev = false) tr -> count_events f tr = 0%nat.
Proof.
  unfold count_events. induction 1 as [|ev tr Hev _ IH]; [done|].
  cbn. by rewrite Hev.
Qed.

Lemma downloaded_ids_app tr1 tr2 :
  downloaded_ids (tr1 ++ tr2) = downloaded_ids tr1 ++ downloaded_ids tr2.
Proof. apply omap_app. Qed.

Lemma downloaded_ids_none tr :
  Forall (fun ev => is_download ev = false) tr -> downloaded_ids tr = [].
Proof.
  unfold downloaded_ids. induction 1 as [|ev tr Hev _ IH]; [done|].
  cbn. rewrite IH. by destruct ev.
Qed.

Lemma fs_events_are f post :
  (forall op ok, f (EvFs op ok) = false) ->
  Forall (fun ev => exists op ok, ev = EvFs op ok) post ->
  Forall (fun ev => f ev = false) post.
Proof.
  intros Hf H. eapply Forall_impl; [exact H|]. by intros ev (op & ok & ->).
Qed.

(** The download step starts with its one request; what follows is file
    operations, and none when the request failed. *)
Lemma download_trace_exact document session_id w r w1 :
  _download_to_temp_file env document session_id w = (r, w1) ->
  exists ok (files : list Event),
    trace w1 = trace w ++ EvDownload (doc_ID document) session_id ok :: files /\
    Forall (fun ev => exists op ok', ev = EvFs op ok') files /\
    (ok = false -> files = [] /\ fs w1 = fs w /\ exists e, r = Raise e).
Proof.
  rewrite download_to_temp_file_eq. cbn zeta.
  destruct (requests_download env _ _ _) as [content|e].
  - destruct (fs_fault env _ (OpCreate _)) as [e|].
    + intros H; inversion H; subst; cbn. rewrite <- app_assoc.
      eexists true, _; split; [reflexivity|]. split; [|done].
      repeat constructor; eauto.
    + destruct (fs_fault env _ (OpWrite _)) as [e|];
        intros H; inversion H; subst; cbn; rewrite <- !app_assoc;
        (eexists true, _; split; [reflexivity|]); (split; [|done]);
        repeat constructor; eauto.
  - intros H; inversion H; subst; cbn.
    exists false, []. split; [done|]. split; [constructor|]. eauto.
Qed.

Lemma process_document_trace_exact document session_id w r w' :
  process_document cfg env document session_id w = (r, w') ->
  exists ok (files mid post : list Event),
    trace w' =
      trace w ++ EvDownload (doc_ID document) session_id ok :: files ++ mid ++ post /\
    Forall (fun ev => exists op ok', ev = EvFs op ok') files /\
    upload_then_put cfg env document mid /\
    Forall (fun ev => exists op ok', ev = EvFs op ok') post.
Proof.
  destruct (process_document_cases document session_id w)
    as [(e1 & w1 & Hd)|(p & w1 & r2 & w2 & c & w3 & Hd & Hu & Hc)].
  - rewrite (process_document_download_raises _ _ _ _ _ Hd).
    intros H; inversion H; subst.
    destruct (download_trace_exact _ _ _ _ _ Hd) as (ok & files & Htr & Hfiles & _).
    exists ok, files, [], []. rewrite !app_nil_r.
    repeat split; try done. by left.
  - rewrite (process_document_download_returns _ _ _ _ _ _ _ _ _ Hd Hu Hc).
    intros H; inversion H; subst.
    destruct (download_trace_exact _ _ _ _ _ Hd) as (ok & files & Htr & Hfiles & _).
    destruct (upload_update_trace _ _ _ _ _ Hu) as (mid & Hmid & Hshape).
    destruct (cleanup_trace _ _ _ _ Hc) as (post & Hpost & Hl').
    exists ok, files, mid, post. rewrite Hpost, Hmid, Htr, <- !app_assoc.
    repeat split; done.
Qed.

(** X8.  [process_document] makes a single attempt: exactly one download
    request, at most one upload and at most one document update, and an
    update only when there was an upload. *)
Theorem process_document_single_attempt document session_id w r w' :
  process_document cfg env document session_id w = (r, w') ->
  exists new : list Event,
    trace w' = trace w ++ new /\
    count_events is_download new = 1%nat /\
    (count_events is_put new <= count_events is_upload new <= 1)%nat.
Proof.
  intros Hrun.
  destruct (process_document_trace_exact _ _ _ _ _ Hrun)
    as (ok & files & mid & post & Htr & Hfiles & Hmid & Hpost).
  eexists. split; [exact Htr|].
  change (EvDownload (doc_ID document) session_id ok :: files ++ mid ++ post)
    with ([EvDownload (doc_ID document) session_id ok] ++ files ++ mid ++ post).
  rewrite !count_events_app.
  rewrite !(count_events_none _ files), !(count_events_none _ post)
    by (by apply fs_events_are).
  destruct Hmid as [->|[(p & ok' & ->)|(p & t & url & ok' & _ & ->)]];
    cbn; lia.
Qed.

(** *** The temporary file *)

(** X9.  When the download request fails, [process_document] stops there:
    the request is its only interaction, no temporary file is created and
    nothing is uploaded; an HTTP failure ([RequestException]) is reported
    as [(False, Config.TASK_ERROR)]. *)
Theorem process_document_download_request_fails document session_id w e :
  requests_download env (length (trace w)) (doc_ID document) session_id = Raise e ->
  exists r,
    process_document cfg env document session_id w =
      (r, push w (EvDownload (doc_ID document) session_id false)) /\
    (e = RequestException -> r = Ret (false, TASK_ERROR cfg)) /\
    (is_modelled e = false -> e <> RequestException -> r = Raise e).
Proof.
  intros Hreq.
  assert (Hd : _download_to_temp_file env document session_id w =
                 (Raise (if decide (e = RequestException)
                         then WorkfrontAPIError else e),
                  push w (EvDownload (doc_ID document) session_id false))).
  { rewrite download_to_temp_file_eq. cbn zeta. by rewrite Hreq. }
  rewrite (process_document_download_raises _ _ _ _ _ Hd).
  eexists. split; [reflexivity|]. split.
  - intros ->. by rewrite decide_True.
  - intros Hm Hne. rewrite decide_False by done. by rewrite Hm.
Qed.

(** X10.  When [_download_to_temp_file] returns a path, the file at that
    path holds exactly the bytes the download request returned, the path
    is a non-empty string, and every other file is as it was. *)
Theorem download_to_temp_file_stores_content document session_id w p w1 :
  _download_to_temp_file env document session_id w = (Ret p, w1) ->
  p <> "" /\
  (exists content,
     requests_download env (length (trace w)) (doc_ID document) session_id
       = Ret content /\
     fs w1 !! p = Some content) /\
  (forall q, q <> p -> fs w1 !! q = fs w !! q).
Proof.
  intros Hd. split.
  { apply truthy_true. by eapply download_path_truthy. }
  revert Hd. rewrite download_to_temp_file_eq. cbn zeta.
  destruct (requests_download env _ _ _) as [content|e]; [|discriminate].
  destruct (fs_fault env _ (OpCreate _)) as [e|]; [discriminate|].
  destruct (fs_fault env _ (OpWrite _)) as [e|]; [discriminate|].
  intros H; inversion H; subst. cbn [fs push]. split.
  - exists content. split; [done|]. apply lookup_insert_eq.
  - intros q Hq. by rewrite !lookup_insert_ne.
Qed.

(** X11.  [_cleanup_temp_file] never raises an [Exception]; it does
    nothing at all when the path does not exist; it touches no other
    file; and when it returns, the file is gone unless [os.remove] failed,
    in which case it is what it was. *)
Theorem cleanup_temp_file_best_effort file_path w r w' :
  _cleanup_temp_file env file_path w = (r, w') ->
  (forall e, r = Raise e -> is_Exception e = false) /\
  (fs w !! file_path = None -> r = Ret tt /\ w' = w) /\
  (forall q, q <> file_path -> fs w' !! q = fs w !! q) /\
  (fs w' !! file_path = None \/
   fs w' = fs w /\
   exists e, fs_fault env (length (trace w)) (OpRemove file_path) = Some e).
Proof.
  intros Hc. split.
  { intros e ->. by eapply cleanup_raises_no_Exception. }
  revert Hc. rewrite cleanup_temp_file_eq.
  destruct (bool_decide (is_Some (fs w !! file_path))) eqn:Hex.
  - apply bool_decide_eq_true in Hex.
    destruct (fs_fault env _ _) as [e|] eqn:Hf; intros H; inversion H; subst;
      cbn [fs push].
    + split; [intros Hn; rewrite Hn in Hex; by destruct Hex|].
      split; [done|]. right. eauto.
    + split; [intros Hn; rewrite Hn in Hex; by destruct Hex|].
      split; [intros q Hq; by rewrite lookup_delete_ne|].
      left. apply lookup_delete_eq.
  - apply bool_decide_eq_false in Hex. intros H; inversion H; subst.
    split; [done|]. split; [done|]. left. by apply eq_None_not_Some.
Qed.

(** X12.  [process_document] creates, changes and removes no file other
    than its own temporary file, whatever fails: every other path holds
    after the call what it held before. *)
Theorem process_document_touches_only_its_file document session_id w r w' q :
  process_document cfg env document session_id w = (r, w') ->
  q <> tmp_name env (length (trace w) + 1) ->
  fs w' !! q = fs w !! q.
Proof.
  intros Hrun Hq. revert Hrun.
  assert (Hdl : forall r1 w1,
    _download_to_temp_file env document session_id w = (r1, w1) ->
    fs w1 !! q = fs w !! q /\ forall p, r1 = Ret p -> q <> p).
  { intros r1 w1. rewrite download_to_temp_file_eq. cbn zeta.
    cbn [trace push]. rewrite length_app. cbn [length].
    destruct (requests_download env _ _ _) as [content|e].
    - destruct (fs_fault env _ (OpCreate _)) as [e|].
      + intros H; inversion H; subst. split; [done|]. by intros.
      + destruct (fs_fault env _ (OpWrite _)) as [e|];
          intros H; inversion H; subst; cbn [fs push].
        * split; [by rewrite lookup_insert_ne|by intros].
        * split; [by rewrite !lookup_insert_ne|].
          intros p Hp. inversion Hp; subst. done.
    - intros H; inversion H; subst. split; [done|]. by intros. }
  destruct (process_document_cases document session_id w)
    as [(e1 & w1 & Hd)|(p & w1 & r2 & w2 & c & w3 & Hd & Hu & Hc)].
  - rewrite (process_document_download_raises _ _ _ _ _ Hd).
    intros H; inversion H; subst. by apply (Hdl _ _ Hd).
  - rewrite (process_document_download_returns _ _ _ _ _ _ _ _ _ Hd Hu Hc).
    intros H; inversion H; subst.
    destruct (Hdl _ _ Hd) as [Hsame Hne]. specialize (Hne p eq_refl).
    rewrite <- Hsame, <- (upload_update_fs _ _ _ _ _ Hu).
    revert Hc. rewrite cleanup_temp_file_eq.
    destruct (bool_decide _).
    + destruct (fs_fault env _ _); intros Hc; inversion Hc; subst; [done|].
      cbn [fs]. by rewrite lookup_delete_ne.
    + by intros Hc; inversion Hc; subst.
Qed.

(** X13.  [upload_file] makes exactly one upload call and touches no
    file; the folder is the one given when it is a non-empty string and
    [Config.CLOUDINARY_ASSET_FOLDER] otherwise; and every [Exception] of
    the uploader comes out as [CloudinaryServiceError]. *)
Theorem upload_file_one_call
    file_path public_id display_name resource_type asset_folder w r w' :
  upload_file cfg env file_path public_id display_name resource_type asset_folder w
    = (r, w') ->
  let folder :=
    match asset_folder with
    | Some given => if String.eqb given "" then CLOUDINARY_ASSET_FOLDER cfg else given
    | None => CLOUDINARY_ASSET_FOLDER cfg
    end in
  w' = push w (EvUpload file_path resource_type folder display_name public_id
                 (is_Ret r)) /\
  (forall e, r = Raise e -> e = CloudinaryServiceError \/ is_Exception e = false) /\
  (forall response, r = Ret response ->
     cloudinary_upload env (length (trace w)) file_path resource_type folder
       display_name public_id = Ret response).
Proof.
  unfold upload_file, try_except. rewrite uploader_upload_eq.
  assert (Hfolder :
    (if opt_truthy asset_folder then default "" asset_folder
     else CLOUDINARY_ASSET_FOLDER cfg) =
    match asset_folder with
    | Some given => if String.eqb given "" then CLOUDINARY_ASSET_FOLDER cfg else given
    | None => CLOUDINARY_ASSET_FOLDER cfg
    end).
  { destruct asset_folder as [given|]; [|done]. cbn. unfold truthy.
    by destruct (String.eqb given ""). }
  rewrite Hfolder. cbn zeta.
  destruct (cloudinary_upload env _ _ _ _ _ _) as [response|e] eqn:Hup.
  - intros H; inversion H; subst.
    split; [done|]. split; [by intros e Heq|].
    intros response' Heq. by inversion Heq.
  - unfold except_Exception. destruct (is_Exception e) eqn:He;
      intros H; inversion H; subst;
      (split; [done|]); (split; [|by intros response Heq]);
      intros e' Heq; inversion Heq; subst; auto.
Qed.

(** *** The documents of a task *)

Lemma upload_then_put_no_download d mid :
  upload_then_put cfg env d mid -> Forall (fun ev => is_download ev = false) mid.
Proof.
  intros [->|[(p & ok & ->)|(p & t & url & ok & _ & ->)]]; repeat constructor.
Qed.

Lemma process_document_downloaded document session_id w r w' :
  process_document cfg env document session_id w = (r, w') ->
  downloaded_ids (trace w') = downloaded_ids (trace w) ++ [doc_ID document].
Proof.
  intros Hrun.
  destruct (process_document_trace_exact _ _ _ _ _ Hrun)
    as (ok & files & mid & post & -> & Hfiles & Hmid & Hpost).
  change (EvDownload (doc_ID document) session_id ok :: files ++ mid ++ post)
    with ([EvDownload (doc_ID document) session_id ok] ++ files ++ mid ++ post).
  rewrite !downloaded_ids_app.
  rewrite (downloaded_ids_none files), (downloaded_ids_none post)
    by (by apply fs_events_are).
  rewrite (downloaded_ids_none mid) by by eapply upload_then_put_no_download.
  by rewrite !app_nil_r.
Qed.

Lemma loop_downloaded session_id documents results w final w' :
  process_task_documents_loop cfg env documents session_id results w
    = (Ret final, w') ->
  downloaded_ids (trace w') = downloaded_ids (trace w) ++ (doc_ID <$> documents).
Proof.
  revert w results. induction documents as [|d rest IH]; intros w results.
  - cbn. intros H; inversion H; subst. by rewrite app_nil_r.
  - cbn. unfold bind.
    destruct (process_document cfg env d session_id w) as [[[b st]|e] w1] eqn:Hd;
      [|discriminate].
    intros H. rewrite (IH _ _ H), (process_document_downloaded _ _ _ _ _ Hd).
    by rewrite <- app_assoc.
Qed.

(** X14.  When [process_task_documents] returns, it has requested the
    download of every document of the task exactly once and in the order
    of the list: a document that fails does not stop the ones after it. *)
Theorem process_task_documents_attempts_every_document task session_id w status w' :
  process_task_documents cfg env task session_id w = (Ret status, w') ->
  downloaded_ids (trace w') =
    downloaded_ids (trace w) ++ (doc_ID <$> documents_of task).
Proof.
  destruct (decide (documents_of task = [])) as [Hemp|Hne].
  - rewrite (process_task_documents_empty _ _ _ Hemp), Hemp.
    intros H; inversion H; subst. by rewrite app_nil_r.
  - rewrite (process_task_documents_nonempty _ _ _ Hne).
    destruct (process_task_documents_loop _ _ _ _ _ _) as [[results|e] w1] eqn:Hl;
      [|discriminate].
    intros H; inversion H; subst. by eapply loop_downloaded.
Qed.

Lemma loop_never_modelled session_id documents results w e w' :
  process_task_documents_loop cfg env documents session_id results w = (Raise e, w') ->
  is_modelled e = false.
Proof.
  revert w results. induction documents as [|d rest IH]; intros w results.
  - discriminate.
  - cbn. unfold bind.
    destruct (process_document cfg env d session_id w) as [[[b st]|e1] w1] eqn:Hd.
    + apply IH.
    + intros H; inversion H; subst. by eapply process_document_never_modelled.
Qed.

(** X15.  [process_task_documents] only ever returns one of the two
    configured codes, and no [WorkfrontAPIError] and no
    [CloudinaryServiceError] comes out of it. *)
Theorem process_task_documents_contains_modelled_errors task session_id w r w' :
  process_task_documents cfg env task session_id w = (r, w') ->
  (forall status, r = Ret status ->
     status = TASK_COMPLETE cfg \/ status = TASK_ERROR cfg) /\
  (forall e, r = Raise e ->
     e <> WorkfrontAPIError /\ e <> CloudinaryServiceError).
Proof.
  destruct (decide (documents_of task = [])) as [Hemp|Hne].
  - rewrite (process_task_documents_empty _ _ _ Hemp).
    intros H; inversion H; subst. split; [|done].
    intros status Heq. inversion Heq. auto.
  - rewrite (process_task_documents_nonempty _ _ _ Hne).
    destruct (process_task_documents_loop _ _ _ _ _ _) as [[results|e] w1] eqn:Hl;
      intros H; inversion H; subst.
    + split; [|done]. intros status Heq. inversion Heq.
      destruct (forallb _ results); auto.
    + split; [done|]. intros e' Heq. inversion Heq; subst.
      apply loop_never_modelled in Hl. by destruct e'.
Qed.

(** *** The search *)

(** X16.  [find_tasks_for_upload] makes exactly one request, the search
    GET; it never raises [WorkfrontAPIError] nor [RequestException]: when
    the request fails over HTTP it returns the empty list; and every task
    it returns has a true [hasDocuments], the tasks being those of the
    answer in the same order. *)
Theorem find_tasks_for_upload_result w r w' :
  find_tasks_for_upload cfg env w = (r, w') ->
  let answer := requests_get env (length (trace w)) (search_url cfg) in
  w' = push w (EvGet (search_url cfg) (is_Ret answer)) /\
  r <> Raise WorkfrontAPIError /\ r <> Raise RequestException /\
  (answer = Raise RequestException -> r = Ret []) /\
  (forall data, answer = Ret data ->
     r = Ret (filter (fun task => has_documents task = true) (default [] data))) /\
  (forall tasks, r = Ret tasks ->
     Forall (fun task => task_hasDocuments task = Some true) tasks).
Proof.
  cbn zeta.
  destruct (search_tasks env (TASK_STATUS_UPLOAD cfg) (MAX_TASKS_PER_RUN cfg)
              true w) as [[found|e] w1] eqn:Hs.
  - rewrite (find_tasks_found _ _ _ Hs). revert Hs. rewrite search_tasks_eq.
    cbn zeta. destruct (requests_get env _ _) as [data|e] eqn:Hg;
      [|destruct (decide _); discriminate].
    intros Hs H. inversion Hs; subst. inversion H; subst.
    split; [done|]. split; [done|]. split; [done|]. split; [done|].
    split; [intros data' Heq; by inversion Heq|].
    intros tasks Heq. inversion Heq; subst.
    apply Forall_forall. intros task Hin.
    apply list_elem_of_filter in Hin as [Hflag _].
    unfold has_documents in Hflag.
    by destruct (task_hasDocuments task) as [[]|].
  - rewrite (find_tasks_search_raises _ _ _ Hs). revert Hs.
    rewrite search_tasks_eq. cbn zeta.
    destruct (requests_get env _ _) as [data|e0] eqn:Hg; [discriminate|].
    intros Hs H.
    destruct e0; cbn in Hs; inversion Hs; subst; cbn in H; inversion H; subst;
      repeat split; try done;
      intros tasks Heq; inversion Heq; constructor.
Qed.

(** *** The statistics of [process_tasks] and the status updates *)

Lemma process_tasks_loop_documents tasks session_id stats w stats' w' :
  process_tasks_loop cfg env tasks session_id stats w = (Ret stats', w') ->
  total_documents stats' =
    total_documents stats +
    Z.of_nat (sum_list_with (fun task => length (documents_of task)) tasks).
Proof.
  revert stats w. induction tasks as [|task rest IH]; intros stats w.
  - cbn. intros H; inversion H; subst. lia.
  - cbn [process_tasks_loop sum_list_with]. unfold bind.
    destruct (process_task cfg env task session_id stats w) as [[s1|e] w1] eqn:Ht;
      [|discriminate].
    intros H. rewrite (IH _ _ H).
    destruct (process_task_counts _ _ _ _ _ _ Ht) as [->| ->]; cbn; lia.
Qed.

(** X17.  When [process_tasks] returns, [total_documents] is the sum of
    the numbers of documents of the tasks, a task without a ['documents']
    entry counting for none. *)
Theorem process_tasks_total_documents tasks session_id w stats w' :
  process_tasks cfg env tasks session_id w = (Ret stats, w') ->
  total_documents stats =
    Z.of_nat (sum_list_with (fun task => length (documents_of task)) tasks).
Proof.
  unfold process_tasks. intros H.
  by rewrite (process_tasks_loop_documents _ _ _ _ _ _ H).
Qed.

Lemma document_event_no_status d ev :
  document_event d ev ->
  is_status_put ev = false /\ forall code, is_status_set code ev = false.
Proof.
  destruct ev as [| url [[field value]|] ok | | | | |]; cbn; try done.
  intros [_ ->]. split; [done|]. intros code. by destruct ok.
Qed.

Lemma process_task_documents_no_status task session_id w r w' :
  process_task_documents cfg env task session_id w = (r, w') ->
  exists new : list Event,
    trace w' = trace w ++ new /\
    count_events is_status_put new = 0%nat /\
    forall code, count_events (is_status_set code) new = 0%nat.
Proof.
  intros H.
  destruct (process_task_documents_trace _ _ _ _ _ H) as (new & Htr & Hall).
  exists new. split; [done|]. split; [|intros code];
    apply count_events_none; (eapply Forall_impl; [exact Hall|]);
    intros ev (d & _ & Hev); by apply document_event_no_status in Hev as [? ?].
Qed.

Lemma count_events_cons f ev tr :
  count_events f (ev :: tr) =
    ((if f ev then 1 else 0) + count_events f tr)%nat.
Proof. unfold count_events. cbn. by destruct (f ev). Qed.

Lemma is_status_put_status url value ok :
  is_status_put (EvPut url (Some ("status", value)) ok) = true.
Proof. reflexivity. Qed.

Lemma is_status_set_status code url value ok :
  is_status_set code (EvPut url (Some ("status", value)) ok) =
    ok && String.eqb value code.
Proof. by destruct ok. Qed.

(** What one iteration that returns adds to the trace, in status
    updates. *)
Lemma process_task_status_updates task session_id stats w stats' w' :
  process_task cfg env task session_id stats w = (Ret stats', w') ->
  exists new : list Event,
    trace w' = trace w ++ new /\
    (1 <= count_events is_status_put new <= 2)%nat /\
    (TASK_COMPLETE cfg <> TASK_ERROR cfg ->
     successful_tasks stats' =
       successful_tasks stats +
       Z.of_nat (count_events (is_status_set (TASK_COMPLETE cfg)) new)).
Proof.
  rewrite process_task_eq. cbn zeta. rewrite process_task_try_eq.
  assert (Hexc : forall st w1 st' w2,
    process_task_except cfg env task st w1 = (Ret st', w2) ->
    st' = add_failed st /\
    exists ok,
      trace w2 = trace w1 ++
        [EvPut (object_url "task" (task_ID task))
           (Some ("status", TASK_ERROR cfg)) ok]).
  { intros st w1 st' w2. rewrite process_task_except_eq.
    destruct (update_task_status env _ _ w1) as [[c|e] w3] eqn:Hu;
      [|destruct (is_Exception e); [|discriminate]];
      intros H; inversion H; subst;
      rewrite (update_task_status_world _ _ _ _ _ Hu); cbn; eauto. }
  assert (Herr : TASK_COMPLETE cfg <> TASK_ERROR cfg ->
                 String.eqb (TASK_ERROR cfg) (TASK_COMPLETE cfg) = false).
  { intros Hne. by destruct (String.eqb_spec (TASK_ERROR cfg) (TASK_COMPLETE cfg)). }
  destruct (process_task_documents _ _ _ _ _) as [[s|e] w1] eqn:Hp;
    destruct (process_task_documents_no_status _ _ _ _ _ Hp)
      as (new1 & Htr1 & Hput1 & Hset1).
  - destruct (update_task_status env _ s w1) as [[c|e] w2] eqn:Hu.
    + intros H; inversion H; subst.
      rewrite (update_task_status_world _ _ _ _ _ Hu). cbn [trace push is_Ret].
      eexists. rewrite Htr1, <- app_assoc. split; [reflexivity|].
      rewrite !count_events_app, Hput1, Hset1, !count_events_cons,
        is_status_put_status, is_status_set_status.
      cbn [count_events List.filter length andb]. split; [lia|].
      intros Hne. destruct (String.eqb s (TASK_COMPLETE cfg)); cbn; lia.
    + destruct (is_Exception e); [|discriminate].
      intros H. destruct (Hexc _ _ _ _ H) as (-> & ok & Htr3).
      rewrite (update_task_status_world _ _ _ _ _ Hu) in Htr3.
      cbn [trace push is_Ret] in Htr3.
      eexists. rewrite Htr3, Htr1, <- !app_assoc. split; [reflexivity|].
      rewrite !count_events_app, Hput1, Hset1, !count_events_cons,
        !is_status_put_status, !is_status_set_status.
      cbn [count_events List.filter length andb]. split; [lia|].
      intros Hne. rewrite (Herr Hne), andb_false_r. cbn. lia.
  - destruct (is_Exception e); [|discriminate].
    intros H. destruct (Hexc _ _ _ _ H) as (-> & ok & Htr3).
    eexists. rewrite Htr3, Htr1, <- !app_assoc. split; [reflexivity|].
    rewrite !count_events_app, Hput1, Hset1, !count_events_cons,
      !is_status_put_status, !is_status_set_status.
    cbn [count_events List.filter length andb]. split; [lia|].
    intros Hne. rewrite (Herr Hne), andb_false_r. cbn. lia.
Qed.

Lemma process_tasks_loop_status_updates tasks session_id stats w stats' w' :
  process_tasks_loop cfg env tasks session_id stats w = (Ret stats', w') ->
  exists new : list Event,
    trace w' = trace w ++ new /\
    (length tasks <= count_events is_status_put new <= 2 * length tasks)%nat /\
    (TASK_COMPLETE cfg <> TASK_ERROR cfg ->
     successful_tasks stats' =
       successful_tasks stats +
       Z.of_nat (count_events (is_status_set (TASK_COMPLETE cfg)) new)).
Proof.
  revert stats w. induction tasks as [|task rest IH]; intros stats w.
  - cbn. intros H; inversion H; subst. exists []. rewrite app_nil_r.
    split; [done|]. cbn. split; [lia|]. intros _. lia.
  - cbn [process_tasks_loop]. unfold bind.
    destruct (process_task cfg env task session_id stats w) as [[s1|e] w1] eqn:Ht;
      [|discriminate].
    intros H.
    destruct (process_task_status_updates _ _ _ _ _ _ Ht) as (new1 & Htr1 & Hc1 & Hs1).
    destruct (IH _ _ H) as (new2 & Htr2 & Hc2 & Hs2).
    exists (new1 ++ new2). rewrite Htr2, Htr1, <- app_assoc. split; [done|].
    rewrite !count_events_app. cbn [length]. split; [lia|].
    intros Hne. rewrite (Hs2 Hne), (Hs1 Hne). lia.
Qed.

(** X18.  With distinct complete and error codes, when [process_tasks]
    returns, [successful_tasks] is the number of status updates to
    [Config.TASK_COMPLETE] that went through during the call: a task is
    reported successful exactly when its complete status was accepted by
    Workfront. *)
Theorem successful_tasks_are_completed_updates tasks session_id w stats w' :
  TASK_COMPLETE cfg <> TASK_ERROR cfg ->
  process_tasks cfg env tasks session_id w = (Ret stats, w') ->
  exists new : list Event,
    trace w' = trace w ++ new /\
    successful_tasks stats =
      Z.of_nat (count_events (is_status_set (TASK_COMPLETE cfg)) new).
Proof.
  unfold process_tasks. intros Hne H.
  destruct (process_tasks_loop_status_updates _ _ _ _ _ _ H) as (new & Htr & _ & Hs).
  exists new. split; [done|]. by rewrite (Hs Hne).
Qed.

Lemma process_task_documents_status task session_id w final_status w' :
  process_task_documents cfg env task session_id w = (Ret final_status, w') ->
  final_status = TASK_COMPLETE cfg \/ final_status = TASK_ERROR cfg.
Proof.
  destruct (decide (documents_of task = [])) as [Hemp|Hne].
  - rewrite (process_task_documents_empty _ _ _ Hemp).
    intros H; inversion H; subst. by right.
  - rewrite (process_task_documents_nonempty _ _ _ Hne).
    destruct (process_task_documents_loop _ _ _ _ _ _) as [[results|e] w1];
      [|discriminate].
    intros H; inversion H; subst. destruct (forallb _ results); [by left|by right].
Qed.

(** What one iteration that returns adds to the trace: the interactions
    for the documents of the task, then its status updates. *)
Lemma process_task_status_shape task session_id stats w stats' w' :
  process_task cfg env task session_id stats w = (Ret stats', w') ->
  exists documents_part status_part : list Event,
    trace w' = trace w ++ documents_part ++ status_part /\
    Forall (fun ev => exists d, d ∈ documents_of task /\ document_event d ev)
      documents_part /\
    status_updates cfg task status_part.
Proof.
  rewrite process_task_eq. cbn zeta. rewrite process_task_try_eq.
  assert (Hexc : forall st w1 st' w2,
    process_task_except cfg env task st w1 = (Ret st', w2) ->
    exists ok,
      trace w2 = trace w1 ++
        [EvPut (object_url "task" (task_ID task))
           (Some ("status", TASK_ERROR cfg)) ok]).
  { intros st w1 st' w2. rewrite process_task_except_eq.
    destruct (update_task_status env _ _ w1) as [[c|e] w3] eqn:Hu;
      [|destruct (is_Exception e); [|discriminate]];
      intros H; inversion H; subst;
      rewrite (update_task_status_world _ _ _ _ _ Hu); cbn; eauto. }
  destruct (process_task_documents _ _ _ _ _) as [[s|e] w1] eqn:Hp;
    destruct (process_task_documents_trace _ _ _ _ _ Hp) as (new1 & Htr1 & Hall1).
  - pose proof (process_task_documents_status _ _ _ _ _ Hp) as Hs.
    destruct (update_task_status env _ s w1) as [[c|e] w2] eqn:Hu.
    + intros H; inversion H; subst.
      rewrite (update_task_status_world _ _ _ _ _ Hu). cbn [trace push is_Ret].
      eexists new1, _. rewrite Htr1, <- app_assoc. split; [reflexivity|].
      split; [done|]. by apply status_updated.
    + destruct (is_Exception e); [|discriminate].
      intros H. destruct (Hexc _ _ _ _ H) as (ok & Htr3).
      rewrite (update_task_status_world _ _ _ _ _ Hu) in Htr3.
      cbn [trace push is_Ret] in Htr3.
      eexists new1, _. rewrite Htr3, Htr1, <- !app_assoc. split; [reflexivity|].
      split; [done|]. by apply status_update_failed.
  - destruct (is_Exception e); [|discriminate].
    intros H. destruct (Hexc _ _ _ _ H) as (ok & Htr3).
    eexists new1, _. rewrite Htr3, Htr1, <- !app_assoc. split; [reflexivity|].
    split; [done|]. apply status_after_exception.
Qed.

Lemma process_tasks_loop_tasks_trace tasks session_id stats w stats' w' :
  process_tasks_loop cfg env tasks session_id stats w = (Ret stats', w') ->
  exists new : list Event,
    trace w' = trace w ++ new /\ tasks_trace cfg tasks new.
Proof.
  revert stats w. induction tasks as [|task rest IH]; intros stats w.
  - cbn. intros H; inversion H; subst. exists []. rewrite app_nil_r.
    split; [done|constructor].
  - cbn [process_tasks_loop]. unfold bind.
    destruct (process_task cfg env task session_id stats w) as [[s1|e] w1] eqn:Ht;
      [|discriminate].
    intros H.
    destruct (process_task_status_shape _ _ _ _ _ _ Ht)
      as (docs & status & Htr1 & Hdocs & Hstatus).
    destruct (IH _ _ H) as (new2 & Htr2 & Hrun).
    exists (docs ++ status ++ new2). rewrite Htr2, Htr1, <- !app_assoc.
    split; [done|]. by constructor.
Qed.

Lemma tasks_trace_status_count tasks tr :
  tasks_trace cfg tasks tr ->
  (length tasks <= count_events is_status_put tr <= 2 * length tasks)%nat.
Proof.
  induction 1 as [|task rest docs status tr Hdocs Hstatus _ IH]; [cbn; lia|].
  rewrite !count_events_app. cbn [length].
  assert (Hd : count_events is_status_put docs = 0%nat).
  { apply count_events_none. eapply Forall_impl; [exact Hdocs|].
    intros ev (d & _ & Hev). by apply document_event_no_status in Hev as [? ?]. }
  assert (Hs : (1 <= count_events is_status_put status <= 2)%nat).
  { destruct Hstatus; cbn; lia. }
  lia.
Qed.

(** X19.  When [process_tasks] returns, what it has added to the trace is,
    task after task in the order of the list, the interactions for the
    documents of the task followed by the status updates of that task,
    which are: one update that went through; or one update that raised
    followed by a second one, with [Config.TASK_ERROR]; or, when
    [process_task_documents] raised, one update with [Config.TASK_ERROR].
    So every task gets at least one and at most two status updates, the
    second only after the first has failed, and then with the error
    code. *)
Theorem status_updates_per_task tasks session_id w stats w' :
  process_tasks cfg env tasks session_id w = (Ret stats, w') ->
  exists new : list Event,
    trace w' = trace w ++ new /\
    tasks_trace cfg tasks new /\
    (length tasks <= count_events is_status_put new <= 2 * length tasks)%nat.
Proof.
  unfold process_tasks. intros H.
  destruct (process_tasks_loop_tasks_trace _ _ _ _ _ _ H) as (new & Htr & Hrun).
  exists new. split; [done|]. split; [done|].
  by apply tasks_trace_status_count.
Qed.

Lemma process_task_raises task session_id stats w e w' :
  process_task cfg env task session_id stats w = (Raise e, w') ->
  is_Exception e = false.
Proof.
  rewrite process_task_eq. cbn zeta.
  destruct (process_task_try _ _ _ _ _ _) as [[s|e1] w1]; [discriminate|].
  destruct (is_Exception e1) eqn:He1.
  - rewrite process_task_except_eq.
    destruct (update_task_status env _ _ w1) as [[c|e2] w2]; [discriminate|].
    destruct (is_Exception e2) eqn:He2; [discriminate|].
    intros H; by inversion H; subst.
  - intros H; by inversion H; subst.
Qed.

(** Nothing that derives from [Exception] comes out of the iterations
    themselves. *)
Lemma process_tasks_loop_raises tasks session_id stats w e w' :
  process_tasks_loop cfg env tasks session_id stats w = (Raise e, w') ->
  is_Exception e = false.
Proof.
  revert stats w.
  induction tasks as [|task rest IH]; intros stats w; [discriminate|].
  cbn [process_tasks_loop]. unfold bind.
  destruct (process_task cfg env task session_id stats w) as [[s1|e1] w1] eqn:Ht.
  - apply IH.
  - intros H; inversion H; subst. by apply process_task_raises in Ht.
Qed.

Lemma task_of_dict_raises task e :
  task_of_dict task = Raise e ->
  (dict_ID task = None /\ e = KeyError) \/
  (is_Some (dict_ID task) /\ dict_documents task = DocumentsUnsized /\
   e = TypeError).
Proof.
  unfold task_of_dict. destruct (dict_ID task) as [task_id|].
  - destruct (dict_documents task); try discriminate.
    intros H; inversion H; subst. right. eauto.
  - intros H; inversion H; subst. by left.
Qed.

Lemma process_tasks_loop_dicts_decoded dicts tasks session_id stats w :
  Forall2 (fun task task' => task_of_dict task = Ret task') dicts tasks ->
  process_tasks_loop_dicts cfg env dicts session_id stats w =
    process_tasks_loop cfg env tasks session_id stats w.
Proof.
  intros Hall. revert stats w.
  induction Hall as [|task task' dicts tasks Hdec _ IH]; intros stats w;
    [done|].
  cbn [process_tasks_loop_dicts process_tasks_loop]. unfold bind, lift.
  rewrite Hdec.
  destruct (process_task cfg env task' session_id stats w) as [[s1|e] w1];
    [apply IH|done].
Qed.

Lemma process_tasks_loop_dicts_raises dicts session_id stats w e w' :
  process_tasks_loop_dicts cfg env dicts session_id stats w = (Raise e, w') ->
  is_Exception e = true ->
  exists (before : list TaskDict) (task : TaskDict) (rest : list TaskDict)
         (tasks : list Task) (stats' : Stats),
    dicts = before ++ task :: rest /\
    Forall2 (fun task task' => task_of_dict task = Ret task') before tasks /\
    task_of_dict task = Raise e /\
    process_tasks_loop cfg env tasks session_id stats w = (Ret stats', w').
Proof.
  revert stats w. induction dicts as [|task rest IH]; intros stats w;
    [discriminate|].
  cbn [process_tasks_loop_dicts]. unfold bind, lift.
  destruct (task_of_dict task) as [task'|e0] eqn:Hdec.
  - destruct (process_task cfg env task' session_id stats w) as [[s1|e1] w1] eqn:Ht.
    + intros H He.
      destruct (IH _ _ H He) as (before & bad & rest' & tasks & stats' & -> & Hall & Hbad & Hrun).
      exists (task :: before), bad, rest', (task' :: tasks), stats'.
      split; [done|]. split; [by constructor|]. split; [done|].
      cbn [process_tasks_loop]. unfold bind. by rewrite Ht.
    + intros H He. inversion H; subst.
      apply process_task_raises in Ht. congruence.
  - intros H He. inversion H; subst.
    exists [], task, rest, [], stats. split; [done|].
    split; [constructor|]. split; [done|]. done.
Qed.

(** X20.  An [Exception] comes out of [process_tasks] only from the two
    statements that stand before the [try] of the loop body: [task['ID']]
    on a task without ['ID'] ([KeyError]) and
    [len(task.get('documents', []))] on a ['documents'] that has no length
    ([TypeError]).  It then comes out at once: the tasks before that one
    have been processed as usual, that task and the tasks after it get no
    request at all.  Whatever is raised inside the [try] of an iteration is
    caught there, so that on tasks that have an ['ID'] and a list or no
    ['documents'] [process_tasks] returns its statistics or is left by a
    [KeyboardInterrupt]. *)
Theorem process_tasks_exceptions dicts session_id w :
  (forall e w',
     process_tasks_dicts cfg env dicts session_id w = (Raise e, w') ->
     e = KeyboardInterrupt \/
     exists (before : list TaskDict) (task : TaskDict) (rest : list TaskDict)
            (tasks : list Task) (stats : Stats),
       dicts = before ++ task :: rest /\
       Forall2 (fun task task' => task_of_dict task = Ret task') before tasks /\
       ((dict_ID task = None /\ e = KeyError) \/
        (is_Some (dict_ID task) /\ dict_documents task = DocumentsUnsized /\
         e = TypeError)) /\
       process_tasks_loop cfg env tasks session_id
         {| total_tasks := Z.of_nat (length dicts); successful_tasks := 0;
            failed_tasks := 0; total_documents := 0 |} w = (Ret stats, w')) /\
  (forall tasks,
     Forall2 (fun task task' => task_of_dict task = Ret task') dicts tasks ->
     process_tasks_dicts cfg env dicts session_id w =
       process_tasks cfg env tasks session_id w /\
     forall e w',
       process_tasks cfg env tasks session_id w = (Raise e, w') ->
       e = KeyboardInterrupt).
Proof.
  split.
  - intros e w' H. destruct (is_Exception e) eqn:He; [|by destruct e; auto].
    right. unfold process_tasks_dicts in H.
    destruct (process_tasks_loop_dicts_raises _ _ _ _ _ _ H He)
      as (before & task & rest & tasks & stats & Hsplit & Hall & Hbad & Hrun).
    exists before, task, rest, tasks, stats.
    split; [done|]. split; [done|]. split; [|done].
    by apply task_of_dict_raises.
  - intros tasks Hall. split.
    + unfold process_tasks_dicts, process_tasks.
      rewrite (Forall2_length _ _ _ Hall).
      by apply process_tasks_loop_dicts_decoded.
    + intros e w' H. unfold process_tasks in H.
      apply process_tasks_loop_raises in H. by destruct e.
Qed.

(** *** What a reported success means *)

(** A download that returns has been answered with the content, and has
    created and written the file whose name it returns. *)
Lemma download_returns_exact document session_id w p w1 :
  _download_to_temp_file env document session_id w = (Ret p, w1) ->
  p = tmp_name env (length (trace w) + 1) /\
  (exists content,
     requests_download env (length (trace w)) (doc_ID document) session_id
       = Ret content) /\
  trace w1 =
    trace w ++
      [EvDownload (doc_ID document) session_id true;
       EvFs (OpCreate p) true; EvFs (OpWrite p) true].
Proof.
  rewrite download_to_temp_file_eq. cbn zeta.
  destruct (requests_download env _ _ _) as [content|e]; [|discriminate].
  cbn [trace push]. rewrite !length_app. cbn [length].
  destruct (fs_fault env _ (OpCreate _)) as [e|]; [discriminate|].
  destruct (fs_fault env _ (OpWrite _)) as [e|]; [discriminate|].
  intros H; inversion H; subst. split; [done|]. split; [by eexists|].
  cbn [trace]. by rewrite <- !app_assoc.
Qed.

(** Steps 2 and 3 return only with [(True, Config.TASK_COMPLETE)], after
    Cloudinary has answered the upload with a URL and the PUT of that very
    URL has been answered. *)
Lemma upload_update_returns document p w v w' :
  process_document_upload_update cfg env document p w = (Ret v, w') ->
  v = (true, TASK_COMPLETE cfg) /\
  exists url code,
    cloudinary_upload env (length (trace w)) p "auto" (CLOUDINARY_ASSET_FOLDER cfg)
      (default (doc_ID document) (doc_name document)) (doc_ID document)
      = Ret (Some url) /\
    requests_put env (length (trace w) + 1) (object_url "document" (doc_ID document))
      (Some ("description", url)) = Ret code /\
    trace w' =
      trace w ++
        [EvUpload p "auto" (CLOUDINARY_ASSET_FOLDER cfg)
           (default (doc_ID document) (doc_name document)) (doc_ID document) true;
         EvPut (object_url "document" (doc_ID document))
           (Some ("description", url)) true].
Proof.
  rewrite process_document_upload_update_eq. cbn zeta.
  destruct (cloudinary_upload env _ _ _ _ _ _) as [[url|]|e] eqn:Hup;
    [|discriminate..].
  cbn [trace push]. rewrite length_app. cbn [length].
  destruct (requests_put env _ _ _) as [code|e] eqn:Hput; [|discriminate].
  intros H; inversion H; subst. split; [done|]. exists url, code.
  split; [done|]. split; [done|]. cbn [trace push]. by rewrite <- app_assoc.
Qed.

(** X21.  [process_document] reports success only when the three steps
    went through: the flag [True] always comes with
    [Config.TASK_COMPLETE], after the download was answered and stored in
    the temporary file, Cloudinary answered the upload of that file with a
    URL, and the PUT of that very URL as the description of the document
    was answered, in this order and with nothing in between; only the
    cleanup follows.  The flag [False] always comes with
    [Config.TASK_ERROR]. *)
Theorem process_document_success_means_all_steps document session_id w success status w' :
  process_document cfg env document session_id w = (Ret (success, status), w') ->
  let document_id := doc_ID document in
  let document_name := default document_id (doc_name document) in
  let t := length (trace w) in
  let p := tmp_name env (t + 1) in
  (success = false -> status = TASK_ERROR cfg) /\
  (success = true ->
   status = TASK_COMPLETE cfg /\
   exists content url code (post : list Event),
     fst (_download_to_temp_file env document session_id w) = Ret p /\
     requests_download env t document_id session_id = Ret content /\
     cloudinary_upload env (t + 3) p "auto" (CLOUDINARY_ASSET_FOLDER cfg)
       document_name document_id = Ret (Some url) /\
     requests_put env (t + 4) (object_url "document" document_id)
       (Some ("description", url)) = Ret code /\
     Forall (fun ev => exists op ok, ev = EvFs op ok) post /\
     trace w' =
       trace w ++
         [EvDownload document_id session_id true;
          EvFs (OpCreate p) true; EvFs (OpWrite p) true;
          EvUpload p "auto" (CLOUDINARY_ASSET_FOLDER cfg) document_name
            document_id true;
          EvPut (object_url "document" document_id)
            (Some ("description", url)) true] ++ post).
Proof.
  cbn zeta.
  destruct (process_document_cases document session_id w)
    as [(e1 & w1 & Hd)|(p & w1 & r2 & w2 & c & w3 & Hd & Hu & Hc)].
  - rewrite (process_document_download_raises _ _ _ _ _ Hd).
    destruct (is_modelled e1); [|discriminate].
    intros H; inversion H; subst. split; [done|discriminate].
  - rewrite (process_document_download_returns _ _ _ _ _ _ _ _ _ Hd Hu Hc).
    destruct c as [[]|ec]; [|discriminate].
    destruct r2 as [v|e].
    2:{ destruct (is_modelled e); [|discriminate].
        intros H; inversion H; subst. split; [done|discriminate]. }
    destruct (download_returns_exact _ _ _ _ _ Hd) as (Hp & (content & Hget) & Htr1).
    destruct (upload_update_returns _ _ _ _ _ Hu)
      as (-> & url & code & Hup & Hput & Htr2).
    destruct (cleanup_trace _ _ _ _ Hc) as (post & Hpost & Hfiles).
    intros H; inversion H; subst success status w3.
    split; [discriminate|]. intros _. split; [done|].
    assert (Hlen : length (trace w1) = (length (trace w) + 3)%nat).
    { rewrite Htr1, length_app. done. }
    rewrite Hlen in Hup, Hput. rewrite <- Hp.
    exists content, url, code, post.
    split; [by rewrite Hd|]. split; [done|]. split; [done|].
    split; [by rewrite <- Nat.add_assoc in Hput|]. split; [done|].
    rewrite Hpost, Htr2, Htr1, <- !app_assoc. done.
Qed.

(** *** The run as a whole *)

Lemma find_tasks_for_upload_world w r w' :
  find_tasks_for_upload cfg env w = (r, w') ->
  let answer := requests_get env (length (trace w)) (search_url cfg) in
  w' = push w (EvGet (search_url cfg) (is_Ret answer)) /\
  (forall tasks, r = Ret tasks ->
     (is_Ret answer = false -> tasks = []) /\
     forall data, answer = Ret data ->
       tasks = filter (fun task => has_documents task = true) (default [] data)).
Proof.
  cbn zeta.
  destruct (search_tasks env (TASK_STATUS_UPLOAD cfg) (MAX_TASKS_PER_RUN cfg)
              true w) as [[found|e] w1] eqn:Hs.
  - rewrite (find_tasks_found _ _ _ Hs). revert Hs. rewrite search_tasks_eq.
    cbn zeta. destruct (requests_get env _ _) as [data|e] eqn:Hg;
      [|destruct (decide _); discriminate].
    intros Hs H. inversion Hs; subst. inversion H; subst.
    split; [done|]. intros tasks Heq. inversion Heq; subst.
    split; [done|]. intros data' Hd. by inversion Hd.
  - rewrite (find_tasks_search_raises _ _ _ Hs). revert Hs.
    rewrite search_tasks_eq. cbn zeta.
    destruct (requests_get env _ _) as [data|e0] eqn:Hg; [discriminate|].
    intros Hs H.
    destruct e0; cbn in Hs; inversion Hs; subst; cbn in H; inversion H; subst;
      (split; [done|]); intros tasks Heq; inversion Heq; done.
Qed.

(** X22.  The interactions of a whole run of [main] come in this order:
    nothing at all; or the OAuth exchange alone; or the OAuth exchange that
    went through, then the one search GET, then, only when the search was
    answered, interactions that all are for the tasks of the answer whose
    [hasDocuments] is true (their status updates, and the downloads,
    uploads, description updates and temporary files of their
    documents). *)
Theorem main_interactions w r w' :
  main cfg env w = (r, w') ->
  trace w' = trace w \/
  (exists ok, trace w' = trace w ++ [EvOAuth ok]) \/
  (exists ok (rest : list Event),
     trace w' = trace w ++ EvOAuth true :: EvGet (search_url cfg) ok :: rest /\
     (ok = false -> rest = []) /\
     forall data,
       requests_get env (length (trace w) + 1) (search_url cfg) = Ret data ->
       Forall (task_event
                 (filter (fun task => has_documents task = true) (default [] data)))
         rest).
Proof.
  rewrite main_eq. destruct (config_valid cfg).
  2:{ intros H; inversion H; subst. by left. }
  rewrite main_try_eq.
  destruct (get_workfront_session_id cfg env w) as [[sid|e] w1] eqn:Hlogin.
  2:{ revert Hlogin. rewrite get_workfront_session_id_eq.
      destruct (forallb truthy (oauth_vars cfg)).
      - destruct (jwt_encode env _ _ _) as [jwt_token|e'].
        + cbn zeta. destruct (oauth_exchange env _ _) as [[s|]|e'];
            intros Hl; inversion Hl; subst; intros H; inversion H; subst;
            right; left; cbn; eauto.
        + intros Hl; inversion Hl; subst. intros H; inversion H; subst. by left.
      - intros Hl; inversion Hl; subst. intros H; inversion H; subst. by left. }
  assert (Hw1 : w1 = push w (EvOAuth true)).
  { revert Hlogin. rewrite get_workfront_session_id_eq.
    destruct (forallb truthy (oauth_vars cfg)); [|discriminate].
    destruct (jwt_encode env _ _ _) as [jwt_token|e']; [|discriminate].
    cbn zeta. destruct (oauth_exchange env _ _) as [[s|]|e'];
      intros Hl; by inversion Hl. }
  destruct (find_tasks_for_upload cfg env w1) as [rf w2] eqn:Hfind.
  destruct (find_tasks_for_upload_world _ _ _ Hfind) as [Hw2 Hres].
  assert (Hlen : length (trace w1) = (length (trace w) + 1)%nat).
  { rewrite Hw1. cbn. by rewrite length_app. }
  rewrite Hlen in Hw2, Hres.
  assert (Hbase : trace w2 =
    trace w ++ EvOAuth true ::
      [EvGet (search_url cfg)
         (is_Ret (requests_get env (length (trace w) + 1) (search_url cfg)))]).
  { rewrite Hw2, Hw1. cbn. by rewrite <- app_assoc. }
  assert (Hnil : forall r0,
    (r0, w2) = (r, w') ->
    trace w' = trace w \/
    (exists ok, trace w' = trace w ++ [EvOAuth ok]) \/
    (exists ok (rest : list Event),
       trace w' = trace w ++ EvOAuth true :: EvGet (search_url cfg) ok :: rest /\
       (ok = false -> rest = []) /\
       forall data,
         requests_get env (length (trace w) + 1) (search_url cfg) = Ret data ->
         Forall (task_event
                   (filter (fun task => has_documents task = true)
                      (default [] data))) rest)).
  { intros r0 H; inversion H; subst. right; right.
    eexists _, []. split; [exact Hbase|]. split; [done|]. by intros. }
  destruct rf as [[|t tasks]|e]; [by apply Hnil| |by apply Hnil].
  destruct (Hres _ eq_refl) as [Hfail Hdata].
  assert (Hrun : forall r0 w3,
    process_tasks cfg env (t :: tasks) sid w2 = (r0, w3) ->
    exists rest : list Event,
      trace w3 = trace w2 ++ rest /\ Forall (task_event (t :: tasks)) rest).
  { intros r0 w3. unfold process_tasks. apply process_tasks_loop_trace. }
  destruct (process_tasks cfg env (t :: tasks) sid w2) as [r0 w3] eqn:Hp.
  destruct (Hrun _ _ eq_refl) as (rest & Htr3 & Hall).
  assert (Hshape : trace w3 =
    trace w ++ EvOAuth true ::
      EvGet (search_url cfg)
        (is_Ret (requests_get env (length (trace w) + 1) (search_url cfg)))
      :: rest).
  { rewrite Htr3, Hbase, <- app_assoc. done. }
  intros H. assert (w' = w3) as -> by (destruct r0; by inversion H).
  right; right. eexists _, rest. split; [exact Hshape|]. split.
  - intros Hfalse. by specialize (Hfail Hfalse).
  - intros data Hd. by rewrite <- (Hdata _ Hd).
Qed.

(** *** When nothing fails *)

Section Reliable.

Hypothesis Hreliable : reliable env.

Lemma process_document_reliable document session_id w :
  exists w',
    process_document cfg env document session_id w
      = (Ret (true, TASK_COMPLETE cfg), w').
Proof.
  destruct Hreliable as (Hdl & Hup & Hput & Hfs).
  assert (exists p w1, _download_to_temp_file env document session_id w = (Ret p, w1))
    as (p & w1 & Hd).
  { rewrite download_to_temp_file_eq. cbn zeta.
    destruct (Hdl (length (trace w)) (doc_ID document) session_id) as [content ->].
    rewrite !Hfs. eauto. }
  assert (exists w2, process_document_upload_update cfg env document p w1
                     = (Ret (true, TASK_COMPLETE cfg), w2)) as (w2 & Hu).
  { rewrite process_document_upload_update_eq. cbn zeta.
    destruct (Hup (length (trace w1)) p "auto" (CLOUDINARY_ASSET_FOLDER cfg)
                (default (doc_ID document) (doc_name document)) (doc_ID document))
      as [url ->].
    match goal with |- context [requests_put env ?t ?u ?d] =>
      destruct (Hput t u d) as [code ->] end. eauto. }
  assert (exists w3, _cleanup_temp_file env p w2 = (Ret tt, w3)) as (w3 & Hc).
  { rewrite cleanup_temp_file_eq. destruct (bool_decide _); [|eauto].
    rewrite Hfs. eauto. }
  exists w3.
  by rewrite (process_document_download_returns _ _ _ _ _ _ _ _ _ Hd Hu Hc).
Qed.

Lemma loop_reliable session_id documents results w :
  exists w',
    process_task_documents_loop cfg env documents session_id results w
      = (Ret (results ++ replicate (length documents) true), w').
Proof.
  revert results w. induction documents as [|d rest IH]; intros results w.
  - cbn. rewrite app_nil_r. unfold ret. eauto.
  - cbn. unfold bind.
    destruct (process_document_reliable d session_id w) as [w1 ->].
    destruct (IH (results ++ [true]) w1) as [w2 ->].
    exists w2. by rewrite <- app_assoc.
Qed.

Lemma forallb_replicate_true n : forallb (fun b : bool => b) (replicate n true) = true.
Proof. induction n; cbn; auto. Qed.

Lemma process_task_documents_reliable task session_id w :
  documents_of task <> [] ->
  exists w',
    process_task_documents cfg env task session_id w = (Ret (TASK_COMPLETE cfg), w').
Proof.
  intros Hne. rewrite (process_task_documents_nonempty _ _ _ Hne).
  destruct (loop_reliable session_id (documents_of task) [] w) as [w' ->].
  cbn [app]. rewrite forallb_replicate_true. eauto.
Qed.

Lemma process_task_reliable task session_id stats w :
  documents_of task <> [] ->
  exists w',
    process_task cfg env task session_id stats w =
      (Ret (add_successful
              (add_documents stats (Z.of_nat (length (documents_of task))))), w').
Proof.
  intros Hne. destruct Hreliable as (_ & _ & Hput & _).
  rewrite process_task_eq. cbn zeta. rewrite process_task_try_eq.
  destruct (process_task_documents_reliable task session_id w Hne) as [w1 ->].
  rewrite update_task_status_eq. cbn zeta.
  match goal with |- context [requests_put env ?t ?u ?d] =>
    destruct (Hput t u d) as [code ->] end.
  rewrite String.eqb_refl. eauto.
Qed.

Lemma process_tasks_loop_reliable tasks session_id stats w :
  Forall (fun task => documents_of task <> []) tasks ->
  exists stats' w',
    process_tasks_loop cfg env tasks session_id stats w = (Ret stats', w') /\
    successful_tasks stats' = successful_tasks stats + Z.of_nat (length tasks) /\
    failed_tasks stats' = failed_tasks stats.
Proof.
  intros Hall. revert stats w.
  induction Hall as [|task rest Hne _ IH]; intros stats w.
  - cbn. unfold ret. eexists _, _. split; [done|]. lia.
  - cbn [process_tasks_loop]. unfold bind.
    destruct (process_task_reliable task session_id stats w Hne) as [w1 ->].
    destruct (IH (add_successful
                    (add_documents stats
                       (Z.of_nat (length (documents_of task))))) w1)
      as (stats' & w' & -> & Hs & Hf).
    eexists _, _. split; [done|]. cbn in Hs, Hf. cbn [length]. lia.
Qed.

End Reliable.

(** X23.  When no download, upload, PUT or file operation fails,
    [process_document] returns [(True, Config.TASK_COMPLETE)] for every
    document, and [process_tasks], on tasks that each have at least one
    document, returns with every task counted successful and none
    failed. *)
Theorem nothing_fails_everything_succeeds session_id :
  reliable env ->
  (forall document w,
     exists w',
       process_document cfg env document session_id w
         = (Ret (true, TASK_COMPLETE cfg), w')) /\
  (forall tasks w,
     Forall (fun task => documents_of task <> []) tasks ->
     exists stats w',
       process_tasks cfg env tasks session_id w = (Ret stats, w') /\
       successful_tasks stats = Z.of_nat (length tasks) /\
       failed_tasks stats = 0).
Proof.
  intros Hrel. split.
  - intros document w. by apply process_document_reliable.
  - intros tasks w Hall. unfold process_tasks.
    destruct (process_tasks_loop_reliable Hrel tasks session_id
                {| total_tasks := Z.of_nat (length tasks); successful_tasks := 0;
                   failed_tasks := 0; total_documents := 0 |} w Hall)
      as (stats & w' & Hrun & Hs & Hf).
    exists stats, w'. split; [done|]. cbn in Hs, Hf. lia.
Qed.

(** *** A task that has no document *)

(** X24.  A task handed to the loop of [process_tasks] with an empty or
    missing document list (whatever its [hasDocuments] flag says) causes no
    download and no upload: when its iteration returns, the only
    interactions are status updates with [Config.TASK_ERROR], one when the
    first goes through, two when the first raises an [Exception]; and, the
    two codes being distinct, the task is counted as failed. *)
Theorem process_task_without_documents task session_id stats w stats' w' :
  documents_of task = [] ->
  process_task cfg env task session_id stats w = (Ret stats', w') ->
  let put ok :=
    EvPut (object_url "task" (task_ID task)) (Some ("status", TASK_ERROR cfg)) ok in
  (trace w' = trace w ++ [put true] \/
   exists ok, trace w' = trace w ++ [put false; put ok]) /\
  (TASK_COMPLETE cfg <> TASK_ERROR cfg ->
   stats' = add_failed (add_documents stats 0)).
Proof.
  intros Hemp. rewrite process_task_eq, Hemp. cbn zeta. cbn [length Z.of_nat].
  rewrite process_task_try_eq, (process_task_documents_empty _ _ _ Hemp).
  destruct (update_task_status env (task_ID task) (TASK_ERROR cfg) w)
    as [[c|e] w1] eqn:Hu;
    pose proof (update_task_status_world _ _ _ _ _ Hu) as Hw1; cbn in Hw1.
  - intros H; inversion H; subst. split; [by left|].
    intros Hne.
    by destruct (String.eqb_spec (TASK_ERROR cfg) (TASK_COMPLETE cfg)).
  - destruct (is_Exception e); [|discriminate].
    rewrite process_task_except_eq.
    destruct (update_task_status env (task_ID task) (TASK_ERROR cfg) w1)
      as [[c|e'] w2] eqn:Hu2;
      pose proof (update_task_status_world _ _ _ _ _ Hu2) as Hw2; cbn in Hw2;
      [|destruct (is_Exception e'); [|discriminate]];
      intros H; inversion H; subst;
      (split; [right; eexists; cbn; by rewrite <- app_assoc|done]).
Qed.

(** *** Documents first, status last *)

(** X25.  In one iteration of the loop of [process_tasks], the status of
    the task is written only once its documents are done with: what the
    iteration adds to the trace is interactions for the documents of the
    task, followed by at most two status updates of that task, and
    nothing after them. *)
Theorem status_written_after_documents task session_id stats w r w' :
  process_task cfg env task session_id stats w = (r, w') ->
  exists documents_part status_part : list Event,
    trace w' = trace w ++ documents_part ++ status_part /\
    Forall (fun ev => exists d, d ∈ documents_of task /\ document_event d ev)
      documents_part /\
    Forall (fun ev => is_task_update (task_ID task) ev = true) status_part /\
    (length status_part <= 2)%nat.
Proof.
  rewrite process_task_eq. cbn zeta. rewrite process_task_try_eq.
  assert (Hupd : forall status w0 r0 w1,
    update_task_status env (task_ID task) status w0 = (r0, w1) ->
    exists ev, trace w1 = trace w0 ++ [ev] /\
               is_task_update (task_ID task) ev = true).
  { intros status w0 r0 w1 H.
    rewrite (update_task_status_world _ _ _ _ _ H). cbn.
    eexists; split; [done|]. cbn. by rewrite bool_decide_eq_true_2. }
  assert (Hexc : forall st w0 r0 w1,
    process_task_except cfg env task st w0 = (r0, w1) ->
    exists ev, trace w1 = trace w0 ++ [ev] /\
               is_task_update (task_ID task) ev = true).
  { intros st w0 r0 w1. rewrite process_task_except_eq.
    destruct (update_task_status env _ _ w0) as [[c|e] w2] eqn:Hu;
      [|destruct (is_Exception e)]; intros H; inversion H; subst;
      by eapply Hupd. }
  destruct (process_task_documents _ _ _ _ _) as [[s|e] w1] eqn:Hp;
    destruct (process_task_documents_trace _ _ _ _ _ Hp) as (new1 & Htr1 & Hall1).
  - destruct (update_task_status env _ s w1) as [[c|e] w2] eqn:Hu;
      destruct (Hupd _ _ _ _ Hu) as (ev1 & Htr2 & Hev1).
    + intros H; inversion H; subst. exists new1, [ev1].
      rewrite Htr2, Htr1, <- app_assoc. repeat split; try done.
      * by repeat constructor.
      * cbn; lia.
    + destruct (is_Exception e).
      * intros H. destruct (Hexc _ _ _ _ H) as (ev2 & Htr3 & Hev2).
        exists new1, [ev1; ev2]. rewrite Htr3, Htr2, Htr1, <- !app_assoc.
        repeat split; try done. by repeat constructor.
      * intros H; inversion H; subst. exists new1, [ev1].
        rewrite Htr2, Htr1, <- app_assoc. repeat split; try done.
        -- by repeat constructor.
        -- cbn; lia.
  - destruct (is_Exception e).
    + intros H. destruct (Hexc _ _ _ _ H) as (ev2 & Htr3 & Hev2).
      exists new1, [ev2]. rewrite Htr3, Htr1, <- !app_assoc.
      repeat split; try done.
      * by repeat constructor.
      * cbn; lia.
    + intros H; inversion H; subst. exists new1, [].
      rewrite app_nil_r. repeat split; try done. cbn; lia.
Qed.

End Proofs.

(** ** The properties on the sample data *)


(** A task without documents: the error code, and the world untouched. *)
Lemma process_task_documents_no_documents_witness :
  process_task_documents sample_config (env_ok []) task_empty "sid" empty_world
    = (Ret "ERR", empty_world).
Proof.
  apply (process_task_documents_no_documents
           sample_config (env_ok []) task_empty "sid" empty_world).
  reflexivity.
Defined.

(** Two tasks, one with two documents and one without any: one success,
    one failure, two tasks. *)
Lemma process_tasks_counts_witness :
  exists stats w',
    process_tasks sample_config (env_ok []) [task_T1; task_empty] "sid" empty_world
      = (Ret stats, w') /\
    total_tasks stats = 2 /\
    successful_tasks stats + failed_tasks stats = total_tasks stats.
Proof.
  pose (w' := snd (process_tasks sample_config (env_ok []) [task_T1; task_empty]
                     "sid" empty_world)).
  pose (stats := {| total_tasks := 2; successful_tasks := 1; failed_tasks := 1;
                    total_documents := 2 |}).
  assert (Hrun : process_tasks sample_config (env_ok []) [task_T1; task_empty]
                   "sid" empty_world = (Ret stats, w'))
    by (vm_compute; reflexivity).
  exists stats, w'. split; [exact Hrun|].
  destruct (process_tasks_counts sample_config (env_ok []) _ _ _ _ _ Hrun)
    as (Htot & Hsum & _).
  split; [exact Htot|exact Hsum].
Defined.

(** The document without a name: the upload is labelled with its ID. *)
Lemma process_document_unnamed_witness :
  exists ok (rest : list Event),
    trace (snd (process_document sample_config (env_ok []) doc_unnamed "sid"
                  empty_world)) =
      [EvDownload "N" "sid" true; EvFs (OpCreate "/tmp/tmp1") true;
       EvFs (OpWrite "/tmp/tmp1") true] ++
      EvUpload "/tmp/tmp1" "auto" "workfront" "N" "N" ok :: rest.
Proof.
  pose (w1 := snd (_download_to_temp_file (env_ok []) doc_unnamed "sid" empty_world)).
  assert (Hd : _download_to_temp_file (env_ok []) doc_unnamed "sid" empty_world
                 = (Ret "/tmp/tmp1", w1)) by (vm_compute; reflexivity).
  exact (process_document_unnamed sample_config (env_ok []) doc_unnamed "sid"
           empty_world "/tmp/tmp1" w1 _ _ eq_refl Hd (surjective_pairing _)).
Defined.

(** No file operation fails: no file is left behind, and the temporary
    file of the download is gone. *)
Lemma process_document_no_leak_witness :
  fs (snd (process_document sample_config (env_ok []) doc_A "sid" empty_world))
    !! "/tmp/tmp1" = None.
Proof.
  pose (w1 := snd (_download_to_temp_file (env_ok []) doc_A "sid" empty_world)).
  assert (Hd : _download_to_temp_file (env_ok []) doc_A "sid" empty_world
                 = (Ret "/tmp/tmp1", w1)) by (vm_compute; reflexivity).
  destruct (process_document_no_leak sample_config (env_ok []) doc_A "sid"
              empty_world _ _ (fun _ _ => eq_refl) (fun _ _ => eq_refl)
              (surjective_pairing _)) as [Hgone _].
  exact (Hgone _ _ Hd).
Defined.

(** Cloudinary rejects the upload of A: [(False, "ERR")], nothing raised. *)
Lemma process_document_outcome_witness :
  fst (process_document sample_config (env_upload_fails [] "A") doc_A "sid"
         empty_world) = Ret (false, "ERR").
Proof.
  set (env := env_upload_fails [] "A").
  pose (w1 := snd (_download_to_temp_file env doc_A "sid" empty_world)).
  pose (w2 := snd (upload_file sample_config env "/tmp/tmp1" "A" "a.png" "auto"
                     None w1)).
  pose (w3 := snd (_cleanup_temp_file env "/tmp/tmp1" w2)).
  destruct (process_document_outcome sample_config env doc_A "sid" empty_world)
    as (_ & _ & Hupload & _).
  rewrite (Hupload "/tmp/tmp1" w1 CloudinaryServiceError w2 w3);
    [reflexivity| | |]; vm_compute; reflexivity.
Defined.

(** Task T2 with documents A and B, the upload of A being rejected: the
    description of A is what it was, B has its URL as description. *)
Lemma update_only_after_upload_witness :
  let env := env_upload_fails [] "A" in
  let w1 := snd (process_document sample_config env doc_A "sid" empty_world) in
  let w2 := snd (process_document sample_config env doc_B "sid" w1) in
  process_task_documents sample_config env task_T2 "sid" empty_world
    = (Ret "ERR", w2) /\
  description_after (trace w2) "A" None = None /\
  description_after (trace w2) "B" None = Some "https://res.cloudinary.com/demo/B".
Proof.
  intros env w1 w2.
  assert (HA : process_document sample_config env doc_A "sid" empty_world
                 = (Ret (false, "ERR"), w1)) by (vm_compute; reflexivity).
  assert (HB : process_document sample_config env doc_B "sid" w1
                 = (Ret (true, "CPL"), w2)) by (vm_compute; reflexivity).
  destruct (update_only_after_upload sample_config env doc_A "sid" empty_world
              _ _ HA) as (_ & _ & HfailedA & _).
  destruct (update_only_after_upload sample_config env doc_B "sid" w1
              _ _ HB) as (_ & _ & _ & HframeB & HdoneB).
  split; [vm_compute; reflexivity|]. split.
  - rewrite (HframeB "A" None) by done.
    by rewrite (HfailedA "ERR" eq_refl "A" None).
  - destruct (HdoneB "CPL" eq_refl eq_refl) as (t & p & url & Hup & Hdesc & _).
    change (doc_ID doc_B) with "B" in Hdesc. rewrite Hdesc.
    vm_compute in Hup. by inversion Hup.
Defined.

(** The status update of T1 gets a connection error: T1 is counted as
    failed, the error code is sent for it, and the loop goes on with T3. *)
Lemma task_fault_does_not_stop_the_run_witness :
  exists w2,
    process_tasks sample_config (env_task_update_fails []) [task_T1; task_T3]
      "sid" empty_world =
    process_tasks_loop sample_config (env_task_update_fails []) [task_T3] "sid"
      {| total_tasks := 2; successful_tasks := 0; failed_tasks := 1;
         total_documents := 2 |} w2 /\
    EvPut (UrlObject "task" "T1") (Some ("status", "ERR")) false ∈ trace w2.
Proof.
  set (env := env_task_update_fails []).
  pose (stats0 := {| total_tasks := 2; successful_tasks := 0; failed_tasks := 0;
                     total_documents := 0 |}).
  pose (w0 := snd (process_task_documents sample_config env task_T1 "sid"
                     empty_world)).
  pose (w1 := snd (update_task_status env "T1" "CPL" w0)).
  destruct (task_fault_does_not_stop_the_run sample_config env "sid") as [Hstep _].
  destruct (Hstep task_T1 [task_T3] stats0 empty_world WorkfrontAPIError w1)
    as (r & w2 & Hupd & Htr & Hgo).
  { right. exists "CPL", w0. split; vm_compute; reflexivity. }
  { reflexivity. }
  assert (Hr : r = Raise WorkfrontAPIError).
  { vm_compute in Hupd. by inversion Hupd. }
  exists w2. split.
  - apply Hgo. by rewrite Hr.
  - rewrite Htr, Hr. apply elem_of_app. right. apply list_elem_of_here.
Defined.

(** The search returns five tasks of which two lack documents: three are
    processed, [total_tasks] is 3, and T4 and T5 get no status update. *)
Lemma only_tasks_with_documents_witness :
  exists stats w1 w2,
    find_tasks_for_upload sample_config (env_ok five_tasks)
      (snd (get_workfront_session_id sample_config (env_ok five_tasks) empty_world))
      = (Ret [task_T1; task_T2; task_T3], w1) /\
    process_tasks sample_config (env_ok five_tasks) [task_T1; task_T2; task_T3]
      "session" w1 = (Ret stats, w2) /\
    total_tasks stats = 3 /\
    Forall (fun ev => is_task_update "T4" ev = false) (trace w2) /\
    Forall (fun ev => is_task_update "T5" ev = false) (trace w2).
Proof.
  set (env := env_ok five_tasks).
  pose (w0 := snd (get_workfront_session_id sample_config env empty_world)).
  pose (w1 := snd (search_tasks env "UPL" 100 true w0)).
  assert (Hs : search_tasks env (TASK_STATUS_UPLOAD sample_config)
                 (MAX_TASKS_PER_RUN sample_config) true w0 = (Ret five_tasks, w1))
    by (vm_compute; reflexivity).
  destruct (only_tasks_with_documents sample_config env "session" w0 five_tasks w1 Hs)
    as (Hfind & _ & Hrun).
  pose (w2 := snd (process_tasks sample_config env [task_T1; task_T2; task_T3]
                     "session" w1)).
  pose (stats := {| total_tasks := 3; successful_tasks := 3; failed_tasks := 0;
                    total_documents := 5 |}).
  assert (Hp : process_tasks sample_config env
                 (filter (fun task => has_documents task = true) five_tasks)
                 "session" w1 = (Ret stats, w2)) by (vm_compute; reflexivity).
  destruct (Hrun _ _ Hp) as (Htotal & new & Htr & _ & Hnone).
  exists stats, w1, w2.
  split; [exact Hfind|].
  split; [exact Hp|].
  split; [exact (Htotal stats eq_refl)|].
  assert (Hbefore : forall id, Forall (fun ev => is_task_update id ev = false) (trace w1))
    by (intros id; vm_compute; repeat constructor).
  split; rewrite Htr; apply Forall_app; (split; [apply Hbefore|]).
  - apply (Hnone task_empty); [|reflexivity|];
      vm_compute; [repeat first [apply list_elem_of_here | apply list_elem_of_further]|].
    intros H. repeat (apply elem_of_cons in H as [H|H]; [discriminate H|]).
    by apply not_elem_of_nil in H.
  - apply (Hnone task_bare); [|reflexivity|];
      vm_compute; [repeat first [apply list_elem_of_here | apply list_elem_of_further]|].
    intros H. repeat (apply elem_of_cons in H as [H|H]; [discriminate H|]).
    by apply not_elem_of_nil in H.
Defined.

(** Every call goes through and the three tasks with documents succeed:
    exit code 0. *)
Lemma main_exit_code_witness :
  fst (main sample_config (env_ok five_tasks) empty_world) = Ret 0.
Proof.
  destruct (main_exit_code sample_config (env_ok five_tasks) empty_world)
    as (code & w' & Hmain & _ & _ & Hzero & _).
  rewrite Hmain. cbn [fst]. f_equal. apply Hzero.
  split; [reflexivity|].
  eexists "session", _, [task_T1; task_T2; task_T3], _.
  split; [apply surjective_pairing|].
  split; [vm_compute; reflexivity|].
  right.
  exists {| total_tasks := 3; successful_tasks := 3; failed_tasks := 0;
            total_documents := 5 |}.
  eexists. split; [vm_compute; reflexivity|reflexivity].
Defined.

(** ** Where the code departs from the properties as first stated *)

(** The cleanup is best effort.  When [os.remove] raises: the download puts
    the bytes of A in [/tmp/tmp1], the upload and the update go through,
    [_cleanup_temp_file] swallows the [OSError], and [process_document]
    returns [(True, "CPL")] with the file still there. *)
Lemma process_document_leaks_when_remove_fails :
  let env := env_fs_faults [] remove_fails in
  let run := process_document sample_config env doc_A "sid" empty_world in
  fst (_download_to_temp_file env doc_A "sid" empty_world) = Ret "/tmp/tmp1" /\
  fst run = Ret (true, "CPL") /\
  fs (snd run) !! "/tmp/tmp1" = Some [].
Proof. vm_compute. repeat split; reflexivity. Qed.

(** C3 as first stated fails when writing the downloaded bytes raises
    [OSError] (step 1): no clause of [process_document] catches it, and it
    comes out. *)
Lemma process_document_propagates_unexpected_fault :
  let env := env_fs_faults [] write_fails in
  fst (process_document sample_config env doc_A "sid" empty_world) = Raise OSError /\
  fst (_download_to_temp_file env doc_A "sid" empty_world) = Raise OSError.
Proof. vm_compute. split; reflexivity. Qed.

(** C4 as first stated fails when the search gets an HTTP error:
    [search_tasks] raises [WorkfrontAPIError], [find_tasks_for_upload]
    returns the empty list, and [main] returns 0 although the only search
    request failed. *)
Lemma main_returns_0_when_search_fails :
  let env := env_search_fails in
  let after_login := snd (get_workfront_session_id sample_config env empty_world) in
  fst (search_tasks env "UPL" 100 true after_login) = Raise WorkfrontAPIError /\
  fst (main sample_config env empty_world) = Ret 0 /\
  trace (snd (main sample_config env empty_world)) =
    [EvOAuth true; EvGet (search_url sample_config) false].
Proof. vm_compute. repeat split; reflexivity. Qed.

(** ** The further properties on the sample data *)

(** The Cloudinary credentials are missing: 1, and nothing has happened. *)
Lemma main_invalid_configuration_witness :
  main config_without_cloudinary (env_ok five_tasks) empty_world
    = (Ret 1, empty_world).
Proof.
  apply (main_invalid_configuration config_without_cloudinary (env_ok five_tasks)
           empty_world).
  reflexivity.
Defined.

(** The OAuth exchange is refused: 1, after that one request. *)
Lemma main_login_fails_witness :
  main sample_config env_oauth_fails empty_world
    = (Ret 1, push empty_world (EvOAuth false)).
Proof.
  assert (Hlogin : get_workfront_session_id sample_config env_oauth_fails empty_world
                     = (Raise RequestException, push empty_world (EvOAuth false)))
    by (vm_compute; reflexivity).
  exact (proj1 (main_login_fails sample_config env_oauth_fails empty_world
                  RequestException _ eq_refl Hlogin)).
Defined.

(** The method [delete], in either case: nothing is sent, and
    [WorkfrontAPIError] comes out. *)
Lemma make_request_method_witness :
  _make_request (env_ok []) "DELETE" "task" None (Some "T1") None None empty_world =
    _make_request (env_ok []) "delete" "task" None (Some "T1") None None
      empty_world /\
  _make_request (env_ok []) "delete" "task" None (Some "T1") None None empty_world =
    (Raise WorkfrontAPIError, empty_world).
Proof.
  destruct (make_request_method (env_ok []) "delete" "task" None (Some "T1") None
              None empty_world eq_refl) as [Hcase Hraise].
  split; [exact Hcase|].
  apply Hraise; vm_compute; discriminate.
Defined.

(** A PUT that gets a connection error: one request, and
    [WorkfrontAPIError] comes out. *)
Lemma make_request_at_most_one_request_witness :
  let run := _make_request (env_task_update_fails []) "put" "task" None (Some "T1")
               None (Some ("status", "CPL")) empty_world in
  fst run = Raise WorkfrontAPIError /\
  fst run <> Raise RequestException /\
  fs (snd run) = fs empty_world.
Proof.
  cbn zeta.
  pose (w' := snd (_make_request (env_task_update_fails []) "put" "task" None
                     (Some "T1") None (Some ("status", "CPL")) empty_world)).
  assert (Hrun : _make_request (env_task_update_fails []) "put" "task" None
                   (Some "T1") None (Some ("status", "CPL")) empty_world
                 = (Raise WorkfrontAPIError, w')) by (vm_compute; reflexivity).
  destruct (make_request_at_most_one_request (env_task_update_fails [])
              _ _ _ _ _ _ _ _ _ Hrun) as (Hfs & _ & Hne).
  rewrite Hrun. cbn [fst snd]. split; [reflexivity|]. split; [exact Hne|exact Hfs].
Defined.

(** Document A, every call going through: one download, one upload, one
    update. *)
Lemma process_document_single_attempt_witness :
  exists new : list Event,
    trace (snd (process_document sample_config (env_ok []) doc_A "sid" empty_world))
      = trace empty_world ++ new /\
    count_events is_download new = 1%nat /\
    (count_events is_put new <= count_events is_upload new <= 1)%nat.
Proof.
  pose (w' := snd (process_document sample_config (env_ok []) doc_A "sid"
                     empty_world)).
  assert (Hrun : process_document sample_config (env_ok []) doc_A "sid" empty_world
                 = (Ret (true, "CPL"), w')) by (vm_compute; reflexivity).
  exact (process_document_single_attempt sample_config (env_ok []) _ _ _ _ _ Hrun).
Defined.

(** The download of A gets an HTTP error: [(False, "ERR")] after that one
    request. *)
Lemma process_document_download_request_fails_witness :
  process_document sample_config env_download_fails doc_A "sid" empty_world
    = (Ret (false, "ERR"), push empty_world (EvDownload "A" "sid" false)).
Proof.
  destruct (process_document_download_request_fails sample_config
              env_download_fails doc_A "sid" empty_world RequestException eq_refl)
    as (r & Hrun & Hhttp & _).
  rewrite Hrun. f_equal. exact (Hhttp eq_refl).
Defined.

(** The bytes of A end up in [/tmp/tmp1]. *)
Lemma download_to_temp_file_stores_content_witness :
  fs (snd (_download_to_temp_file (env_ok []) doc_A "sid" empty_world))
    !! "/tmp/tmp1" = Some [].
Proof.
  pose (w1 := snd (_download_to_temp_file (env_ok []) doc_A "sid" empty_world)).
  assert (Hd : _download_to_temp_file (env_ok []) doc_A "sid" empty_world
                 = (Ret "/tmp/tmp1", w1)) by (vm_compute; reflexivity).
  destruct (download_to_temp_file_stores_content (env_ok []) _ _ _ _ _ Hd)
    as (_ & (content & Hreq & Hfile) & _).
  vm_compute in Hreq. inversion Hreq; subst. exact Hfile.
Defined.

(** Cleaning up a path that does not exist does nothing. *)
Lemma cleanup_temp_file_best_effort_witness :
  _cleanup_temp_file (env_ok []) "/tmp/none" empty_world = (Ret tt, empty_world).
Proof.
  destruct (cleanup_temp_file_best_effort (env_ok []) "/tmp/none" empty_world
              _ _ (surjective_pairing _)) as (_ & Hmissing & _).
  destruct (Hmissing eq_refl) as [Hr Hw].
  rewrite (surjective_pairing (_cleanup_temp_file _ _ _)). by rewrite Hr, Hw.
Defined.

(** Even when [os.remove] fails, a file next to the temporary one is left
    alone. *)
Lemma process_document_touches_only_its_file_witness :
  let w := {| fs := {[ "/tmp/keep" := [] ]}; trace := [] |} in
  fs (snd (process_document sample_config (env_fs_faults [] remove_fails) doc_A
             "sid" w)) !! "/tmp/keep" = Some [].
Proof.
  cbn zeta.
  rewrite (process_document_touches_only_its_file sample_config
             (env_fs_faults [] remove_fails) doc_A "sid" _ _ _ "/tmp/keep"
             (surjective_pairing _)).
  - reflexivity.
  - vm_compute. discriminate.
Defined.

(** An upload with no folder given goes to the configured folder. *)
Lemma upload_file_one_call_witness :
  snd (upload_file sample_config (env_ok []) "/tmp/tmp1" "A" "a.png" "auto" None
         empty_world)
    = push empty_world (EvUpload "/tmp/tmp1" "auto" "workfront" "a.png" "A" true).
Proof.
  pose (w' := snd (upload_file sample_config (env_ok []) "/tmp/tmp1" "A" "a.png"
                     "auto" None empty_world)).
  assert (Hrun : upload_file sample_config (env_ok []) "/tmp/tmp1" "A" "a.png"
                   "auto" None empty_world
                 = (Ret (Some "https://res.cloudinary.com/demo/A"), w'))
    by (vm_compute; reflexivity).
  exact (proj1 (upload_file_one_call sample_config (env_ok []) _ _ _ _ _ _ _ _ Hrun)).
Defined.

(** Task T2, the upload of A being rejected: B is still downloaded. *)
Lemma process_task_documents_attempts_every_document_witness :
  downloaded_ids
    (trace (snd (process_task_documents sample_config (env_upload_fails [] "A")
                   task_T2 "sid" empty_world))) = ["A"; "B"].
Proof.
  pose (w' := snd (process_task_documents sample_config (env_upload_fails [] "A")
                     task_T2 "sid" empty_world)).
  assert (Hrun : process_task_documents sample_config (env_upload_fails [] "A")
                   task_T2 "sid" empty_world = (Ret "ERR", w'))
    by (vm_compute; reflexivity).
  exact (process_task_documents_attempts_every_document sample_config
           (env_upload_fails [] "A") _ _ _ _ _ Hrun).
Defined.

(** Task T2, the upload of A being rejected: the error code is returned,
    nothing is raised. *)
Lemma process_task_documents_contains_modelled_errors_witness :
  fst (process_task_documents sample_config (env_upload_fails [] "A") task_T2 "sid"
         empty_world) = Ret "ERR".
Proof.
  pose (w' := snd (process_task_documents sample_config (env_upload_fails [] "A")
                     task_T2 "sid" empty_world)).
  assert (Hrun : process_task_documents sample_config (env_upload_fails [] "A")
                   task_T2 "sid" empty_world = (Ret "ERR", w'))
    by (vm_compute; reflexivity).
  destruct (process_task_documents_contains_modelled_errors sample_config
              (env_upload_fails [] "A") _ _ _ _ _ Hrun) as [Hcodes _].
  rewrite Hrun. cbn [fst]. by destruct (Hcodes "ERR" eq_refl).
Defined.

(** The search gets an HTTP error: the empty list, after that one
    request. *)
Lemma find_tasks_for_upload_result_witness :
  find_tasks_for_upload sample_config env_search_fails empty_world
    = (Ret [], push empty_world (EvGet (search_url sample_config) false)).
Proof.
  destruct (find_tasks_for_upload_result sample_config env_search_fails empty_world
              _ _ (surjective_pairing _)) as (Hw & _ & _ & Hhttp & _).
  rewrite (surjective_pairing (find_tasks_for_upload _ _ _)).
  rewrite Hw, (Hhttp eq_refl). reflexivity.
Defined.

(** Tasks T1 (two documents), the empty one and T3 (one document): three
    documents. *)
Lemma process_tasks_total_documents_witness :
  exists stats w',
    process_tasks sample_config (env_ok []) [task_T1; task_empty; task_T3] "sid"
      empty_world = (Ret stats, w') /\
    total_documents stats = 3.
Proof.
  pose (w' := snd (process_tasks sample_config (env_ok [])
                     [task_T1; task_empty; task_T3] "sid" empty_world)).
  pose (stats := {| total_tasks := 3; successful_tasks := 2; failed_tasks := 1;
                    total_documents := 3 |}).
  assert (Hrun : process_tasks sample_config (env_ok [])
                   [task_T1; task_empty; task_T3] "sid" empty_world
                 = (Ret stats, w')) by (vm_compute; reflexivity).
  exists stats, w'. split; [exact Hrun|].
  exact (process_tasks_total_documents sample_config (env_ok []) _ _ _ _ _ Hrun).
Defined.

(** Task T2 (the upload of A rejected) and T3: one status update to "CPL"
    went through, one successful task. *)
Lemma successful_tasks_are_completed_updates_witness :
  exists stats w' (new : list Event),
    process_tasks sample_config (env_upload_fails [] "A") [task_T2; task_T3] "sid"
      empty_world = (Ret stats, w') /\
    trace w' = trace empty_world ++ new /\
    successful_tasks stats = 1 /\
    count_events (is_status_set "CPL") new = 1%nat.
Proof.
  pose (w' := snd (process_tasks sample_config (env_upload_fails [] "A")
                     [task_T2; task_T3] "sid" empty_world)).
  pose (stats := {| total_tasks := 2; successful_tasks := 1; failed_tasks := 1;
                    total_documents := 3 |}).
  assert (Hrun : process_tasks sample_config (env_upload_fails [] "A")
                   [task_T2; task_T3] "sid" empty_world = (Ret stats, w'))
    by (vm_compute; reflexivity).
  assert (Hcodes : TASK_COMPLETE sample_config <> TASK_ERROR sample_config)
    by discriminate.
  destruct (successful_tasks_are_completed_updates sample_config
              (env_upload_fails [] "A") [task_T2; task_T3] "sid" empty_world
              stats w' Hcodes Hrun) as (new & Htr & Hcount).
  exists stats, w', new. split; [exact Hrun|]. split; [exact Htr|].
  split; [reflexivity|].
  change (successful_tasks stats) with (Z.of_nat 1) in Hcount.
  by apply Nat2Z.inj in Hcount.
Defined.

(** Every status update gets a connection error: for each of the two
    tasks, its documents, a status update that fails and a second one with
    the error code. *)
Lemma status_updates_per_task_witness :
  exists new : list Event,
    trace (snd (process_tasks sample_config (env_task_update_fails [])
                  [task_T1; task_T3] "sid" empty_world))
      = trace empty_world ++ new /\
    tasks_trace sample_config [task_T1; task_T3] new /\
    (2 <= count_events is_status_put new <= 4)%nat.
Proof.
  pose (w' := snd (process_tasks sample_config (env_task_update_fails [])
                     [task_T1; task_T3] "sid" empty_world)).
  pose (stats := {| total_tasks := 2; successful_tasks := 0; failed_tasks := 2;
                    total_documents := 3 |}).
  assert (Hrun : process_tasks sample_config (env_task_update_fails [])
                   [task_T1; task_T3] "sid" empty_world = (Ret stats, w'))
    by (vm_compute; reflexivity).
  exact (status_updates_per_task sample_config (env_task_update_fails [])
           _ _ _ _ _ Hrun).
Defined.

(** Three task dictionaries, the second without ['ID']: the [KeyError]
    comes out of [process_tasks] once the first task has been processed,
    and the third task gets no request. *)
Lemma process_tasks_exceptions_witness :
  let dicts := [dict_of_task task_T3; dict_without_ID; dict_of_task task_T1] in
  fst (process_tasks_dicts sample_config (env_ok []) dicts "sid" empty_world)
    = Raise KeyError /\
  exists (before : list TaskDict) (task : TaskDict) (rest : list TaskDict)
         (tasks : list Task) (stats : Stats),
    dicts = before ++ task :: rest /\
    Forall2 (fun task task' => task_of_dict task = Ret task') before tasks /\
    ((dict_ID task = None /\ KeyError = KeyError) \/
     (is_Some (dict_ID task) /\ dict_documents task = DocumentsUnsized /\
      KeyError = TypeError)) /\
    process_tasks_loop sample_config (env_ok []) tasks "sid"
      {| total_tasks := 3; successful_tasks := 0; failed_tasks := 0;
         total_documents := 0 |} empty_world
      = (Ret stats,
         snd (process_tasks_dicts sample_config (env_ok []) dicts "sid"
                empty_world)).
Proof.
  cbn zeta.
  pose (w' := snd (process_tasks_dicts sample_config (env_ok [])
                     [dict_of_task task_T3; dict_without_ID; dict_of_task task_T1]
                     "sid" empty_world)).
  assert (Hrun : process_tasks_dicts sample_config (env_ok [])
                   [dict_of_task task_T3; dict_without_ID; dict_of_task task_T1]
                   "sid" empty_world = (Raise KeyError, w'))
    by (vm_compute; reflexivity).
  split; [by rewrite Hrun|].
  destruct (proj1 (process_tasks_exceptions sample_config (env_ok []) _ "sid"
                     empty_world) _ _ Hrun) as [Hint|Hbad].
  - discriminate Hint.
  - exact Hbad.
Defined.

(** Document A, every call going through: the complete code, after the
    download into [/tmp/tmp1], the upload of [/tmp/tmp1] and the PUT of the
    URL that Cloudinary answered. *)
Lemma process_document_success_means_all_steps_witness :
  exists content url code (post : list Event),
    fst (_download_to_temp_file (env_ok []) doc_A "sid" empty_world)
      = Ret "/tmp/tmp1" /\
    requests_download (env_ok []) 0 "A" "sid" = Ret content /\
    cloudinary_upload (env_ok []) 3 "/tmp/tmp1" "auto" "workfront" "a.png" "A"
      = Ret (Some url) /\
    requests_put (env_ok []) 4 (object_url "document" "A")
      (Some ("description", url)) = Ret code /\
    Forall (fun ev => exists op ok, ev = EvFs op ok) post /\
    trace (snd (process_document sample_config (env_ok []) doc_A "sid" empty_world))
      = trace empty_world ++
          [EvDownload "A" "sid" true;
           EvFs (OpCreate "/tmp/tmp1") true; EvFs (OpWrite "/tmp/tmp1") true;
           EvUpload "/tmp/tmp1" "auto" "workfront" "a.png" "A" true;
           EvPut (object_url "document" "A") (Some ("description", url)) true]
          ++ post.
Proof.
  pose (w' := snd (process_document sample_config (env_ok []) doc_A "sid"
                     empty_world)).
  assert (Hrun : process_document sample_config (env_ok []) doc_A "sid" empty_world
                 = (Ret (true, "CPL"), w')) by (vm_compute; reflexivity).
  destruct (process_document_success_means_all_steps sample_config (env_ok [])
              _ _ _ _ _ _ Hrun) as [_ Hsteps].
  exact (proj2 (Hsteps eq_refl)).
Defined.

(** The search gets an HTTP error: the run is the login and the search,
    and nothing else. *)
Lemma main_interactions_witness :
  trace (snd (main sample_config env_search_fails empty_world))
    = [EvOAuth true; EvGet (search_url sample_config) false].
Proof.
  destruct (main_interactions sample_config env_search_fails empty_world
              _ _ (surjective_pairing _))
    as [Hnone|[(ok & Hone)|(ok & rest & Hshape & Hfail & _)]].
  - vm_compute in Hnone. discriminate Hnone.
  - vm_compute in Hone. discriminate Hone.
  - rewrite Hshape.
    assert (ok = false) as ->.
    { vm_compute in Hshape. by inversion Hshape. }
    by rewrite (Hfail eq_refl).
Defined.

Lemma env_ok_reliable found : reliable (env_ok found).
Proof. repeat split; intros; by eexists. Qed.

(** Tasks T1 and T3, every call going through: two successful tasks. *)
Lemma nothing_fails_everything_succeeds_witness :
  exists stats w',
    process_tasks sample_config (env_ok []) [task_T1; task_T3] "sid" empty_world
      = (Ret stats, w') /\
    successful_tasks stats = 2 /\ failed_tasks stats = 0.
Proof.
  destruct (nothing_fails_everything_succeeds sample_config (env_ok []) "sid"
              (env_ok_reliable [])) as [_ Htasks].
  apply (Htasks [task_T1; task_T3] empty_world).
  repeat constructor; discriminate.
Defined.

(** The task without documents: status updates with the error code only,
    and one more failed task. *)
Lemma process_task_without_documents_witness :
  exists stats' w',
    process_task sample_config (env_ok []) task_empty "sid"
      {| total_tasks := 1; successful_tasks := 0; failed_tasks := 0;
         total_documents := 0 |} empty_world = (Ret stats', w') /\
    failed_tasks stats' = 1 /\
    (trace w' =
       trace empty_world ++
         [EvPut (object_url "task" "T4") (Some ("status", "ERR")) true] \/
     exists ok,
       trace w' =
         trace empty_world ++
           [EvPut (object_url "task" "T4") (Some ("status", "ERR")) false;
            EvPut (object_url "task" "T4") (Some ("status", "ERR")) ok]).
Proof.
  pose (stats := {| total_tasks := 1; successful_tasks := 0; failed_tasks := 0;
                    total_documents := 0 |}).
  pose (stats' := {| total_tasks := 1; successful_tasks := 0; failed_tasks := 1;
                     total_documents := 0 |}).
  pose (w' := snd (process_task sample_config (env_ok []) task_empty "sid" stats
                     empty_world)).
  assert (Hrun : process_task sample_config (env_ok []) task_empty "sid" stats
                   empty_world = (Ret stats', w')) by (vm_compute; reflexivity).
  destruct (process_task_without_documents sample_config (env_ok []) task_empty
              "sid" stats empty_world _ _ eq_refl Hrun) as [Htrace Hfailed].
  exists stats', w'. split; [exact Hrun|]. split; [reflexivity|exact Htrace].
Defined.

(** Task T3 with its one document: six interactions for the document, then
    one status update. *)
Lemma status_written_after_documents_witness :
  exists documents_part status_part : list Event,
    trace (snd (process_task sample_config (env_ok []) task_T3 "sid"
                  {| total_tasks := 1; successful_tasks := 0; failed_tasks := 0;
                     total_documents := 0 |} empty_world))
      = trace empty_world ++ documents_part ++ status_part /\
    Forall (fun ev => exists d, d ∈ documents_of task_T3 /\ document_event d ev)
      documents_part /\
    Forall (fun ev => is_task_update "T3" ev = true) status_part /\
    (length status_part <= 2)%nat.
Proof.
  exact (status_written_after_documents sample_config (env_ok []) task_T3 "sid"
           _ empty_world _ _ (surjective_pairing _)).
Defined.
